(** * moto: Glue and Greengrass backends

    A shallow embedding of [moto/glue/models.py] and
    [moto/greengrass/models.py], followed by the properties of the
    region-scoped backend stores.

    Conventions of the embedding.
    - A Python [str] is a Rocq [string]; a character is read as the code
      point of the same number (0..255).
    - An [OrderedDict] (and a plain [dict], which keeps insertion order as
      well) keyed by strings is an association list in insertion order.
    - A method that mutates [self] or raises is a computation in the monad
      [M]: it takes the state and returns the outcome together with the
      state as the exception, if any, left it.
    - [uuid.uuid4()], [datetime.utcnow()] and [time.time()] are reads of an
      oracle: the n-th read of the process returns the oracle's n-th value.
    - Objects are stored by value; where the source keeps using an object
      after storing it, the embedding updates the stored copy. *)

From Stdlib Require Import ZArith List String Ascii Bool Arith Lia.
From Stdlib Require Import DecimalString.
Import ListNotations.
Open Scope string_scope.

(* ================================================================== *)
(** * Python builtins *)

Module Py.

(** The builtin exceptions that the two modules raise or let escape. *)
Inductive error : Type :=
  | KeyError (key : string)
  | ValueError (msg : string)
  | IndexError
  | AttributeError
  | TypeError.

Inductive result (E A : Type) : Type :=
  | Ok (a : A)
  | Raise (e : E).
Arguments Ok {E A} a.
Arguments Raise {E A} e.

(** JSON-shaped request payloads. *)
#[local] Set Warnings "-register-all".
#[local] Unset Elimination Schemes.
Inductive json : Type :=
  | JNull
  | JBool (b : bool)
  | JNum (z : Z)
  | JStr (s : string)
  | JList (l : list json)
  | JDict (d : list (string * json)).
#[local] Set Elimination Schemes.

(** ** Characters *)

Definition code (c : ascii) : nat := nat_of_ascii c.

Definition in_range (lo hi : nat) (c : ascii) : bool :=
  (lo <=? code c)%nat && (code c <=? hi)%nat.

Definition is_digit (c : ascii) : bool := in_range 48 57 c.
Definition is_lower (c : ascii) : bool := in_range 97 122 c.
Definition is_upper (c : ascii) : bool := in_range 65 90 c.

(** The whitespace that [int] drops, on the code points below 256: the
    ASCII whitespace, NEL and the no-break space. *)
Definition is_space (c : ascii) : bool :=
  in_range 9 13 c || (code c =? 32)%nat
  || (code c =? 133)%nat || (code c =? 160)%nat.

(** [str.isprintable] on the code points below 256. *)
Definition is_printable (c : ascii) : bool :=
  in_range 32 126 c
  || (in_range 161 255 c && negb (code c =? 173)%nat).

(** ** Strings *)

Definition chars (s : string) : list ascii := list_ascii_of_string s.
Definition str_of (l : list ascii) : string := string_of_list_ascii l.

(** [s.startswith(p)] *)
Definition startswith (s p : string) : bool := String.prefix p s.

(** [sep.join(l)] *)
Definition join (sep : string) (l : list string) : string :=
  String.concat sep l.

(** [c in s] for a character [c] *)
Fixpoint has_char (c : ascii) (s : string) : bool :=
  match s with
  | EmptyString => false
  | String d s' => Ascii.eqb c d || has_char c s'
  end.

(** [s.split(sep)] for a one-character separator: the pieces between the
    separators, [acc] holding the current piece in reverse. *)
Fixpoint split_aux (sep : ascii) (s : string) (acc : list ascii)
  : list string :=
  match s with
  | EmptyString => [str_of (rev acc)]
  | String c s' =>
      if Ascii.eqb c sep
      then str_of (rev acc) :: split_aux sep s' []
      else split_aux sep s' (c :: acc)
  end.

Definition split (sep : ascii) (s : string) : list string :=
  split_aux sep s [].

(** ** Sequences: [l[i]] with Python's negative indices *)

Definition getitem {A : Type} (l : list A) (i : Z) : result error A :=
  let n := Z.of_nat (List.length l) in
  let j := if (i <? 0)%Z then (i + n)%Z else i in
  if ((0 <=? j) && (j <? n))%Z
  then match nth_error l (Z.to_nat j) with
       | Some a => Ok a
       | None => Raise IndexError
       end
  else Raise IndexError.

(** ** [repr] of a string *)

Definition hex_digit (n : nat) : ascii :=
  if (n <? 10)%nat then ascii_of_nat (48 + n) else ascii_of_nat (87 + n).

Definition backslash : ascii := ascii_of_nat 92.
Definition squote : ascii := ascii_of_nat 39.
Definition dquote : ascii := ascii_of_nat 34.

(** The escape of one character inside quotes [q]. *)
Definition repr_char (q c : ascii) : list ascii :=
  if Ascii.eqb c q || Ascii.eqb c backslash then [backslash; c]
  else if (code c =? 9)%nat then [backslash; "t"%char]
  else if (code c =? 10)%nat then [backslash; "n"%char]
  else if (code c =? 13)%nat then [backslash; "r"%char]
  else if is_printable c then [c]
  else [backslash; "x"%char;
        hex_digit (code c / 16); hex_digit (code c mod 16)].

(** Single quotes, unless the string has a single quote and no double
    one. *)
Definition repr_quote (s : string) : ascii :=
  if has_char squote s && negb (has_char dquote s) then dquote else squote.

Definition repr_body (q : ascii) (s : string) : list ascii :=
  flat_map (repr_char q) (chars s).

Definition repr (s : string) : string :=
  let q := repr_quote s in
  str_of (q :: repr_body q s ++ [q])%list.

(** [str(l)] for a list of strings: ['a', 'b'] *)
Definition str_list (l : list string) : string :=
  "[" ++ join ", " (map repr l) ++ "]".

(** ** [int(s)] for a string, base 10

    The whitespace in front is dropped, one sign is allowed, then come
    the digits, which single underscores may group, then whitespace up
    to the end.  The interpreter refuses more than 4300 digits (the
    default of [sys.get_int_max_str_digits()]), and it does so once it
    has read the digits, before it looks at what follows them.  The
    message of a literal that is not a number shows the first 200
    characters of its [repr]. *)

Fixpoint drop_spaces (l : list ascii) : list ascii :=
  match l with
  | c :: l' => if is_space c then drop_spaces l' else l
  | [] => []
  end.

Definition digit_val (c : ascii) : Z := Z.of_nat (code c - 48).

(** The digits at the head of [l]: their value, their number, and what
    follows them; nothing for two underscores in a row and for an
    underscore that no digit follows.  [us] tells that the previous
    character was an underscore. *)
Fixpoint scan_digits (l : list ascii) (acc : Z) (digits : nat) (us : bool)
  : option (Z * nat * list ascii) :=
  match l with
  | [] => if us then None else Some (acc, digits, [])
  | c :: l' =>
      if is_digit c
      then scan_digits l' (10 * acc + digit_val c)%Z (S digits) false
      else if Ascii.eqb c "_"%char
           then if us then None else scan_digits l' acc digits true
           else if us then None else Some (acc, digits, l)
  end.

Definition max_str_digits : nat := 4300.

Inductive parsed : Type :=
  | Value (z : Z)
  | TooManyDigits (digits : nat)
  | Invalid.

(** The number after the sign: it starts with a digit. *)
Definition parse_nat (l : list ascii) : parsed :=
  match l with
  | c :: _ =>
      if is_digit c
      then match scan_digits l 0 0 false with
           | Some (z, digits, rest) =>
               if (max_str_digits <? digits)%nat then TooManyDigits digits
               else match drop_spaces rest with
                    | [] => Value z
                    | _ :: _ => Invalid
                    end
           | None => Invalid
           end
      else Invalid
  | [] => Invalid
  end.

Definition negate (p : parsed) : parsed :=
  match p with
  | Value z => Value (- z)
  | _ => p
  end.

Definition parse_int (l : list ascii) : parsed :=
  match drop_spaces l with
  | c :: l' =>
      if Ascii.eqb c "-"%char then negate (parse_nat l')
      else if Ascii.eqb c "+"%char then parse_nat l'
      else parse_nat (c :: l')
  | [] => Invalid
  end.

(** [str(n)] for a natural number *)
Definition str_nat (n : nat) : string :=
  NilEmpty.string_of_uint (Nat.to_uint n).

(** The messages of the two [ValueError]s. *)
Definition invalid_literal (s : string) : string :=
  "invalid literal for int() with base 10: "
  ++ str_of (firstn 200 (chars (repr s))).

Definition too_many_digits (digits : nat) : string :=
  "Exceeds the limit (" ++ str_nat max_str_digits
  ++ " digits) for integer string conversion: value has "
  ++ str_nat digits
  ++ " digits; use sys.set_int_max_str_digits() to increase the limit".

Definition int (s : string) : result error Z :=
  match parse_int (chars s) with
  | Value z => Ok z
  | TooManyDigits digits => Raise (ValueError (too_many_digits digits))
  | Invalid => Raise (ValueError (invalid_literal s))
  end.

End Py.


(* ================================================================== *)
(** * Ordered dictionaries *)

Module OrderedDict.

Section Dict.
Context {V : Type}.

Definition t := list (string * V).

Definition empty : t := [].

(** [d.get(k)] *)
Fixpoint get (k : string) (d : t) : option V :=
  match d with
  | [] => None
  | (k', v) :: d' => if String.eqb k k' then Some v else get k d'
  end.

(** [k in d] *)
Definition contains (k : string) (d : t) : bool :=
  match get k d with Some _ => true | None => false end.

Fixpoint replace (k : string) (v : V) (d : t) : t :=
  match d with
  | [] => []
  | (k', v') :: d' =>
      if String.eqb k k' then (k', v) :: replace k v d'
      else (k', v') :: replace k v d'
  end.

(** [d[k] = v]: a key that is present keeps its place, a new one goes
    to the end. *)
Definition set (k : string) (v : V) (d : t) : t :=
  if contains k d then replace k v d else (d ++ [(k, v)])%list.

(** [del d[k]], [d.pop(k, None)] *)
Fixpoint remove (k : string) (d : t) : t :=
  match d with
  | [] => []
  | (k', v') :: d' =>
      if String.eqb k k' then remove k d' else (k', v') :: remove k d'
  end.

Definition keys (d : t) : list string := map fst d.
Definition values (d : t) : list V := map snd d.

(** The place of a key in the listing order. *)
Fixpoint index (k : string) (d : t) : option nat :=
  match d with
  | [] => None
  | (k', _) :: d' =>
      if String.eqb k k' then Some 0
      else option_map S (index k d')
  end.
End Dict.

Arguments t V : clear implicits.

End OrderedDict.

(* ================================================================== *)
(** * Effects: state, exceptions, and the oracle of the process *)

Module Eff.

(** What the process reads from outside: the random ids, the clock, and
    the account id that [moto.core.get_account_id] answers. *)
Record Oracle : Type := {
  uuid4 : nat -> string;
  clock : nat -> Z;
  get_account_id : string
}.

(** A store together with the number of oracle reads made so far. *)
Record World (S : Type) : Type := mkWorld {
  store : S;
  reads : nat
}.
Arguments mkWorld {S} store reads.
Arguments store {S} w.
Arguments reads {S} w.

Definition M (E S A : Type) : Type := World S -> Py.result E A * World S.

Section Monad.
Context {E S : Type}.

Definition ret {A} (a : A) : M E S A := fun w => (Py.Ok a, w).

Definition bind {A B} (m : M E S A) (k : A -> M E S B) : M E S B :=
  fun w =>
    match m w with
    | (Py.Ok a, w') => k a w'
    | (Py.Raise e, w') => (Py.Raise e, w')
    end.

Definition raise {A} (e : E) : M E S A := fun w => (Py.Raise e, w).

Definition read : M E S S := fun w => (Py.Ok (store w), w).

Definition modify (f : S -> S) : M E S unit :=
  fun w => (Py.Ok tt, mkWorld (f (store w)) (reads w)).

(** The next value of an oracle stream. *)
Definition next {A} (stream : nat -> A) : M E S A :=
  fun w =>
    (Py.Ok (stream (reads w)), mkWorld (store w) (Datatypes.S (reads w))).

End Monad.

Module Notations.
  Notation "x <- m ;; k" := (bind m (fun x => k))
    (at level 61, m at next level, right associativity).
  Notation "m ;;; k" := (bind m (fun _ => k))
    (at level 61, right associativity).
End Notations.

End Eff.

(* ================================================================== *)
(** * Regular expressions, as [re.match] reads the patterns of the code *)

Module Re.

Inductive re : Type :=
  | Empty
  | Eps
  | Class (p : ascii -> bool)
  | Seq (r1 r2 : re)
  | Alt (r1 r2 : re)
  | Star (r : re).

Fixpoint nullable (r : re) : bool :=
  match r with
  | Empty => false
  | Eps => true
  | Class _ => false
  | Seq r1 r2 => nullable r1 && nullable r2
  | Alt r1 r2 => nullable r1 || nullable r2
  | Star _ => true
  end.

(** Sequence and alternative, dropping the parts that match nothing. *)
Definition seq (r1 r2 : re) : re :=
  match r1, r2 with
  | Empty, _ => Empty
  | _, Empty => Empty
  | Eps, _ => r2
  | _, _ => Seq r1 r2
  end.

Definition alt (r1 r2 : re) : re :=
  match r1, r2 with
  | Empty, _ => r2
  | _, Empty => r1
  | _, _ => Alt r1 r2
  end.

(** The derivative: what is left of [r] after the character [c]. *)
Fixpoint deriv (c : ascii) (r : re) : re :=
  match r with
  | Empty => Empty
  | Eps => Empty
  | Class p => if p c then Eps else Empty
  | Seq r1 r2 =>
      if nullable r1
      then alt (seq (deriv c r1) r2) (deriv c r2)
      else seq (deriv c r1) r2
  | Alt r1 r2 => alt (deriv c r1) (deriv c r2)
  | Star r' => seq (deriv c r') (Star r')
  end.

(** The whole of [l] matches [r]. *)
Fixpoint fullmatch (r : re) (l : list ascii) : bool :=
  match l with
  | [] => nullable r
  | c :: l' => fullmatch (deriv c r) l'
  end.

(** A literal string. *)
Fixpoint Lit (s : string) : re :=
  match s with
  | EmptyString => Eps
  | String c s' => Seq (Class (Ascii.eqb c)) (Lit s')
  end.

(** [r+] and [r{n}] *)
Definition Plus (r : re) : re := Seq r (Star r).

Fixpoint Rep (n : nat) (r : re) : re :=
  match n with
  | O => Eps
  | S n' => Seq r (Rep n' r)
  end.

(** [re.match("^r$", s)]: [r] from the start of [s] up to its end, or up
    to a line feed that ends [s]. *)
Definition newline : ascii := ascii_of_nat 10.

Definition match_anchored (r : re) (s : string) : bool :=
  fullmatch (Seq r (Alt Eps (Class (Ascii.eqb newline)))) (Py.chars s).

(** [re.match(r, s)] for a pattern without anchors: [r] from the start
    of [s], whatever follows. *)
Fixpoint match_prefix (r : re) (l : list ascii) : bool :=
  nullable r
  || match l with
     | [] => false
     | c :: l' => match_prefix (deriv c r) l'
     end.

(** ** The character classes of the patterns *)

Definition is_dash (c : ascii) : bool := Ascii.eqb c "-"%char.
Definition is_underscore (c : ascii) : bool := Ascii.eqb c "_"%char.

(** [[a-zA-Z0-9-]] *)
Definition alnum_dash (c : ascii) : bool :=
  Py.is_lower c || Py.is_upper c || Py.is_digit c || is_dash c.

(** [[a-zA-Z0-9-_]]: after the range [0-9] the dash is a literal *)
Definition word_dash (c : ascii) : bool :=
  Py.is_lower c || Py.is_upper c || Py.is_digit c || is_dash c
  || is_underscore c.

(** [[a-z0-9-]] *)
Definition lower_digit_dash (c : ascii) : bool :=
  Py.is_lower c || Py.is_digit c || is_dash c.

(** ** What a pattern denotes *)

Inductive Matches : re -> list ascii -> Prop :=
  | MEps : Matches Eps []
  | MClass p c : p c = true -> Matches (Class p) [c]
  | MSeq r1 r2 l1 l2 :
      Matches r1 l1 -> Matches r2 l2 -> Matches (Seq r1 r2) (l1 ++ l2)%list
  | MAltL r1 r2 l : Matches r1 l -> Matches (Alt r1 r2) l
  | MAltR r1 r2 l : Matches r2 l -> Matches (Alt r1 r2) l
  | MStarNil r : Matches (Star r) []
  | MStarCons r l1 l2 :
      Matches r l1 -> Matches (Star r) l2 -> Matches (Star r) (l1 ++ l2)%list.

End Re.

(* ================================================================== *)
(** * moto/glue/models.py *)

Module Glue.
Import Eff Eff.Notations.

(** The exception classes that [models.py] imports from
    [moto.glue.exceptions], with their constructor arguments. *)
Inductive exn : Type :=
  | Builtin (e : Py.error)
  | CrawlerRunningException (msg : string)
  | CrawlerNotRunningException (msg : string)
  | JsonRESTError (error_type message : string)
  | CrawlerAlreadyExistsException
  | CrawlerNotFoundException (crawler : string)
  | DatabaseAlreadyExistsException
  | DatabaseNotFoundException (db : string)
  | TableAlreadyExistsException
  | TableNotFoundException (tbl : string)
  | PartitionAlreadyExistsException
  | PartitionNotFoundException
  | VersionNotFoundException
  | JobNotFoundException (job : string)
  | ConcurrentRunsExceededException (msg : string)
  | GSRAlreadyExistsException
      (operation_name resource param_name param_value : string)
  | ResourceNumberLimitExceededException (operation_name resource : string)
  | ResourceNameTooLongException (operation_name param_name : string)
  | ParamValueContainsInvalidCharactersException
      (operation_name param_name : string)
  | InvalidNumberOfTagsException (operation_name : string).

Definition dict := OrderedDict.t Py.json.

(** A partition input: the dict of the request, its ["Values"] entry
    apart (it may be missing). *)
Record PartitionInput : Type := {
  Values : option (list string);
  other_fields : dict
}.

Record FakePartition : Type := {
  creation_time : Z;
  p_database_name : string;
  p_table_name : string;
  partition_input : PartitionInput;
  p_values : list string
}.

Record FakeTable : Type := {
  t_database_name : string;
  t_name : string;
  partitions : OrderedDict.t FakePartition;
  t_created_time : Z;
  versions : list dict
}.

Definition set_partitions (ps : OrderedDict.t FakePartition) (t : FakeTable)
  : FakeTable :=
  {| t_database_name := t_database_name t; t_name := t_name t;
     partitions := ps; t_created_time := t_created_time t;
     versions := versions t |}.

Definition set_versions (vs : list dict) (t : FakeTable) : FakeTable :=
  {| t_database_name := t_database_name t; t_name := t_name t;
     partitions := partitions t; t_created_time := t_created_time t;
     versions := vs |}.

Record FakeDatabase : Type := {
  d_name : string;
  d_input : dict;
  d_created_time : Z;
  tables : OrderedDict.t FakeTable
}.

Definition set_tables (ts : OrderedDict.t FakeTable) (d : FakeDatabase)
  : FakeDatabase :=
  {| d_name := d_name d; d_input := d_input d;
     d_created_time := d_created_time d; tables := ts |}.

Definition tags_t := option (OrderedDict.t string).

(** The arguments of [create_crawler] after [name], in their order. *)
Record CrawlerArgs : Type := {
  c_role : Py.json;
  c_database_name : Py.json;
  c_description : Py.json;
  c_targets : Py.json;
  c_schedule : Py.json;
  c_classifiers : Py.json;
  c_table_prefix : Py.json;
  c_schema_change_policy : Py.json;
  c_recrawl_policy : Py.json;
  c_lineage_configuration : Py.json;
  c_configuration : Py.json;
  c_crawler_security_configuration : Py.json;
  c_tags : tags_t
}.

Record FakeCrawler : Type := {
  c_name : string;
  c_args : CrawlerArgs;
  c_state : string;
  c_creation_time : Z;
  c_last_updated : Z;
  c_version : Z;
  c_crawl_elapsed_time : Z;
  c_last_crawl_info : option Py.json;
  c_arn : string
}.

(** The arguments of [create_job] after [name], in their order. *)
Record JobArgs : Type := {
  j_role : Py.json;
  j_command : Py.json;
  j_description : Py.json;
  j_log_uri : Py.json;
  j_execution_property : Py.json;
  j_default_arguments : Py.json;
  j_non_overridable_arguments : Py.json;
  j_connections : Py.json;
  j_max_retries : Py.json;
  j_allocated_capacity : Py.json;
  j_timeout : Py.json;
  j_max_capacity : Py.json;
  j_security_configuration : Py.json;
  j_tags : tags_t;
  j_notification_property : Py.json;
  j_glue_version : Py.json;
  j_number_of_workers : Py.json;
  j_worker_type : Py.json
}.

Record FakeJob : Type := {
  j_name : string;
  j_args : JobArgs;
  j_state : string;
  j_created_on : Z;
  j_last_modified_on : Z;
  j_arn : string
}.

Definition set_c_state (state : string) (c : FakeCrawler) : FakeCrawler :=
  {| c_name := c_name c; c_args := c_args c; c_state := state;
     c_creation_time := c_creation_time c;
     c_last_updated := c_last_updated c; c_version := c_version c;
     c_crawl_elapsed_time := c_crawl_elapsed_time c;
     c_last_crawl_info := c_last_crawl_info c; c_arn := c_arn c |}.

Definition set_j_state (state : string) (j : FakeJob) : FakeJob :=
  {| j_name := j_name j; j_args := j_args j; j_state := state;
     j_created_on := j_created_on j;
     j_last_modified_on := j_last_modified_on j; j_arn := j_arn j |}.

Record FakeJobRun : Type := {
  r_job_name : string;
  r_job_run_id : string;
  r_arguments : option dict;
  r_allocated_capacity : option Z;
  r_timeout : option Z;
  r_worker_type : string;
  r_started_on : Z;
  r_modified_on : Z;
  r_completed_on : Z
}.

Record FakeRegistry : Type := {
  reg_name : string;
  reg_description : option string;
  reg_tags : tags_t;
  reg_created_time : Z;
  reg_updated_time : Z;
  registry_arn : string
}.

Record GlueBackend : Type := {
  region_name : string;
  account_id : string;
  databases : OrderedDict.t FakeDatabase;
  crawlers : OrderedDict.t FakeCrawler;
  jobs : OrderedDict.t FakeJob;
  job_runs : OrderedDict.t FakeJobRun;
  tagger : OrderedDict.t (OrderedDict.t string);
  registries : OrderedDict.t FakeRegistry
}.

Definition set_databases ds (b : GlueBackend) : GlueBackend :=
  {| region_name := region_name b; account_id := account_id b;
     databases := ds; crawlers := crawlers b; jobs := jobs b;
     job_runs := job_runs b; tagger := tagger b;
     registries := registries b |}.

Definition set_crawlers cs (b : GlueBackend) : GlueBackend :=
  {| region_name := region_name b; account_id := account_id b;
     databases := databases b; crawlers := cs; jobs := jobs b;
     job_runs := job_runs b; tagger := tagger b;
     registries := registries b |}.

Definition set_jobs js (b : GlueBackend) : GlueBackend :=
  {| region_name := region_name b; account_id := account_id b;
     databases := databases b; crawlers := crawlers b; jobs := js;
     job_runs := job_runs b; tagger := tagger b;
     registries := registries b |}.

Definition set_tagger tg (b : GlueBackend) : GlueBackend :=
  {| region_name := region_name b; account_id := account_id b;
     databases := databases b; crawlers := crawlers b; jobs := jobs b;
     job_runs := job_runs b; tagger := tg;
     registries := registries b |}.

Definition set_registries rs (b : GlueBackend) : GlueBackend :=
  {| region_name := region_name b; account_id := account_id b;
     databases := databases b; crawlers := crawlers b; jobs := jobs b;
     job_runs := job_runs b; tagger := tagger b;
     registries := rs |}.

(** [GlueBackend.__init__] *)
Definition GlueBackend_init (region account : string) : GlueBackend :=
  {| region_name := region; account_id := account;
     databases := OrderedDict.empty; crawlers := OrderedDict.empty;
     jobs := OrderedDict.empty; job_runs := OrderedDict.empty;
     tagger := OrderedDict.empty; registries := OrderedDict.empty |}.

(** A method call on an object that a store holds: the object is shared
    with the store, so what the method did to it is what the store holds
    afterwards, also when the method raised.  [put] writes the object
    back to its place. *)
Definition on_stored {E S T A} (put : T -> S -> S) (obj : T)
    (method : M E T A) : M E S A :=
  fun w =>
    match method (mkWorld obj (reads w)) with
    | (r, w') => (r, mkWorld (put (store w') (store w)) (reads w'))
    end.

(** ** The patterns and limits of [create_registry] *)

(** [[a-zA-Z0-9-_$#.]]: after the range [0-9] the dash is a literal *)
Definition registry_name_char (c : ascii) : bool :=
  Py.is_lower c || Py.is_upper c || Py.is_digit c || Re.is_dash c
  || Re.is_underscore c || Ascii.eqb c "$"%char || Ascii.eqb c "#"%char
  || Ascii.eqb c "."%char.

(** The class of the description pattern.  The pattern is a raw string
    with doubled backslashes, so that the class holds the backslash, the
    letters [u], [r], [n], [t], the digits and capitals that are written
    out, and three times the range from ["0"] to the backslash. *)
Definition registry_description_char (c : ascii) : bool :=
  Py.in_range 48 92 c || Ascii.eqb c "u"%char || Ascii.eqb c "r"%char
  || Ascii.eqb c "n"%char || Ascii.eqb c "t"%char.

(** [len(s.encode("utf-8"))]: one byte for a code point below 128, two
    for the others of the embedding (up to 255). *)
Fixpoint utf8_length (s : string) : nat :=
  match s with
  | EmptyString => 0
  | String c s' =>
      (if (Py.code c <? 128)%nat then 1 else 2) + utf8_length s'
  end.

(** [description and ...], [tags and ...]: the truth value *)
Definition nonempty_str (description : option string) : bool :=
  match description with
  | Some s => negb (String.eqb s "")
  | None => false
  end.

Definition nonempty_tags (tags : tags_t) : bool :=
  match tags with
  | Some (_ :: _) => true
  | _ => false
  end.

(** The version argument of [get_version]: an [int] or a string. *)
Inductive version_arg : Type :=
  | VerInt (i : Z)
  | VerStr (s : string).

Section WithOracle.
Variable oracle : Oracle.

(** ** FakePartition *)

Definition FakePartition_init {S} (database_name table_name : string)
    (partiton_input : PartitionInput) : M exn S FakePartition :=
  now <- next (clock oracle) ;;
  ret {| creation_time := now;
         p_database_name := database_name;
         p_table_name := table_name;
         partition_input := partiton_input;
         p_values := match Values partiton_input with
                     | Some v => v
                     | None => []
                     end |}.

(** ** FakeTable *)

Definition update (table_input : dict) : M exn FakeTable unit :=
  modify (fun self => set_versions (versions self ++ [table_input])%list self).

Definition FakeTable_init {S} (database_name table_name : string)
    (table_input : dict) : M exn S FakeTable :=
  now <- next (clock oracle) ;;
  let self := {| t_database_name := database_name; t_name := table_name;
                 partitions := OrderedDict.empty; t_created_time := now;
                 versions := [] |} in
  (* self.update(table_input) *)
  ret (set_versions (versions self ++ [table_input])%list self).

Definition get_version (self : FakeTable) (ver : version_arg)
  : Py.result exn dict :=
  let parsed :=
    match ver with
    | VerInt i => Py.Ok i
    | VerStr s =>
        (* "1" goes to [0] *)
        match Py.int s with
        | Py.Ok n => Py.Ok (n - 1)%Z
        | Py.Raise (Py.ValueError e) =>
            Py.Raise (JsonRESTError "InvalidInputException" e)
        | Py.Raise e => Py.Raise (Builtin e)
        end
    end in
  match parsed with
  | Py.Raise e => Py.Raise e
  | Py.Ok i =>
      match Py.getitem (versions self) i with
      | Py.Ok v => Py.Ok v
      | Py.Raise Py.IndexError => Py.Raise VersionNotFoundException
      | Py.Raise e => Py.Raise (Builtin e)
      end
  end.

(** [obj.update(d)] on dicts *)
Definition dict_update (obj d : dict) : dict :=
  fold_left (fun o kv => OrderedDict.set (fst kv) (snd kv) o) d obj.

Variable isoformat : Z -> string.

Definition as_dict (self : FakeTable) (version : version_arg)
  : Py.result exn dict :=
  let obj := [("DatabaseName", Py.JStr (t_database_name self));
              ("Name", Py.JStr (t_name self));
              ("CreateTime", Py.JStr (isoformat (t_created_time self)))] in
  match get_version self version with
  | Py.Ok v => Py.Ok (dict_update obj v)
  | Py.Raise e => Py.Raise e
  end.

(** [as_dict()] with its default argument [version=-1] *)
Definition as_dict_default (self : FakeTable) : Py.result exn dict :=
  as_dict self (VerInt (-1)).

Definition create_partition (partiton_input : PartitionInput)
  : M exn FakeTable unit :=
  self <- read ;;
  partition <- FakePartition_init (t_database_name self) (t_name self)
                 partiton_input ;;
  let key := Py.str_list (p_values partition) in
  if OrderedDict.contains key (partitions self)
  then raise PartitionAlreadyExistsException
  else modify (fun self =>
         set_partitions
           (OrderedDict.set (Py.str_list (p_values partition)) partition
              (partitions self)) self).

Definition get_partition (self : FakeTable) (values : list string)
  : Py.result exn FakePartition :=
  match OrderedDict.get (Py.str_list values) (partitions self) with
  | Some p => Py.Ok p
  | None => Py.Raise PartitionNotFoundException
  end.

Definition update_partition (old_values : list string)
    (partiton_input : PartitionInput) : M exn FakeTable unit :=
  self <- read ;;
  partition <- FakePartition_init (t_database_name self) (t_name self)
                 partiton_input ;;
  let key := Py.str_list (p_values partition) in
  new_values <- match Values partiton_input with
                | Some v => ret v
                | None => raise (Builtin (Py.KeyError "Values"))
                end ;;
  (if list_eq_dec string_dec old_values new_values
   then
     (* Altering a partition in place. Don't remove it so the order of
        returned partitions doesn't change *)
     if OrderedDict.contains key (partitions self)
     then ret tt
     else raise PartitionNotFoundException
   else
     let removed :=
       OrderedDict.get (Py.str_list old_values) (partitions self) in
     modify (fun self =>
       set_partitions
         (OrderedDict.remove (Py.str_list old_values) (partitions self))
         self) ;;;
     match removed with
     | None => raise PartitionNotFoundException
     | Some _ =>
         self <- read ;;
         if OrderedDict.contains key (partitions self)
         then
           (* Trying to update to overwrite a partition that exists *)
           raise PartitionAlreadyExistsException
         else ret tt
     end) ;;;
  modify (fun self =>
    set_partitions (OrderedDict.set key partition (partitions self)) self).

Definition delete_partition (values : list string) : M exn FakeTable unit :=
  self <- read ;;
  if OrderedDict.contains (Py.str_list values) (partitions self)
  then modify (fun self =>
         set_partitions
           (OrderedDict.remove (Py.str_list values) (partitions self)) self)
  else raise PartitionNotFoundException.

(** The ordered listing of the partitions ([self.partitions.values()]). *)
Definition list_partitions (self : FakeTable) : list FakePartition :=
  OrderedDict.values (partitions self).

(** ** Tagging *)

(** Modelled from the spec: [TaggingService] of
    [moto/utilities/tagging_service.py] is not among the sources.
    Tagging merges the given key/value pairs onto whatever is already
    recorded for the ARN, the given value winning per key; the ARN need
    not belong to a live resource. *)
Definition TaggingService_tag_resource (arn : string)
    (tags : OrderedDict.t string)
    (tg : OrderedDict.t (OrderedDict.t string))
  : OrderedDict.t (OrderedDict.t string) :=
  let recorded := match OrderedDict.get arn tg with
                  | Some r => r
                  | None => OrderedDict.empty
                  end in
  OrderedDict.set arn
    (fold_left (fun r kv => OrderedDict.set (fst kv) (snd kv) r)
               tags recorded) tg.

(** [GlueBackend.tag_resource]; [tags or {}] *)
Definition tag_resource (resource_arn : string) (tags : tags_t)
  : M exn GlueBackend unit :=
  let tags := match tags with Some t => t | None => OrderedDict.empty end in
  modify (fun self =>
    set_tagger (TaggingService_tag_resource resource_arn tags (tagger self))
               self).

(** [GlueBackend.get_tags] *)
Definition get_tags (self : GlueBackend) (resource_id : string)
  : OrderedDict.t string :=
  match OrderedDict.get resource_id (tagger self) with
  | Some r => r
  | None => OrderedDict.empty
  end.

(** ** Entities of the backend *)

Definition FakeDatabase_init {S} (database_name : string)
    (database_input : dict) : M exn S FakeDatabase :=
  now <- next (clock oracle) ;;
  ret {| d_name := database_name; d_input := database_input;
         d_created_time := now; tables := OrderedDict.empty |}.

Definition FakeCrawler_init (name : string) (args : CrawlerArgs)
  : M exn GlueBackend FakeCrawler :=
  now <- next (clock oracle) ;;
  let arn := "arn:aws:glue:us-east-1:" ++ get_account_id oracle
             ++ ":crawler/" ++ name in
  tag_resource arn (c_tags args) ;;;
  ret {| c_name := name; c_args := args; c_state := "READY";
         c_creation_time := now; c_last_updated := now;
         c_version := 1; c_crawl_elapsed_time := 0;
         c_last_crawl_info := None; c_arn := arn |}.

Definition FakeJob_init (name : string) (args : JobArgs)
  : M exn GlueBackend FakeJob :=
  created_on <- next (clock oracle) ;;
  last_modified_on <- next (clock oracle) ;;
  let arn := "arn:aws:glue:us-east-1:" ++ get_account_id oracle
             ++ ":job/" ++ name in
  tag_resource arn (j_tags args) ;;;
  ret {| j_name := name; j_args := args; j_state := "READY";
         j_created_on := created_on;
         j_last_modified_on := last_modified_on; j_arn := arn |}.

(** ** GlueBackend *)

Definition create_database (database_name : string) (database_input : dict)
  : M exn GlueBackend FakeDatabase :=
  self <- read ;;
  if OrderedDict.contains database_name (databases self)
  then raise DatabaseAlreadyExistsException
  else
    database <- FakeDatabase_init database_name database_input ;;
    modify (fun self =>
      set_databases (OrderedDict.set database_name database (databases self))
                    self) ;;;
    ret database.

Definition get_database (database_name : string)
  : M exn GlueBackend FakeDatabase :=
  self <- read ;;
  match OrderedDict.get database_name (databases self) with
  | Some d => ret d
  | None => raise (DatabaseNotFoundException database_name)
  end.

Definition get_databases (self : GlueBackend) : list FakeDatabase :=
  OrderedDict.values (databases self).

Definition delete_database (database_name : string)
  : M exn GlueBackend unit :=
  self <- read ;;
  if OrderedDict.contains database_name (databases self)
  then modify (fun self =>
         set_databases (OrderedDict.remove database_name (databases self))
                       self)
  else raise (DatabaseNotFoundException database_name).

(** [database.tables[table_name] = table], [database] being the object
    stored under [database_name]. *)
Definition store_table (database_name table_name : string)
    (table : FakeTable) (self : GlueBackend) : GlueBackend :=
  match OrderedDict.get database_name (databases self) with
  | Some database =>
      set_databases
        (OrderedDict.set database_name
           (set_tables (OrderedDict.set table_name table (tables database))
                       database)
           (databases self)) self
  | None => self
  end.

Definition create_table (database_name table_name : string)
    (table_input : dict) : M exn GlueBackend FakeTable :=
  database <- get_database database_name ;;
  if OrderedDict.contains table_name (tables database)
  then raise TableAlreadyExistsException
  else
    table <- FakeTable_init database_name table_name table_input ;;
    modify (store_table database_name table_name table) ;;;
    ret table.

Definition get_table (database_name table_name : string)
  : M exn GlueBackend FakeTable :=
  database <- get_database database_name ;;
  match OrderedDict.get table_name (tables database) with
  | Some t => ret t
  | None => raise (TableNotFoundException table_name)
  end.

Definition create_crawler (name : string) (args : CrawlerArgs)
  : M exn GlueBackend unit :=
  self <- read ;;
  if OrderedDict.contains name (crawlers self)
  then raise CrawlerAlreadyExistsException
  else
    crawler <- FakeCrawler_init name args ;;
    modify (fun self =>
      set_crawlers (OrderedDict.set name crawler (crawlers self)) self).

Definition get_crawler (name : string) : M exn GlueBackend FakeCrawler :=
  self <- read ;;
  match OrderedDict.get name (crawlers self) with
  | Some c => ret c
  | None => raise (CrawlerNotFoundException name)
  end.

Definition create_job (name : string) (args : JobArgs)
  : M exn GlueBackend string :=
  job <- FakeJob_init name args ;;
  modify (fun self =>
    set_jobs (OrderedDict.set name job (jobs self)) self) ;;;
  ret name.

Definition get_job (name : string) : M exn GlueBackend FakeJob :=
  self <- read ;;
  match OrderedDict.get name (jobs self) with
  | Some j => ret j
  | None => raise (JobNotFoundException name)
  end.

(** ** Listing and deleting tables and crawlers *)

Definition get_tables (database_name : string)
  : M exn GlueBackend (list FakeTable) :=
  database <- get_database database_name ;;
  ret (OrderedDict.values (tables database)).

(** [del database.tables[table_name]], [database] being the object
    stored under [database_name]. *)
Definition drop_table (database_name table_name : string)
    (self : GlueBackend) : GlueBackend :=
  match OrderedDict.get database_name (databases self) with
  | Some database =>
      set_databases
        (OrderedDict.set database_name
           (set_tables (OrderedDict.remove table_name (tables database))
                       database)
           (databases self)) self
  | None => self
  end.

Definition delete_table (database_name table_name : string)
  : M exn GlueBackend dict :=
  database <- get_database database_name ;;
  if OrderedDict.contains table_name (tables database)
  then
    modify (drop_table database_name table_name) ;;;
    ret OrderedDict.empty
  else raise (TableNotFoundException table_name).

Definition get_crawlers (self : GlueBackend) : list FakeCrawler :=
  OrderedDict.values (crawlers self).

Definition delete_crawler (name : string) : M exn GlueBackend unit :=
  self <- read ;;
  if OrderedDict.contains name (crawlers self)
  then modify (fun self =>
         set_crawlers (OrderedDict.remove name (crawlers self)) self)
  else raise (CrawlerNotFoundException name).

(** ** Starting and stopping crawlers *)

(** [FakeCrawler.start_crawler] *)
Definition FakeCrawler_start_crawler : M exn FakeCrawler unit :=
  self <- read ;;
  if String.eqb (c_state self) "RUNNING"
  then raise (CrawlerRunningException
                ("Crawler with name " ++ c_name self
                 ++ " has already started"))
  else modify (set_c_state "RUNNING").


Definition put_crawler (name : string) (crawler : FakeCrawler)
    (self : GlueBackend) : GlueBackend :=
  set_crawlers (OrderedDict.set name crawler (crawlers self)) self.

(** [GlueBackend.start_crawler] *)
Definition start_crawler (name : string) : M exn GlueBackend unit :=
  crawler <- get_crawler name ;;
  on_stored (put_crawler name) crawler FakeCrawler_start_crawler.


(** ** Job runs *)

(** [FakeJobRun.__init__]; [job_run_id] is ["01"] when the caller gives
    none, the other arguments keep their defaults. *)
Definition FakeJobRun_init {S} (job_name job_run_id : string)
  : M exn S FakeJobRun :=
  started_on <- next (clock oracle) ;;
  modified_on <- next (clock oracle) ;;
  completed_on <- next (clock oracle) ;;
  ret {| r_job_name := job_name; r_job_run_id := job_run_id;
         r_arguments := None; r_allocated_capacity := None;
         r_timeout := None; r_worker_type := "Standard";
         r_started_on := started_on; r_modified_on := modified_on;
         r_completed_on := completed_on |}.

(** [FakeJob.start_job_run] *)
Definition FakeJob_start_job_run : M exn FakeJob string :=
  self <- read ;;
  if String.eqb (j_state self) "RUNNING"
  then raise (ConcurrentRunsExceededException
                ("Job with name " ++ j_name self ++ " already running"))
  else
    fake_job_run <- FakeJobRun_init (j_name self) "01" ;;
    modify (set_j_state "RUNNING") ;;;
    ret (r_job_run_id fake_job_run).

(** [FakeJob.get_job_run], which leaves the job as it is *)
Definition FakeJob_get_job_run {S} (self : FakeJob) (run_id : string)
  : M exn S FakeJobRun :=
  FakeJobRun_init (j_name self) run_id.

Definition put_job (name : string) (job : FakeJob) (self : GlueBackend)
  : GlueBackend :=
  set_jobs (OrderedDict.set name job (jobs self)) self.

(** [GlueBackend.start_job_run] *)
Definition start_job_run (name : string) : M exn GlueBackend string :=
  job <- get_job name ;;
  on_stored (put_job name) job FakeJob_start_job_run.

(** [GlueBackend.get_job_run] *)
Definition get_job_run (name run_id : string)
  : M exn GlueBackend FakeJobRun :=
  job <- get_job name ;;
  FakeJob_get_job_run job run_id.

(** ** Registries *)

(** [FakeRegistry.__init__] *)
Definition FakeRegistry_init {S} (registry_name : string)
    (description : option string) (tags : tags_t) : M exn S FakeRegistry :=
  created_time <- next (clock oracle) ;;
  updated_time <- next (clock oracle) ;;
  ret {| reg_name := registry_name; reg_description := description;
         reg_tags := tags; reg_created_time := created_time;
         reg_updated_time := updated_time;
         registry_arn := "arn:aws:glue:us-east-1:" ++ get_account_id oracle
                         ++ ":registry/" ++ registry_name |}.

(** [GlueBackend.create_registry] *)
Definition create_registry (registry_name : string)
    (description : option string) (tags : tags_t)
  : M exn GlueBackend FakeRegistry :=
  let operation_name := "CreateRegistry" in
  let registry_name_pattern := Re.Plus (Re.Class registry_name_char) in
  let registry_description_pattern :=
    Re.Star (Re.Class registry_description_char) in
  let max_registry_name_length := 255%nat in
  let max_registries_allowed := 10%nat in
  let max_description_length := 2048%nat in
  let max_tags_allowed := 50%nat in
  self <- read ;;
  if (max_registries_allowed <=? List.length (registries self))%nat
  then raise (ResourceNumberLimitExceededException operation_name
                "registries")
  else if String.eqb registry_name ""
          || (max_registry_name_length <? utf8_length registry_name)%nat
  then raise (ResourceNameTooLongException operation_name "registryName")
  else if negb (Re.match_anchored registry_name_pattern registry_name)
  then raise (ParamValueContainsInvalidCharactersException operation_name
                "registryName")
  else if OrderedDict.contains registry_name (registries self)
  then raise (GSRAlreadyExistsException operation_name "Registry"
                "RegistryName" registry_name)
  else if nonempty_str description
          && (max_description_length
              <? utf8_length (match description with
                              | Some s => s
                              | None => ""
                              end))%nat
  then raise (ResourceNameTooLongException operation_name "description")
  else if nonempty_str description
          && negb (Re.match_prefix registry_description_pattern
                     (Py.chars (match description with
                                | Some s => s
                                | None => ""
                                end)))
  then raise (ParamValueContainsInvalidCharactersException operation_name
                "description")
  else if nonempty_tags tags
          && (max_tags_allowed
              <? List.length (match tags with
                              | Some t => t
                              | None => []
                              end))%nat
  then raise (InvalidNumberOfTagsException operation_name)
  else
    registry <- FakeRegistry_init registry_name description tags ;;
    modify (fun self =>
      set_registries
        (OrderedDict.set registry_name registry (registries self)) self) ;;;
    ret registry.

End WithOracle.

(** The only backend the module instantiates:
    [BackendDict(GlueBackend, "glue", use_boto3_regions=False,
    additional_regions=["global"])]. *)
Definition glue_backend (account : string) : GlueBackend :=
  GlueBackend_init "global" account.

End Glue.

(* ================================================================== *)
(** * moto/greengrass/models.py *)

Module Greengrass.
Import Eff Eff.Notations.

(** The exception classes that [models.py] imports from
    [moto.greengrass.exceptions], with their constructor arguments. *)
Inductive exn : Type :=
  | Builtin (e : Py.error)
  | GreengrassClientError (error_type message : string)
  | IdNotFoundException (msg : string)
  | InvalidInputException (msg : string)
  | InvalidContainerDefinitionException (msg : string)
  | VersionNotFoundException (msg : string).

Definition dict := OrderedDict.t Py.json.

(** ** Entities *)

Record FakeCoreDefinition : Type := {
  cd_region_name : string;
  cd_name : option string;
  cd_id : string;
  cd_arn : string;
  cd_created_at_datetime : Z;
  cd_latest_version : string;
  cd_latest_version_arn : string
}.

Definition cd_set_latest_version (v : string)
    (d : FakeCoreDefinition) :=
  {| cd_region_name := cd_region_name d; cd_name := cd_name d;
     cd_id := cd_id d; cd_arn := cd_arn d;
     cd_created_at_datetime := cd_created_at_datetime d;
     cd_latest_version := v;
     cd_latest_version_arn := cd_latest_version_arn d |}.

Definition cd_set_latest_version_arn (a : string)
    (d : FakeCoreDefinition) :=
  {| cd_region_name := cd_region_name d; cd_name := cd_name d;
     cd_id := cd_id d; cd_arn := cd_arn d;
     cd_created_at_datetime := cd_created_at_datetime d;
     cd_latest_version := cd_latest_version d;
     cd_latest_version_arn := a |}.

Record FakeCoreDefinitionVersion : Type := {
  cv_region_name : string;
  cv_core_definition_id : string;
  cv_definition : dict;
  cv_version : string;
  cv_arn : string;
  cv_created_at_datetime : Z
}.


(** A subscription of a subscription definition version. *)
Record Subscription : Type := {
  Id : string;
  Source : string;
  Subject : option string;
  Target : string
}.

(** The initial version of a subscription definition: a dict whose
    ["Subscriptions"] entry may be missing. *)
Record SubscriptionDefinitionInitialVersion : Type := {
  Subscriptions : option (list Subscription)
}.

Record FakeDeviceDefinition : Type := {
  dd_region_name : string;
  dd_id : string;
  dd_arn : string;
  dd_created_at_datetime : Z;
  dd_update_at_datetime : Z;
  dd_latest_version : string;
  dd_latest_version_arn : string;
  dd_name : option string;
  dd_initial_version : Py.json
}.

Definition dd_set_latest_version (v : string)
    (d : FakeDeviceDefinition) :=
  {| dd_region_name := dd_region_name d;
     dd_id := dd_id d;
     dd_arn := dd_arn d;
     dd_created_at_datetime := dd_created_at_datetime d;
     dd_update_at_datetime := dd_update_at_datetime d;
     dd_latest_version := v;
     dd_latest_version_arn := dd_latest_version_arn d;
     dd_name := dd_name d;
     dd_initial_version := dd_initial_version d |}.

Definition dd_set_latest_version_arn (a : string)
    (d : FakeDeviceDefinition) :=
  {| dd_region_name := dd_region_name d;
     dd_id := dd_id d;
     dd_arn := dd_arn d;
     dd_created_at_datetime := dd_created_at_datetime d;
     dd_update_at_datetime := dd_update_at_datetime d;
     dd_latest_version := dd_latest_version d;
     dd_latest_version_arn := a;
     dd_name := dd_name d;
     dd_initial_version := dd_initial_version d |}.

Record FakeResourceDefinition : Type := {
  rd_region_name : string;
  rd_id : string;
  rd_arn : string;
  rd_created_at_datetime : Z;
  rd_update_at_datetime : Z;
  rd_latest_version : string;
  rd_latest_version_arn : string;
  rd_name : option string;
  rd_initial_version : Py.json
}.

Definition rd_set_latest_version (v : string)
    (d : FakeResourceDefinition) :=
  {| rd_region_name := rd_region_name d;
     rd_id := rd_id d;
     rd_arn := rd_arn d;
     rd_created_at_datetime := rd_created_at_datetime d;
     rd_update_at_datetime := rd_update_at_datetime d;
     rd_latest_version := v;
     rd_latest_version_arn := rd_latest_version_arn d;
     rd_name := rd_name d;
     rd_initial_version := rd_initial_version d |}.

Definition rd_set_latest_version_arn (a : string)
    (d : FakeResourceDefinition) :=
  {| rd_region_name := rd_region_name d;
     rd_id := rd_id d;
     rd_arn := rd_arn d;
     rd_created_at_datetime := rd_created_at_datetime d;
     rd_update_at_datetime := rd_update_at_datetime d;
     rd_latest_version := rd_latest_version d;
     rd_latest_version_arn := a;
     rd_name := rd_name d;
     rd_initial_version := rd_initial_version d |}.

Record FakeFunctionDefinition : Type := {
  fd_region_name : string;
  fd_id : string;
  fd_arn : string;
  fd_created_at_datetime : Z;
  fd_update_at_datetime : Z;
  fd_latest_version : string;
  fd_latest_version_arn : string;
  fd_name : option string;
  fd_initial_version : Py.json
}.

Definition fd_set_latest_version (v : string)
    (d : FakeFunctionDefinition) :=
  {| fd_region_name := fd_region_name d;
     fd_id := fd_id d;
     fd_arn := fd_arn d;
     fd_created_at_datetime := fd_created_at_datetime d;
     fd_update_at_datetime := fd_update_at_datetime d;
     fd_latest_version := v;
     fd_latest_version_arn := fd_latest_version_arn d;
     fd_name := fd_name d;
     fd_initial_version := fd_initial_version d |}.

Definition fd_set_latest_version_arn (a : string)
    (d : FakeFunctionDefinition) :=
  {| fd_region_name := fd_region_name d;
     fd_id := fd_id d;
     fd_arn := fd_arn d;
     fd_created_at_datetime := fd_created_at_datetime d;
     fd_update_at_datetime := fd_update_at_datetime d;
     fd_latest_version := fd_latest_version d;
     fd_latest_version_arn := a;
     fd_name := fd_name d;
     fd_initial_version := fd_initial_version d |}.

Record FakeSubscriptionDefinition : Type := {
  sd_region_name : string;
  sd_id : string;
  sd_arn : string;
  sd_created_at_datetime : Z;
  sd_update_at_datetime : Z;
  sd_latest_version : string;
  sd_latest_version_arn : string;
  sd_name : option string;
  sd_initial_version : SubscriptionDefinitionInitialVersion
}.

Definition sd_set_latest_version (v : string)
    (d : FakeSubscriptionDefinition) :=
  {| sd_region_name := sd_region_name d;
     sd_id := sd_id d;
     sd_arn := sd_arn d;
     sd_created_at_datetime := sd_created_at_datetime d;
     sd_update_at_datetime := sd_update_at_datetime d;
     sd_latest_version := v;
     sd_latest_version_arn := sd_latest_version_arn d;
     sd_name := sd_name d;
     sd_initial_version := sd_initial_version d |}.

Definition sd_set_latest_version_arn (a : string)
    (d : FakeSubscriptionDefinition) :=
  {| sd_region_name := sd_region_name d;
     sd_id := sd_id d;
     sd_arn := sd_arn d;
     sd_created_at_datetime := sd_created_at_datetime d;
     sd_update_at_datetime := sd_update_at_datetime d;
     sd_latest_version := sd_latest_version d;
     sd_latest_version_arn := a;
     sd_name := sd_name d;
     sd_initial_version := sd_initial_version d |}.

Record FakeDeviceDefinitionVersion : Type := {
  dv_region_name : string;
  dv_device_definition_id : string;
  dv_devices : Py.json;
  dv_version : string;
  dv_arn : string;
  dv_created_at_datetime : Z
}.

Record FakeResourceDefinitionVersion : Type := {
  rv_region_name : string;
  rv_resource_definition_id : string;
  rv_resources : Py.json;
  rv_version : string;
  rv_arn : string;
  rv_created_at_datetime : Z
}.

Record FakeFunctionDefinitionVersion : Type := {
  fv_region_name : string;
  fv_function_definition_id : string;
  fv_functions : Py.json;
  fv_default_config : Py.json;
  fv_version : string;
  fv_arn : string;
  fv_created_at_datetime : Z
}.

Record FakeSubscriptionDefinitionVersion : Type := {
  sv_region_name : string;
  sv_subscription_definition_id : string;
  sv_subscriptions : list Subscription;
  sv_version : string;
  sv_arn : string;
  sv_created_at_datetime : Z
}.

Record FakeGroup : Type := {
  g_region_name : string;
  g_group_id : string;
  g_name : option string;
  g_arn : string;
  g_created_at_datetime : Z;
  g_last_updated_datetime : Z;
  g_latest_version : string;
  g_latest_version_arn : string
}.

Definition g_set_latest_version (v : string) (g : FakeGroup) :=
  {| g_region_name := g_region_name g; g_group_id := g_group_id g;
     g_name := g_name g; g_arn := g_arn g;
     g_created_at_datetime := g_created_at_datetime g;
     g_last_updated_datetime := g_last_updated_datetime g;
     g_latest_version := v;
     g_latest_version_arn := g_latest_version_arn g |}.

Definition g_set_latest_version_arn (a : string) (g : FakeGroup) :=
  {| g_region_name := g_region_name g; g_group_id := g_group_id g;
     g_name := g_name g; g_arn := g_arn g;
     g_created_at_datetime := g_created_at_datetime g;
     g_last_updated_datetime := g_last_updated_datetime g;
     g_latest_version := g_latest_version g;
     g_latest_version_arn := a |}.

Record FakeGroupVersion : Type := {
  gv_region_name : string;
  gv_group_id : string;
  gv_version : string;
  gv_arn : string;
  gv_created_at_datetime : Z;
  gv_core_definition_version_arn : option string;
  gv_device_definition_version_arn : option string;
  gv_function_definition_version_arn : option string;
  gv_resource_definition_version_arn : option string;
  gv_subscription_definition_version_arn : option string
}.

(** The initial version of a group: the five references, each of which
    may be missing. *)
Record GroupVersionInput : Type := {
  CoreDefinitionVersionArn : option string;
  DeviceDefinitionVersionArn : option string;
  FunctionDefinitionVersionArn : option string;
  ResourceDefinitionVersionArn : option string;
  SubscriptionDefinitionVersionArn : option string
}.

(** ** The backend *)

Record GreengrassBackend : Type := {
  region_name : string;
  account_id : string;
  groups : OrderedDict.t FakeGroup;
  group_versions : OrderedDict.t (OrderedDict.t FakeGroupVersion);
  core_definitions : OrderedDict.t FakeCoreDefinition;
  core_definition_versions :
    OrderedDict.t (OrderedDict.t FakeCoreDefinitionVersion);
  device_definitions : OrderedDict.t FakeDeviceDefinition;
  device_definition_versions :
    OrderedDict.t (OrderedDict.t FakeDeviceDefinitionVersion);
  function_definitions : OrderedDict.t FakeFunctionDefinition;
  function_definition_versions :
    OrderedDict.t (OrderedDict.t FakeFunctionDefinitionVersion);
  resource_definitions : OrderedDict.t FakeResourceDefinition;
  resource_definition_versions :
    OrderedDict.t (OrderedDict.t FakeResourceDefinitionVersion);
  subscription_definitions : OrderedDict.t FakeSubscriptionDefinition;
  subscription_definition_versions :
    OrderedDict.t (OrderedDict.t FakeSubscriptionDefinitionVersion);
  deployments : OrderedDict.t Py.json
}.

Definition set_groups
    (x : OrderedDict.t FakeGroup)
    (b : GreengrassBackend) : GreengrassBackend :=
  {| region_name := region_name b;
     account_id := account_id b;
     groups := x;
     group_versions := group_versions b;
     core_definitions := core_definitions b;
     core_definition_versions := core_definition_versions b;
     device_definitions := device_definitions b;
     device_definition_versions := device_definition_versions b;
     function_definitions := function_definitions b;
     function_definition_versions := function_definition_versions b;
     resource_definitions := resource_definitions b;
     resource_definition_versions := resource_definition_versions b;
     subscription_definitions := subscription_definitions b;
     subscription_definition_versions := subscription_definition_versions b;
     deployments := deployments b |}.

Definition set_group_versions
    (x : OrderedDict.t (OrderedDict.t FakeGroupVersion))
    (b : GreengrassBackend) : GreengrassBackend :=
  {| region_name := region_name b;
     account_id := account_id b;
     groups := groups b;
     group_versions := x;
     core_definitions := core_definitions b;
     core_definition_versions := core_definition_versions b;
     device_definitions := device_definitions b;
     device_definition_versions := device_definition_versions b;
     function_definitions := function_definitions b;
     function_definition_versions := function_definition_versions b;
     resource_definitions := resource_definitions b;
     resource_definition_versions := resource_definition_versions b;
     subscription_definitions := subscription_definitions b;
     subscription_definition_versions := subscription_definition_versions b;
     deployments := deployments b |}.

Definition set_core_definitions
    (x : OrderedDict.t FakeCoreDefinition)
    (b : GreengrassBackend) : GreengrassBackend :=
  {| region_name := region_name b;
     account_id := account_id b;
     groups := groups b;
     group_versions := group_versions b;
     core_definitions := x;
     core_definition_versions := core_definition_versions b;
     device_definitions := device_definitions b;
     device_definition_versions := device_definition_versions b;
     function_definitions := function_definitions b;
     function_definition_versions := function_definition_versions b;
     resource_definitions := resource_definitions b;
     resource_definition_versions := resource_definition_versions b;
     subscription_definitions := subscription_definitions b;
     subscription_definition_versions := subscription_definition_versions b;
     deployments := deployments b |}.

Definition set_core_definition_versions
    (x : OrderedDict.t (OrderedDict.t FakeCoreDefinitionVersion))
    (b : GreengrassBackend) : GreengrassBackend :=
  {| region_name := region_name b;
     account_id := account_id b;
     groups := groups b;
     group_versions := group_versions b;
     core_definitions := core_definitions b;
     core_definition_versions := x;
     device_definitions := device_definitions b;
     device_definition_versions := device_definition_versions b;
     function_definitions := function_definitions b;
     function_definition_versions := function_definition_versions b;
     resource_definitions := resource_definitions b;
     resource_definition_versions := resource_definition_versions b;
     subscription_definitions := subscription_definitions b;
     subscription_definition_versions := subscription_definition_versions b;
     deployments := deployments b |}.

Definition set_device_definitions
    (x : OrderedDict.t FakeDeviceDefinition)
    (b : GreengrassBackend) : GreengrassBackend :=
  {| region_name := region_name b;
     account_id := account_id b;
     groups := groups b;
     group_versions := group_versions b;
     core_definitions := core_definitions b;
     core_definition_versions := core_definition_versions b;
     device_definitions := x;
     device_definition_versions := device_definition_versions b;
     function_definitions := function_definitions b;
     function_definition_versions := function_definition_versions b;
     resource_definitions := resource_definitions b;
     resource_definition_versions := resource_definition_versions b;
     subscription_definitions := subscription_definitions b;
     subscription_definition_versions := subscription_definition_versions b;
     deployments := deployments b |}.

Definition set_device_definition_versions
    (x : OrderedDict.t (OrderedDict.t FakeDeviceDefinitionVersion))
    (b : GreengrassBackend) : GreengrassBackend :=
  {| region_name := region_name b;
     account_id := account_id b;
     groups := groups b;
     group_versions := group_versions b;
     core_definitions := core_definitions b;
     core_definition_versions := core_definition_versions b;
     device_definitions := device_definitions b;
     device_definition_versions := x;
     function_definitions := function_definitions b;
     function_definition_versions := function_definition_versions b;
     resource_definitions := resource_definitions b;
     resource_definition_versions := resource_definition_versions b;
     subscription_definitions := subscription_definitions b;
     subscription_definition_versions := subscription_definition_versions b;
     deployments := deployments b |}.

Definition set_function_definitions
    (x : OrderedDict.t FakeFunctionDefinition)
    (b : GreengrassBackend) : GreengrassBackend :=
  {| region_name := region_name b;
     account_id := account_id b;
     groups := groups b;
     group_versions := group_versions b;
     core_definitions := core_definitions b;
     core_definition_versions := core_definition_versions b;
     device_definitions := device_definitions b;
     device_definition_versions := device_definition_versions b;
     function_definitions := x;
     function_definition_versions := function_definition_versions b;
     resource_definitions := resource_definitions b;
     resource_definition_versions := resource_definition_versions b;
     subscription_definitions := subscription_definitions b;
     subscription_definition_versions := subscription_definition_versions b;
     deployments := deployments b |}.

Definition set_function_definition_versions
    (x : OrderedDict.t (OrderedDict.t FakeFunctionDefinitionVersion))
    (b : GreengrassBackend) : GreengrassBackend :=
  {| region_name := region_name b;
     account_id := account_id b;
     groups := groups b;
     group_versions := group_versions b;
     core_definitions := core_definitions b;
     core_definition_versions := core_definition_versions b;
     device_definitions := device_definitions b;
     device_definition_versions := device_definition_versions b;
     function_definitions := function_definitions b;
     function_definition_versions := x;
     resource_definitions := resource_definitions b;
     resource_definition_versions := resource_definition_versions b;
     subscription_definitions := subscription_definitions b;
     subscription_definition_versions := subscription_definition_versions b;
     deployments := deployments b |}.

Definition set_resource_definitions
    (x : OrderedDict.t FakeResourceDefinition)
    (b : GreengrassBackend) : GreengrassBackend :=
  {| region_name := region_name b;
     account_id := account_id b;
     groups := groups b;
     group_versions := group_versions b;
     core_definitions := core_definitions b;
     core_definition_versions := core_definition_versions b;
     device_definitions := device_definitions b;
     device_definition_versions := device_definition_versions b;
     function_definitions := function_definitions b;
     function_definition_versions := function_definition_versions b;
     resource_definitions := x;
     resource_definition_versions := resource_definition_versions b;
     subscription_definitions := subscription_definitions b;
     subscription_definition_versions := subscription_definition_versions b;
     deployments := deployments b |}.

Definition set_resource_definition_versions
    (x : OrderedDict.t (OrderedDict.t FakeResourceDefinitionVersion))
    (b : GreengrassBackend) : GreengrassBackend :=
  {| region_name := region_name b;
     account_id := account_id b;
     groups := groups b;
     group_versions := group_versions b;
     core_definitions := core_definitions b;
     core_definition_versions := core_definition_versions b;
     device_definitions := device_definitions b;
     device_definition_versions := device_definition_versions b;
     function_definitions := function_definitions b;
     function_definition_versions := function_definition_versions b;
     resource_definitions := resource_definitions b;
     resource_definition_versions := x;
     subscription_definitions := subscription_definitions b;
     subscription_definition_versions := subscription_definition_versions b;
     deployments := deployments b |}.

Definition set_subscription_definitions
    (x : OrderedDict.t FakeSubscriptionDefinition)
    (b : GreengrassBackend) : GreengrassBackend :=
  {| region_name := region_name b;
     account_id := account_id b;
     groups := groups b;
     group_versions := group_versions b;
     core_definitions := core_definitions b;
     core_definition_versions := core_definition_versions b;
     device_definitions := device_definitions b;
     device_definition_versions := device_definition_versions b;
     function_definitions := function_definitions b;
     function_definition_versions := function_definition_versions b;
     resource_definitions := resource_definitions b;
     resource_definition_versions := resource_definition_versions b;
     subscription_definitions := x;
     subscription_definition_versions := subscription_definition_versions b;
     deployments := deployments b |}.

Definition set_subscription_definition_versions
    (x : OrderedDict.t (OrderedDict.t FakeSubscriptionDefinitionVersion))
    (b : GreengrassBackend) : GreengrassBackend :=
  {| region_name := region_name b;
     account_id := account_id b;
     groups := groups b;
     group_versions := group_versions b;
     core_definitions := core_definitions b;
     core_definition_versions := core_definition_versions b;
     device_definitions := device_definitions b;
     device_definition_versions := device_definition_versions b;
     function_definitions := function_definitions b;
     function_definition_versions := function_definition_versions b;
     resource_definitions := resource_definitions b;
     resource_definition_versions := resource_definition_versions b;
     subscription_definitions := subscription_definitions b;
     subscription_definition_versions := x;
     deployments := deployments b |}.

(** [GreengrassBackend.__init__] *)
Definition GreengrassBackend_init (region account : string)
  : GreengrassBackend :=
  {| region_name := region;
     account_id := account;
     groups := OrderedDict.empty;
     group_versions := OrderedDict.empty;
     core_definitions := OrderedDict.empty;
     core_definition_versions := OrderedDict.empty;
     device_definitions := OrderedDict.empty;
     device_definition_versions := OrderedDict.empty;
     function_definitions := OrderedDict.empty;
     function_definition_versions := OrderedDict.empty;
     resource_definitions := OrderedDict.empty;
     resource_definition_versions := OrderedDict.empty;
     subscription_definitions := OrderedDict.empty;
     subscription_definition_versions := OrderedDict.empty;
     deployments := OrderedDict.empty |}.
(** ** Helpers for the dict idioms of the module *)

(** [vers = versions.get(id, {}); vers[ver_id] = ver; versions[id] = vers] *)
Definition add_version {V : Type} (id ver_id : string) (ver : V)
    (versions : OrderedDict.t (OrderedDict.t V))
  : OrderedDict.t (OrderedDict.t V) :=
  let vers := match OrderedDict.get id versions with
              | Some vs => vs
              | None => OrderedDict.empty
              end in
  OrderedDict.set id (OrderedDict.set ver_id ver vers) versions.

(** [d[k].field = x] on a stored object: [upd] sets the field. *)
Definition update_at {V : Type} (k : string) (upd : V -> V)
    (d : OrderedDict.t V) : OrderedDict.t V :=
  match OrderedDict.get k d with
  | Some v => OrderedDict.set k (upd v) d
  | None => d
  end.

(** [j.get(k, default)] *)
Definition json_get (j : Py.json) (k : string) (default : Py.json)
  : Py.result Py.error Py.json :=
  match j with
  | Py.JDict d =>
      Py.Ok (match OrderedDict.get k d with Some v => v | None => default end)
  | _ => Py.Raise Py.AttributeError
  end.

(** [j[k]] for a string [k] *)
Definition json_getitem (j : Py.json) (k : string)
  : Py.result Py.error Py.json :=
  match j with
  | Py.JDict d =>
      match OrderedDict.get k d with
      | Some v => Py.Ok v
      | None => Py.Raise (Py.KeyError k)
      end
  | _ => Py.Raise Py.TypeError
  end.

(** [j.startswith(p)] *)
Definition json_startswith (j : Py.json) (p : string)
  : Py.result Py.error bool :=
  match j with
  | Py.JStr s => Py.Ok (Py.startswith s p)
  | _ => Py.Raise Py.AttributeError
  end.

(** [j == s] for a string [s] *)
Definition json_eq_str (j : Py.json) (s : string) : bool :=
  match j with
  | Py.JStr s' => String.eqb s' s
  | _ => false
  end.

(** The truth value of [j] *)
Definition truthy (j : Py.json) : bool :=
  match j with
  | Py.JNull => false
  | Py.JBool b => b
  | Py.JNum z => negb (z =? 0)%Z
  | Py.JStr s => negb (String.eqb s "")
  | Py.JList l => match l with [] => false | _ => true end
  | Py.JDict d => match d with [] => false | _ => true end
  end.

(** [for x in j]: the items that the loop visits *)
Definition iterate (j : Py.json) : Py.result Py.error (list Py.json) :=
  match j with
  | Py.JList l => Py.Ok l
  | Py.JDict d => Py.Ok (map (fun kv => Py.JStr (fst kv)) d)
  | Py.JStr s => Py.Ok (map (fun c => Py.JStr (String c "")) (Py.chars s))
  | _ => Py.Raise Py.TypeError
  end.

Definition rbind {E A B} (r : Py.result E A) (k : A -> Py.result E B)
  : Py.result E B :=
  match r with
  | Py.Ok a => k a
  | Py.Raise e => Py.Raise e
  end.

(** A builtin exception escaping as it is. *)
Definition escape {A} (r : Py.result Py.error A) : Py.result exn A :=
  match r with
  | Py.Ok a => Py.Ok a
  | Py.Raise e => Py.Raise (Builtin e)
  end.

Definition of_result {S A} (r : Py.result exn A) : M exn S A :=
  match r with
  | Py.Ok a => ret a
  | Py.Raise e => raise e
  end.

(** ** Validation of resources *)

Definition validate_resource (resource : Py.json) : Py.result exn unit :=
  rbind (escape (json_get resource "ResourceDataContainer" (Py.JDict [])))
    (fun container =>
  rbind (escape (json_get container "LocalVolumeResourceData" (Py.JDict [])))
    (fun volume =>
  rbind (escape (json_get volume "SourcePath" (Py.JStr "")))
    (fun volume_source_path =>
  rbind (if json_eq_str volume_source_path "/sys" then Py.Ok true
         else escape (json_startswith volume_source_path "/sys/"))
    (fun prohibited =>
  if prohibited : bool
  then Py.Raise (GreengrassClientError "400"
         "The resources definition is invalid. (ErrorDetails: [Accessing /sys is prohibited])")
  else
  rbind (escape (json_get resource "ResourceDataContainer" (Py.JDict [])))
    (fun container =>
  rbind (escape (json_get container "LocalDeviceResourceData" (Py.JDict [])))
    (fun local_device_resource_data =>
  if truthy local_device_resource_data
  then
    rbind (escape (json_getitem local_device_resource_data "SourcePath"))
      (fun device_source_path =>
    rbind (escape (json_startswith device_source_path "/dev"))
      (fun ok =>
    if ok : bool then Py.Ok tt
    else Py.Raise (GreengrassClientError "400"
           ("The resources definition is invalid. (ErrorDetails: [Device resource path should begin with "
            ++ "/dev" ++ ", but got: "
            ++ match device_source_path with Py.JStr s => s | _ => "" end
            ++ "])"))))
  else Py.Ok tt)))))).

Fixpoint validate_resource_list (l : list Py.json) : Py.result exn unit :=
  match l with
  | [] => Py.Ok tt
  | resource :: l' =>
      rbind (validate_resource resource) (fun _ => validate_resource_list l')
  end.

(** [GreengrassBackend._validate_resources] *)
Definition _validate_resources (resources : Py.json) : Py.result exn unit :=
  rbind (escape (iterate resources)) validate_resource_list.

(** ** Validation of subscriptions *)

Definition thing_arn : Re.re :=
  Re.Seq (Re.Lit "arn:aws:iot:")
  (Re.Seq (Re.Plus (Re.Class Re.alnum_dash))
  (Re.Seq (Re.Lit ":")
  (Re.Seq (Re.Rep 12 (Re.Class Py.is_digit))
  (Re.Seq (Re.Lit ":thing/")
          (Re.Plus (Re.Class Re.alnum_dash)))))).

Definition function_arn : Re.re :=
  Re.Seq (Re.Lit "arn:aws:lambda:")
  (Re.Seq (Re.Plus (Re.Class Re.alnum_dash))
  (Re.Seq (Re.Lit ":")
  (Re.Seq (Re.Rep 12 (Re.Class Py.is_digit))
  (Re.Seq (Re.Lit ":function:")
  (Re.Seq (Re.Plus (Re.Class Re.word_dash))
  (Re.Seq (Re.Lit ":")
          (Re.Plus (Re.Class Re.word_dash)))))))).

(** [GreengrassBackend._is_valid_subscription_target_or_source] *)
Definition _is_valid_subscription_target_or_source
    (target_or_source : string) : bool :=
  if String.eqb target_or_source "cloud"
     || String.eqb target_or_source "GGShadowService"
  then true
  else if Re.match_anchored thing_arn target_or_source then true
  else if Re.match_anchored function_arn target_or_source then true
  else false.

Definition source_error (subscription : Subscription) : string :=
  "Subscription source is invalid. ID is '" ++ Id subscription
  ++ "' and Source is '" ++ Source subscription ++ "'".

Definition target_error (subscription : Subscription) : string :=
  "Subscription target is invalid. ID is '" ++ Id subscription
  ++ "' and Target is '" ++ Target subscription ++ "'".

(** The loop of [_validate_subscription_target_or_source]: both kinds of
    error are appended to [target_errors]. *)
Fixpoint collect_subscription_errors (subscriptions : list Subscription)
    (target_errors : list string) : list string :=
  match subscriptions with
  | [] => target_errors
  | subscription :: rest =>
      let target_errors :=
        if _is_valid_subscription_target_or_source (Source subscription)
        then target_errors
        else (target_errors ++ [source_error subscription])%list in
      let target_errors :=
        if _is_valid_subscription_target_or_source (Target subscription)
        then target_errors
        else (target_errors ++ [target_error subscription])%list in
      collect_subscription_errors rest target_errors
  end.

Definition subscriptions_invalid (errors : list string) : exn :=
  GreengrassClientError "400"
    ("The subscriptions definition is invalid or corrupted. (ErrorDetails: ["
     ++ Py.join ", " errors ++ "])").

(** [GreengrassBackend._validate_subscription_target_or_source] *)
Definition _validate_subscription_target_or_source
    (subscriptions : list Subscription) : Py.result exn unit :=
  let target_errors := collect_subscription_errors subscriptions [] in
  let source_errors : list string := [] in
  match source_errors with
  | _ :: _ => Py.Raise (subscriptions_invalid source_errors)
  | [] =>
      match target_errors with
      | _ :: _ => Py.Raise (subscriptions_invalid target_errors)
      | [] => Py.Ok tt
      end
  end.

(** ** Validation of the references of a group version *)

Definition def_ver_arn (kind : string) : Re.re :=
  Re.Seq (Re.Lit "arn:aws:greengrass:")
  (Re.Seq (Re.Plus (Re.Class Re.alnum_dash))
  (Re.Seq (Re.Lit ":")
  (Re.Seq (Re.Rep 12 (Re.Class Py.is_digit))
  (Re.Seq (Re.Lit (":greengrass/definition/" ++ kind ++ "/"))
  (Re.Seq (Re.Rep 36 (Re.Class Re.lower_digit_dash))
  (Re.Seq (Re.Lit "/versions/")
          (Re.Rep 36 (Re.Class Re.lower_digit_dash)))))))).

(** The inner function [_is_valid_def_ver_arn]; [versions] and [arn_of]
    are the store that the source selects by [kind] and the [arn]
    attribute of its versions. *)
Definition _is_valid_def_ver_arn {V : Type} (arn_of : V -> string)
    (versions : OrderedDict.t (OrderedDict.t V)) (kind : string)
    (definition_version_arn : option string) : Py.result exn bool :=
  match definition_version_arn with
  | None => Py.Ok true
  | Some definition_version_arn =>
      if negb (Re.match_anchored (def_ver_arn kind) definition_version_arn)
      then Py.Ok false
      else
        rbind (escape (Py.getitem (Py.split "/" definition_version_arn) (-3)))
          (fun definition_id =>
        match OrderedDict.get definition_id versions with
        | None => Py.Ok false
        | Some vers =>
            rbind (escape (Py.getitem (Py.split "/" definition_version_arn)
                             (-1)))
              (fun definition_version_id =>
            match OrderedDict.get definition_version_id vers with
            | None => Py.Ok false
            | Some ver =>
                if negb (String.eqb (arn_of ver) definition_version_arn)
                then Py.Ok false
                else Py.Ok true
            end)
        end)
  end.

Definition add_error (valid : bool) (msg : string) (errors : list string)
  : list string :=
  if valid then errors else (errors ++ [msg])%list.

Definition group_invalid (errors : list string) : exn :=
  GreengrassClientError "400"
    ("The group is invalid or corrupted. (ErrorDetails: ["
     ++ Py.join ", " errors ++ "])").

(** [GreengrassBackend._validate_group_version_definitions] *)
Definition _validate_group_version_definitions (self : GreengrassBackend)
    (core_definition_version_arn device_definition_version_arn
     function_definition_version_arn resource_definition_version_arn
     subscription_definition_version_arn : option string)
  : Py.result exn unit :=
  let errors : list string := [] in
  rbind (_is_valid_def_ver_arn cv_arn (core_definition_versions self)
           "cores" core_definition_version_arn) (fun v =>
  let errors :=
    add_error v "Cores definition reference does not exist" errors in
  rbind (_is_valid_def_ver_arn fv_arn (function_definition_versions self)
           "functions" function_definition_version_arn) (fun v =>
  let errors :=
    add_error v "Lambda definition reference does not exist" errors in
  rbind (_is_valid_def_ver_arn rv_arn (resource_definition_versions self)
           "resources" resource_definition_version_arn) (fun v =>
  let errors :=
    add_error v "Resource definition reference does not exist" errors in
  rbind (_is_valid_def_ver_arn dv_arn (device_definition_versions self)
           "devices" device_definition_version_arn) (fun v =>
  let errors :=
    add_error v "Devices definition reference does not exist" errors in
  rbind (_is_valid_def_ver_arn sv_arn (subscription_definition_versions self)
           "subscriptions" subscription_definition_version_arn) (fun v =>
  let errors :=
    add_error v "Subscription definition reference does not exist" errors in
  match errors with
  | _ :: _ => Py.Raise (group_invalid errors)
  | [] => Py.Ok tt
  end))))).

Section WithOracle.
Variable oracle : Oracle.

(** [get_account_id()] *)
Definition account : string := get_account_id oracle.

(** [return obj] for an object that the method stored under [k] and
    kept mutating: the stored copy. *)
Definition stored {V} (sel : GreengrassBackend -> OrderedDict.t V)
    (k : string) (obj : V) : M exn GreengrassBackend V :=
  self <- read ;;
  ret (match OrderedDict.get k (sel self) with
       | Some v => v
       | None => obj
       end).

(** [self.<store>[k].<field> = x]: [KeyError] when [k] is missing. *)
Definition set_attr {V} (sel : GreengrassBackend -> OrderedDict.t V)
    (put : OrderedDict.t V -> GreengrassBackend -> GreengrassBackend)
    (k : string) (upd : V -> V) : M exn GreengrassBackend unit :=
  self <- read ;;
  match OrderedDict.get k (sel self) with
  | Some v =>
      modify (fun self => put (OrderedDict.set k (upd v) (sel self)) self)
  | None => raise (Builtin (Py.KeyError k))
  end.

(** ** Constructors *)

Definition FakeCoreDefinition_init {S} (region_name : string)
    (name : option string) : M exn S FakeCoreDefinition :=
  id <- next (uuid4 oracle) ;;
  now <- next (clock oracle) ;;
  ret {| cd_region_name := region_name; cd_name := name; cd_id := id;
         cd_arn := "arn:aws:greengrass:" ++ region_name ++ ":" ++ account
                   ++ ":greengrass/definition/cores/" ++ id;
         cd_created_at_datetime := now;
         cd_latest_version := ""; cd_latest_version_arn := "" |}.

Definition FakeCoreDefinitionVersion_init {S} (region_name : string)
    (core_definition_id : string) (definition : dict)
  : M exn S FakeCoreDefinitionVersion :=
  version <- next (uuid4 oracle) ;;
  now <- next (clock oracle) ;;
  ret {| cv_region_name := region_name;
         cv_core_definition_id := core_definition_id;
         cv_definition := definition; cv_version := version;
         cv_arn := "arn:aws:greengrass:" ++ region_name ++ ":" ++ account
                   ++ ":greengrass/definition/cores/" ++ core_definition_id
                   ++ "/versions/" ++ version;
         cv_created_at_datetime := now |}.

Definition FakeDeviceDefinition_init {S} (region_name : string)
    (name : option string) (initial_version : Py.json)
  : M exn S FakeDeviceDefinition :=
  id <- next (uuid4 oracle) ;;
  created <- next (clock oracle) ;;
  updated <- next (clock oracle) ;;
  ret {| dd_region_name := region_name; dd_id := id;
         dd_arn := "arn:aws:greengrass:" ++ region_name ++ ":" ++ account
                   ++ ":greengrass/definition/devices/" ++ id;
         dd_created_at_datetime := created;
         dd_update_at_datetime := updated;
         dd_latest_version := ""; dd_latest_version_arn := "";
         dd_name := name; dd_initial_version := initial_version |}.

Definition FakeDeviceDefinitionVersion_init {S} (region_name : string)
    (device_definition_id : string) (devices : Py.json)
  : M exn S FakeDeviceDefinitionVersion :=
  version <- next (uuid4 oracle) ;;
  now <- next (clock oracle) ;;
  ret {| dv_region_name := region_name;
         dv_device_definition_id := device_definition_id;
         dv_devices := devices; dv_version := version;
         dv_arn := "arn:aws:greengrass:" ++ region_name ++ ":" ++ account
                   ++ ":greengrass/definition/devices/" ++ device_definition_id
                   ++ "/versions/" ++ version;
         dv_created_at_datetime := now |}.

Definition FakeResourceDefinition_init {S} (region_name : string)
    (name : option string) (initial_version : Py.json)
  : M exn S FakeResourceDefinition :=
  id <- next (uuid4 oracle) ;;
  created <- next (clock oracle) ;;
  updated <- next (clock oracle) ;;
  ret {| rd_region_name := region_name; rd_id := id;
         rd_arn := "arn:aws:greengrass:" ++ region_name ++ ":" ++ account
                   ++ ":greengrass/definition/resources/" ++ id;
         rd_created_at_datetime := created;
         rd_update_at_datetime := updated;
         rd_latest_version := ""; rd_latest_version_arn := "";
         rd_name := name; rd_initial_version := initial_version |}.

Definition FakeResourceDefinitionVersion_init {S} (region_name : string)
    (resource_definition_id : string) (resources : Py.json)
  : M exn S FakeResourceDefinitionVersion :=
  version <- next (uuid4 oracle) ;;
  now <- next (clock oracle) ;;
  ret {| rv_region_name := region_name;
         rv_resource_definition_id := resource_definition_id;
         rv_resources := resources; rv_version := version;
         rv_arn := "arn:aws:greengrass:" ++ region_name ++ ":" ++ account
                   ++ ":greengrass/definition/resources/"
                   ++ resource_definition_id ++ "/versions/" ++ version;
         rv_created_at_datetime := now |}.

Definition FakeFunctionDefinition_init {S} (region_name : string)
    (name : option string) (initial_version : Py.json)
  : M exn S FakeFunctionDefinition :=
  id <- next (uuid4 oracle) ;;
  created <- next (clock oracle) ;;
  updated <- next (clock oracle) ;;
  ret {| fd_region_name := region_name; fd_id := id;
         fd_arn := "arn:aws:greengrass:" ++ region_name ++ ":" ++ account
                   ++ ":greengrass/definition/functions/" ++ id;
         fd_created_at_datetime := created;
         fd_update_at_datetime := updated;
         fd_latest_version := ""; fd_latest_version_arn := "";
         fd_name := name; fd_initial_version := initial_version |}.

Definition FakeFunctionDefinitionVersion_init {S} (region_name : string)
    (function_definition_id : string) (functions default_config : Py.json)
  : M exn S FakeFunctionDefinitionVersion :=
  version <- next (uuid4 oracle) ;;
  now <- next (clock oracle) ;;
  ret {| fv_region_name := region_name;
         fv_function_definition_id := function_definition_id;
         fv_functions := functions; fv_default_config := default_config;
         fv_version := version;
         fv_arn := "arn:aws:greengrass:" ++ region_name ++ ":" ++ account
                   ++ ":greengrass/definition/functions/"
                   ++ function_definition_id ++ "/versions/" ++ version;
         fv_created_at_datetime := now |}.

Definition FakeSubscriptionDefinition_init {S} (region_name : string)
    (name : option string)
    (initial_version : SubscriptionDefinitionInitialVersion)
  : M exn S FakeSubscriptionDefinition :=
  id <- next (uuid4 oracle) ;;
  created <- next (clock oracle) ;;
  updated <- next (clock oracle) ;;
  ret {| sd_region_name := region_name; sd_id := id;
         sd_arn := "arn:aws:greengrass:" ++ region_name ++ ":" ++ account
                   ++ ":greengrass/definition/subscriptions/" ++ id;
         sd_created_at_datetime := created;
         sd_update_at_datetime := updated;
         sd_latest_version := ""; sd_latest_version_arn := "";
         sd_name := name; sd_initial_version := initial_version |}.

Definition FakeSubscriptionDefinitionVersion_init {S} (region_name : string)
    (subscription_definition_id : string)
    (subscriptions : list Subscription)
  : M exn S FakeSubscriptionDefinitionVersion :=
  version <- next (uuid4 oracle) ;;
  now <- next (clock oracle) ;;
  ret {| sv_region_name := region_name;
         sv_subscription_definition_id := subscription_definition_id;
         sv_subscriptions := subscriptions; sv_version := version;
         sv_arn := "arn:aws:greengrass:" ++ region_name ++ ":" ++ account
                   ++ ":greengrass/definition/subscriptions/"
                   ++ subscription_definition_id ++ "/versions/" ++ version;
         sv_created_at_datetime := now |}.

Definition FakeGroup_init {S} (region_name : string) (name : option string)
  : M exn S FakeGroup :=
  group_id <- next (uuid4 oracle) ;;
  created <- next (clock oracle) ;;
  updated <- next (clock oracle) ;;
  ret {| g_region_name := region_name; g_group_id := group_id;
         g_name := name;
         g_arn := "arn:aws:greengrass:" ++ region_name ++ ":" ++ account
                  ++ ":greengrass/groups/" ++ group_id;
         g_created_at_datetime := created;
         g_last_updated_datetime := updated;
         g_latest_version := ""; g_latest_version_arn := "" |}.

Definition FakeGroupVersion_init {S} (region_name group_id : string)
    (core_definition_version_arn device_definition_version_arn
     function_definition_version_arn resource_definition_version_arn
     subscription_definition_version_arn : option string)
  : M exn S FakeGroupVersion :=
  version <- next (uuid4 oracle) ;;
  now <- next (clock oracle) ;;
  ret {| gv_region_name := region_name; gv_group_id := group_id;
         gv_version := version;
         gv_arn := "arn:aws:greengrass:" ++ region_name ++ ":" ++ account
                   ++ ":greengrass/groups/" ++ group_id
                   ++ "/versions/" ++ version;
         gv_created_at_datetime := now;
         gv_core_definition_version_arn := core_definition_version_arn;
         gv_device_definition_version_arn := device_definition_version_arn;
         gv_function_definition_version_arn :=
           function_definition_version_arn;
         gv_resource_definition_version_arn :=
           resource_definition_version_arn;
         gv_subscription_definition_version_arn :=
           subscription_definition_version_arn |}.

(** ** Core definitions *)

Definition create_core_definition_version (core_definition_id : string)
    (cores : Py.json) : M exn GreengrassBackend FakeCoreDefinitionVersion :=
  self <- read ;;
  let definition := [("Cores", cores)] in
  core_def_ver <- FakeCoreDefinitionVersion_init (region_name self)
                    core_definition_id definition ;;
  modify (fun self =>
    set_core_definition_versions
      (add_version (cv_core_definition_id core_def_ver)
         (cv_version core_def_ver) core_def_ver
         (core_definition_versions self)) self) ;;;
  set_attr core_definitions set_core_definitions core_definition_id
    (cd_set_latest_version (cv_version core_def_ver)) ;;;
  set_attr core_definitions set_core_definitions core_definition_id
    (cd_set_latest_version_arn (cv_arn core_def_ver)) ;;;
  ret core_def_ver.

Definition create_core_definition (name : option string)
    (initial_version : Py.json) : M exn GreengrassBackend FakeCoreDefinition :=
  self <- read ;;
  core_definition <- FakeCoreDefinition_init (region_name self) name ;;
  modify (fun self =>
    set_core_definitions
      (OrderedDict.set (cd_id core_definition) core_definition
         (core_definitions self)) self) ;;;
  cores <- of_result (escape (json_getitem initial_version "Cores")) ;;
  create_core_definition_version (cd_id core_definition) cores ;;;
  stored core_definitions (cd_id core_definition) core_definition.

Definition get_core_definition (core_definition_id : string)
  : M exn GreengrassBackend FakeCoreDefinition :=
  self <- read ;;
  match OrderedDict.get core_definition_id (core_definitions self) with
  | None =>
      raise (IdNotFoundException "That Core List Definition does not exist")
  | Some d => ret d
  end.

Definition delete_core_definition (core_definition_id : string)
  : M exn GreengrassBackend unit :=
  self <- read ;;
  if negb (OrderedDict.contains core_definition_id (core_definitions self))
  then raise (IdNotFoundException "That cores definition does not exist.")
  else
    modify (fun self =>
      set_core_definitions
        (OrderedDict.remove core_definition_id (core_definitions self))
        self) ;;;
    self <- read ;;
    if OrderedDict.contains core_definition_id (core_definition_versions self)
    then modify (fun self =>
           set_core_definition_versions
             (OrderedDict.remove core_definition_id
                (core_definition_versions self)) self)
    else raise (Builtin (Py.KeyError core_definition_id)).

Definition get_core_definition_version
    (core_definition_id core_definition_version_id : string)
  : M exn GreengrassBackend FakeCoreDefinitionVersion :=
  self <- read ;;
  if negb (OrderedDict.contains core_definition_id (core_definitions self))
  then raise (IdNotFoundException "That cores definition does not exist.")
  else
    match OrderedDict.get core_definition_id
            (core_definition_versions self) with
    | None => raise (Builtin (Py.KeyError core_definition_id))
    | Some vers =>
        match OrderedDict.get core_definition_version_id vers with
        | None =>
            raise (VersionNotFoundException
              ("Version " ++ core_definition_version_id
               ++ " of Core List Definition " ++ core_definition_id
               ++ " does not exist."))
        | Some v => ret v
        end
    end.

(** ** Device definitions *)

Definition create_device_definition_version (device_definition_id : string)
    (devices : Py.json)
  : M exn GreengrassBackend FakeDeviceDefinitionVersion :=
  self <- read ;;
  if negb (OrderedDict.contains device_definition_id (device_definitions self))
  then raise (IdNotFoundException "That devices definition does not exist.")
  else
    device_ver <- FakeDeviceDefinitionVersion_init (region_name self)
                    device_definition_id devices ;;
    modify (fun self =>
      set_device_definition_versions
        (add_version (dv_device_definition_id device_ver)
           (dv_version device_ver) device_ver
           (device_definition_versions self)) self) ;;;
    set_attr device_definitions set_device_definitions device_definition_id
      (dd_set_latest_version (dv_version device_ver)) ;;;
    set_attr device_definitions set_device_definitions device_definition_id
      (dd_set_latest_version_arn (dv_arn device_ver)) ;;;
    ret device_ver.

Definition create_device_definition (name : option string)
    (initial_version : Py.json)
  : M exn GreengrassBackend FakeDeviceDefinition :=
  self <- read ;;
  device_def <- FakeDeviceDefinition_init (region_name self) name
                  initial_version ;;
  modify (fun self =>
    set_device_definitions
      (OrderedDict.set (dd_id device_def) device_def
         (device_definitions self)) self) ;;;
  let init_ver := dd_initial_version device_def in
  init_device_def <-
    of_result (escape (json_get init_ver "Devices" (Py.JDict []))) ;;
  create_device_definition_version (dd_id device_def) init_device_def ;;;
  stored device_definitions (dd_id device_def) device_def.

(** ** Resource definitions *)

Definition create_resource_definition_version
    (resource_definition_id : string) (resources : Py.json)
  : M exn GreengrassBackend FakeResourceDefinitionVersion :=
  self <- read ;;
  if negb (OrderedDict.contains resource_definition_id
             (resource_definitions self))
  then raise (IdNotFoundException "That resource definition does not exist.")
  else
    of_result (_validate_resources resources) ;;;
    resource_def_ver <- FakeResourceDefinitionVersion_init (region_name self)
                          resource_definition_id resources ;;
    modify (fun self =>
      set_resource_definition_versions
        (add_version (rv_resource_definition_id resource_def_ver)
           (rv_version resource_def_ver) resource_def_ver
           (resource_definition_versions self)) self) ;;;
    set_attr resource_definitions set_resource_definitions
      resource_definition_id
      (rd_set_latest_version (rv_version resource_def_ver)) ;;;
    set_attr resource_definitions set_resource_definitions
      resource_definition_id
      (rd_set_latest_version_arn (rv_arn resource_def_ver)) ;;;
    ret resource_def_ver.

Definition create_resource_definition (name : option string)
    (initial_version : Py.json)
  : M exn GreengrassBackend FakeResourceDefinition :=
  resources <-
    of_result (escape (json_get initial_version "Resources" (Py.JList []))) ;;
  of_result (_validate_resources resources) ;;;
  self <- read ;;
  resource_def <- FakeResourceDefinition_init (region_name self) name
                    initial_version ;;
  modify (fun self =>
    set_resource_definitions
      (OrderedDict.set (rd_id resource_def) resource_def
         (resource_definitions self)) self) ;;;
  let init_ver := rd_initial_version resource_def in
  resources <-
    of_result (escape (json_get init_ver "Resources" (Py.JDict []))) ;;
  create_resource_definition_version (rd_id resource_def) resources ;;;
  stored resource_definitions (rd_id resource_def) resource_def.

(** ** Function definitions *)

Definition create_function_definition_version
    (function_definition_id : string) (functions default_config : Py.json)
  : M exn GreengrassBackend FakeFunctionDefinitionVersion :=
  self <- read ;;
  if negb (OrderedDict.contains function_definition_id
             (function_definitions self))
  then raise (IdNotFoundException "That lambdas does not exist.")
  else
    func_ver <- FakeFunctionDefinitionVersion_init (region_name self)
                  function_definition_id functions default_config ;;
    modify (fun self =>
      set_function_definition_versions
        (add_version (fv_function_definition_id func_ver)
           (fv_version func_ver) func_ver
           (function_definition_versions self)) self) ;;;
    set_attr function_definitions set_function_definitions
      function_definition_id
      (fd_set_latest_version (fv_version func_ver)) ;;;
    set_attr function_definitions set_function_definitions
      function_definition_id
      (fd_set_latest_version_arn (fv_arn func_ver)) ;;;
    ret func_ver.

Definition create_function_definition (name : option string)
    (initial_version : Py.json)
  : M exn GreengrassBackend FakeFunctionDefinition :=
  self <- read ;;
  func_def <- FakeFunctionDefinition_init (region_name self) name
                initial_version ;;
  modify (fun self =>
    set_function_definitions
      (OrderedDict.set (fd_id func_def) func_def
         (function_definitions self)) self) ;;;
  let init_ver := fd_initial_version func_def in
  init_func_def <-
    of_result (escape (json_get init_ver "Functions" (Py.JDict []))) ;;
  init_config <-
    of_result (escape (json_get init_ver "DefaultConfig" (Py.JDict []))) ;;
  create_function_definition_version (fd_id func_def) init_func_def
    init_config ;;;
  stored function_definitions (fd_id func_def) func_def.

(** ** Subscription definitions *)

Definition create_subscription_definition_version
    (subscription_definition_id : string)
    (subscriptions : list Subscription)
  : M exn GreengrassBackend FakeSubscriptionDefinitionVersion :=
  of_result (_validate_subscription_target_or_source subscriptions) ;;;
  self <- read ;;
  if negb (OrderedDict.contains subscription_definition_id
             (subscription_definitions self))
  then raise (IdNotFoundException "That subscriptions does not exist.")
  else
    sub_def_ver <- FakeSubscriptionDefinitionVersion_init (region_name self)
                     subscription_definition_id subscriptions ;;
    modify (fun self =>
      set_subscription_definition_versions
        (add_version subscription_definition_id (sv_version sub_def_ver)
           sub_def_ver (subscription_definition_versions self)) self) ;;;
    ret sub_def_ver.

Definition create_subscription_definition (name : option string)
    (initial_version : SubscriptionDefinitionInitialVersion)
  : M exn GreengrassBackend FakeSubscriptionDefinition :=
  subscriptions <- match Subscriptions initial_version with
                   | Some l => ret l
                   | None => raise (Builtin (Py.KeyError "Subscriptions"))
                   end ;;
  of_result (_validate_subscription_target_or_source subscriptions) ;;;
  self <- read ;;
  sub_def <- FakeSubscriptionDefinition_init (region_name self) name
               initial_version ;;
  modify (fun self =>
    set_subscription_definitions
      (OrderedDict.set (sd_id sub_def) sub_def
         (subscription_definitions self)) self) ;;;
  let init_ver := sd_initial_version sub_def in
  let subscriptions := match Subscriptions init_ver with
                       | Some l => l
                       | None => []
                       end in
  sub_def_ver <- create_subscription_definition_version (sd_id sub_def)
                   subscriptions ;;
  (* sub_def.latest_version = ...; sub_def.latest_version_arn = ... *)
  modify (fun self =>
    set_subscription_definitions
      (update_at (sd_id sub_def)
         (sd_set_latest_version (sv_version sub_def_ver))
         (subscription_definitions self)) self) ;;;
  modify (fun self =>
    set_subscription_definitions
      (update_at (sd_id sub_def)
         (sd_set_latest_version_arn (sv_arn sub_def_ver))
         (subscription_definitions self)) self) ;;;
  stored subscription_definitions (sd_id sub_def) sub_def.

Definition get_subscription_definition (subscription_definition_id : string)
  : M exn GreengrassBackend FakeSubscriptionDefinition :=
  self <- read ;;
  match OrderedDict.get subscription_definition_id
          (subscription_definitions self) with
  | None => raise (IdNotFoundException
              "That Subscription List Definition does not exist.")
  | Some d => ret d
  end.

Definition get_subscription_definition_version
    (subscription_definition_id subscription_definition_version_id : string)
  : M exn GreengrassBackend FakeSubscriptionDefinitionVersion :=
  self <- read ;;
  if negb (OrderedDict.contains subscription_definition_id
             (subscription_definitions self))
  then raise (IdNotFoundException
         "That subscriptions definition does not exist.")
  else
    match OrderedDict.get subscription_definition_id
            (subscription_definition_versions self) with
    | None => raise (Builtin (Py.KeyError subscription_definition_id))
    | Some vers =>
        match OrderedDict.get subscription_definition_version_id vers with
        | None =>
            raise (VersionNotFoundException
              ("Version " ++ subscription_definition_version_id
               ++ " of Subscription List Definition "
               ++ subscription_definition_id ++ " does not exist."))
        | Some v => ret v
        end
    end.

(** ** Groups *)

Definition create_group_version (group_id : string)
    (core_definition_version_arn device_definition_version_arn
     function_definition_version_arn resource_definition_version_arn
     subscription_definition_version_arn : option string)
  : M exn GreengrassBackend FakeGroupVersion :=
  self <- read ;;
  if negb (OrderedDict.contains group_id (groups self))
  then raise (IdNotFoundException "That group does not exist.")
  else
    of_result (_validate_group_version_definitions self
                 core_definition_version_arn device_definition_version_arn
                 function_definition_version_arn
                 resource_definition_version_arn
                 subscription_definition_version_arn) ;;;
    group_ver <- FakeGroupVersion_init (region_name self) group_id
                   core_definition_version_arn device_definition_version_arn
                   function_definition_version_arn
                   resource_definition_version_arn
                   subscription_definition_version_arn ;;
    modify (fun self =>
      set_group_versions
        (add_version (gv_group_id group_ver) (gv_version group_ver)
           group_ver (group_versions self)) self) ;;;
    set_attr groups set_groups group_id
      (g_set_latest_version_arn (gv_arn group_ver)) ;;;
    set_attr groups set_groups group_id
      (g_set_latest_version (gv_version group_ver)) ;;;
    ret group_ver.

Definition create_group (name : option string)
    (initial_version : option GroupVersionInput)
  : M exn GreengrassBackend FakeGroup :=
  self <- read ;;
  group <- FakeGroup_init (region_name self) name ;;
  modify (fun self =>
    set_groups (OrderedDict.set (g_group_id group) group (groups self))
               self) ;;;
  (* definitions = initial_version or {} *)
  let definitions key :=
    match initial_version with
    | Some d => key d
    | None => None
    end in
  let core_definition_version_arn := definitions CoreDefinitionVersionArn in
  let device_definition_version_arn := definitions DeviceDefinitionVersionArn in
  let function_definition_version_arn :=
    definitions FunctionDefinitionVersionArn in
  let resource_definition_version_arn :=
    definitions ResourceDefinitionVersionArn in
  let subscription_definition_version_arn :=
    definitions SubscriptionDefinitionVersionArn in
  create_group_version (g_group_id group)
    core_definition_version_arn device_definition_version_arn
    function_definition_version_arn resource_definition_version_arn
    subscription_definition_version_arn ;;;
  stored groups (g_group_id group) group.

Definition get_group (group_id : string) : M exn GreengrassBackend FakeGroup :=
  self <- read ;;
  match OrderedDict.get group_id (groups self) with
  | None => raise (IdNotFoundException "That Group Definition does not exist.")
  | Some g => ret g
  end.

Definition get_group_version (group_id group_version_id : string)
  : M exn GreengrassBackend FakeGroupVersion :=
  self <- read ;;
  match OrderedDict.get group_id (group_versions self) with
  | None => raise (IdNotFoundException "That group definition does not exist.")
  | Some vers =>
      match OrderedDict.get group_version_id vers with
      | None =>
          raise (VersionNotFoundException
            ("Version " ++ group_version_id ++ " of Group Definition "
             ++ group_id ++ " does not exist."))
      | Some v => ret v
      end
  end.

(** ** Names, listings, deletions *)

(** [name == ""] *)
Definition is_empty_name (name : option string) : bool :=
  match name with
  | Some s => String.eqb s ""
  | None => false
  end.

Definition cd_set_name (name : option string) (d : FakeCoreDefinition) :=
  {| cd_region_name := cd_region_name d; cd_name := name;
     cd_id := cd_id d; cd_arn := cd_arn d;
     cd_created_at_datetime := cd_created_at_datetime d;
     cd_latest_version := cd_latest_version d;
     cd_latest_version_arn := cd_latest_version_arn d |}.

Definition dd_set_name (name : option string) (d : FakeDeviceDefinition) :=
  {| dd_region_name := dd_region_name d;
     dd_id := dd_id d;
     dd_arn := dd_arn d;
     dd_created_at_datetime := dd_created_at_datetime d;
     dd_update_at_datetime := dd_update_at_datetime d;
     dd_latest_version := dd_latest_version d;
     dd_latest_version_arn := dd_latest_version_arn d;
     dd_name := name;
     dd_initial_version := dd_initial_version d |}.

Definition rd_set_name (name : option string) (d : FakeResourceDefinition) :=
  {| rd_region_name := rd_region_name d;
     rd_id := rd_id d;
     rd_arn := rd_arn d;
     rd_created_at_datetime := rd_created_at_datetime d;
     rd_update_at_datetime := rd_update_at_datetime d;
     rd_latest_version := rd_latest_version d;
     rd_latest_version_arn := rd_latest_version_arn d;
     rd_name := name;
     rd_initial_version := rd_initial_version d |}.

Definition fd_set_name (name : option string) (d : FakeFunctionDefinition) :=
  {| fd_region_name := fd_region_name d;
     fd_id := fd_id d;
     fd_arn := fd_arn d;
     fd_created_at_datetime := fd_created_at_datetime d;
     fd_update_at_datetime := fd_update_at_datetime d;
     fd_latest_version := fd_latest_version d;
     fd_latest_version_arn := fd_latest_version_arn d;
     fd_name := name;
     fd_initial_version := fd_initial_version d |}.

Definition sd_set_name (name : option string) (d : FakeSubscriptionDefinition) :=
  {| sd_region_name := sd_region_name d;
     sd_id := sd_id d;
     sd_arn := sd_arn d;
     sd_created_at_datetime := sd_created_at_datetime d;
     sd_update_at_datetime := sd_update_at_datetime d;
     sd_latest_version := sd_latest_version d;
     sd_latest_version_arn := sd_latest_version_arn d;
     sd_name := name;
     sd_initial_version := sd_initial_version d |}.

Definition g_set_name (name : option string) (g : FakeGroup) :=
  {| g_region_name := g_region_name g; g_group_id := g_group_id g;
     g_name := name; g_arn := g_arn g;
     g_created_at_datetime := g_created_at_datetime g;
     g_last_updated_datetime := g_last_updated_datetime g;
     g_latest_version := g_latest_version g;
     g_latest_version_arn := g_latest_version_arn g |}.

(** *** Core definitions *)

Definition list_core_definitions (self : GreengrassBackend)
  : list FakeCoreDefinition :=
  OrderedDict.values (core_definitions self).

Definition update_core_definition (core_definition_id : string)
    (name : option string) : M exn GreengrassBackend unit :=
  if is_empty_name name
  then raise (InvalidContainerDefinitionException
         "Input does not contain any attributes to be updated")
  else
    self <- read ;;
    if negb (OrderedDict.contains core_definition_id
               (core_definitions self))
    then raise (IdNotFoundException
           "That cores definition does not exist.")
    else set_attr core_definitions set_core_definitions
           core_definition_id (cd_set_name name).

Definition list_core_definition_versions (core_definition_id : string)
  : M exn GreengrassBackend (list FakeCoreDefinitionVersion) :=
  self <- read ;;
  if negb (OrderedDict.contains core_definition_id
             (core_definitions self))
  then raise (IdNotFoundException
         "That cores definition does not exist.")
  else
    match OrderedDict.get core_definition_id
            (core_definition_versions self) with
    | None => raise (Builtin (Py.KeyError core_definition_id))
    | Some vers => ret (OrderedDict.values vers)
    end.

(** *** Device definitions *)

Definition list_device_definitions (self : GreengrassBackend)
  : list FakeDeviceDefinition :=
  OrderedDict.values (device_definitions self).

Definition get_device_definition (device_definition_id : string)
  : M exn GreengrassBackend FakeDeviceDefinition :=
  self <- read ;;
  match OrderedDict.get device_definition_id (device_definitions self) with
  | None => raise (IdNotFoundException
              "That Device List Definition does not exist.")
  | Some d => ret d
  end.

Definition delete_device_definition (device_definition_id : string)
  : M exn GreengrassBackend unit :=
  self <- read ;;
  if negb (OrderedDict.contains device_definition_id
             (device_definitions self))
  then raise (IdNotFoundException
         "That devices definition does not exist.")
  else
    modify (fun self =>
      set_device_definitions
        (OrderedDict.remove device_definition_id (device_definitions self))
        self) ;;;
    self <- read ;;
    if OrderedDict.contains device_definition_id
         (device_definition_versions self)
    then modify (fun self =>
           set_device_definition_versions
             (OrderedDict.remove device_definition_id
                (device_definition_versions self)) self)
    else raise (Builtin (Py.KeyError device_definition_id)).

Definition update_device_definition (device_definition_id : string)
    (name : option string) : M exn GreengrassBackend unit :=
  if is_empty_name name
  then raise (InvalidContainerDefinitionException
         "Input does not contain any attributes to be updated")
  else
    self <- read ;;
    if negb (OrderedDict.contains device_definition_id
               (device_definitions self))
    then raise (IdNotFoundException
           "That devices definition does not exist.")
    else set_attr device_definitions set_device_definitions
           device_definition_id (dd_set_name name).

Definition list_device_definition_versions (device_definition_id : string)
  : M exn GreengrassBackend (list FakeDeviceDefinitionVersion) :=
  self <- read ;;
  if negb (OrderedDict.contains device_definition_id
             (device_definitions self))
  then raise (IdNotFoundException
         "That devices definition does not exist.")
  else
    match OrderedDict.get device_definition_id
            (device_definition_versions self) with
    | None => raise (Builtin (Py.KeyError device_definition_id))
    | Some vers => ret (OrderedDict.values vers)
    end.

Definition get_device_definition_version
    (device_definition_id device_definition_version_id : string)
  : M exn GreengrassBackend FakeDeviceDefinitionVersion :=
  self <- read ;;
  if negb (OrderedDict.contains device_definition_id
             (device_definitions self))
  then raise (IdNotFoundException
         "That devices definition does not exist.")
  else
    match OrderedDict.get device_definition_id
            (device_definition_versions self) with
    | None => raise (Builtin (Py.KeyError device_definition_id))
    | Some vers =>
        match OrderedDict.get device_definition_version_id vers with
        | None =>
            raise (VersionNotFoundException
              ("Version " ++ device_definition_version_id
               ++ " of Device List Definition " ++ device_definition_id
               ++ " does not exist."))
        | Some v => ret v
        end
    end.

(** *** Resource definitions *)

(** [list_resource_definitions] returns the store itself, not its values. *)
Definition list_resource_definitions (self : GreengrassBackend)
  : OrderedDict.t FakeResourceDefinition :=
  resource_definitions self.

Definition get_resource_definition (resource_definition_id : string)
  : M exn GreengrassBackend FakeResourceDefinition :=
  self <- read ;;
  match OrderedDict.get resource_definition_id (resource_definitions self) with
  | None => raise (IdNotFoundException
              "That Resource List Definition does not exist.")
  | Some d => ret d
  end.

Definition delete_resource_definition (resource_definition_id : string)
  : M exn GreengrassBackend unit :=
  self <- read ;;
  if negb (OrderedDict.contains resource_definition_id
             (resource_definitions self))
  then raise (IdNotFoundException
         "That resources definition does not exist.")
  else
    modify (fun self =>
      set_resource_definitions
        (OrderedDict.remove resource_definition_id (resource_definitions self))
        self) ;;;
    self <- read ;;
    if OrderedDict.contains resource_definition_id
         (resource_definition_versions self)
    then modify (fun self =>
           set_resource_definition_versions
             (OrderedDict.remove resource_definition_id
                (resource_definition_versions self)) self)
    else raise (Builtin (Py.KeyError resource_definition_id)).

Definition update_resource_definition (resource_definition_id : string)
    (name : option string) : M exn GreengrassBackend unit :=
  if is_empty_name name
  then raise (InvalidInputException "Invalid resource name.")
  else
    self <- read ;;
    if negb (OrderedDict.contains resource_definition_id
               (resource_definitions self))
    then raise (IdNotFoundException
           "That resources definition does not exist.")
    else set_attr resource_definitions set_resource_definitions
           resource_definition_id (rd_set_name name).

Definition list_resource_definition_versions (resource_definition_id : string)
  : M exn GreengrassBackend (list FakeResourceDefinitionVersion) :=
  self <- read ;;
  if negb (OrderedDict.contains resource_definition_id
             (resource_definition_versions self))
  then raise (IdNotFoundException
         "That resources definition does not exist.")
  else
    match OrderedDict.get resource_definition_id
            (resource_definition_versions self) with
    | None => raise (Builtin (Py.KeyError resource_definition_id))
    | Some vers => ret (OrderedDict.values vers)
    end.

Definition get_resource_definition_version
    (resource_definition_id resource_definition_version_id : string)
  : M exn GreengrassBackend FakeResourceDefinitionVersion :=
  self <- read ;;
  if negb (OrderedDict.contains resource_definition_id
             (resource_definition_versions self))
  then raise (IdNotFoundException
         "That resources definition does not exist.")
  else
    match OrderedDict.get resource_definition_id
            (resource_definition_versions self) with
    | None => raise (Builtin (Py.KeyError resource_definition_id))
    | Some vers =>
        match OrderedDict.get resource_definition_version_id vers with
        | None =>
            raise (VersionNotFoundException
              ("Version " ++ resource_definition_version_id
               ++ " of Resource List Definition " ++ resource_definition_id
               ++ " does not exist."))
        | Some v => ret v
        end
    end.

(** *** Function definitions *)

Definition list_function_definitions (self : GreengrassBackend)
  : list FakeFunctionDefinition :=
  OrderedDict.values (function_definitions self).

Definition get_function_definition (function_definition_id : string)
  : M exn GreengrassBackend FakeFunctionDefinition :=
  self <- read ;;
  match OrderedDict.get function_definition_id (function_definitions self) with
  | None => raise (IdNotFoundException
              "That Lambda List Definition does not exist.")
  | Some d => ret d
  end.

Definition delete_function_definition (function_definition_id : string)
  : M exn GreengrassBackend unit :=
  self <- read ;;
  if negb (OrderedDict.contains function_definition_id
             (function_definitions self))
  then raise (IdNotFoundException
         "That lambdas definition does not exist.")
  else
    modify (fun self =>
      set_function_definitions
        (OrderedDict.remove function_definition_id (function_definitions self))
        self) ;;;
    self <- read ;;
    if OrderedDict.contains function_definition_id
         (function_definition_versions self)
    then modify (fun self =>
           set_function_definition_versions
             (OrderedDict.remove function_definition_id
                (function_definition_versions self)) self)
    else raise (Builtin (Py.KeyError function_definition_id)).

Definition update_function_definition (function_definition_id : string)
    (name : option string) : M exn GreengrassBackend unit :=
  if is_empty_name name
  then raise (InvalidContainerDefinitionException
         "Input does not contain any attributes to be updated")
  else
    self <- read ;;
    if negb (OrderedDict.contains function_definition_id
               (function_definitions self))
    then raise (IdNotFoundException
           "That lambdas definition does not exist.")
    else set_attr function_definitions set_function_definitions
           function_definition_id (fd_set_name name).

(** [list_function_definition_versions] returns the dict of the versions, not
    its values. *)
Definition list_function_definition_versions (function_definition_id : string)
  : M exn GreengrassBackend (OrderedDict.t FakeFunctionDefinitionVersion) :=
  self <- read ;;
  if negb (OrderedDict.contains function_definition_id
             (function_definition_versions self))
  then raise (IdNotFoundException
         "That lambdas definition does not exist.")
  else
    match OrderedDict.get function_definition_id
            (function_definition_versions self) with
    | None => raise (Builtin (Py.KeyError function_definition_id))
    | Some vers => ret (vers)
    end.

Definition get_function_definition_version
    (function_definition_id function_definition_version_id : string)
  : M exn GreengrassBackend FakeFunctionDefinitionVersion :=
  self <- read ;;
  if negb (OrderedDict.contains function_definition_id
             (function_definition_versions self))
  then raise (IdNotFoundException
         "That lambdas definition does not exist.")
  else
    match OrderedDict.get function_definition_id
            (function_definition_versions self) with
    | None => raise (Builtin (Py.KeyError function_definition_id))
    | Some vers =>
        match OrderedDict.get function_definition_version_id vers with
        | None =>
            raise (IdNotFoundException
              ("Version " ++ function_definition_version_id
               ++ " of Lambda List Definition " ++ function_definition_id
               ++ " does not exist."))
        | Some v => ret v
        end
    end.

(** *** Subscription definitions *)

Definition list_subscription_definitions (self : GreengrassBackend)
  : list FakeSubscriptionDefinition :=
  OrderedDict.values (subscription_definitions self).

Definition delete_subscription_definition (subscription_definition_id : string)
  : M exn GreengrassBackend unit :=
  self <- read ;;
  if negb (OrderedDict.contains subscription_definition_id
             (subscription_definitions self))
  then raise (IdNotFoundException
         "That subscriptions definition does not exist.")
  else
    modify (fun self =>
      set_subscription_definitions
        (OrderedDict.remove subscription_definition_id (subscription_definitions self))
        self) ;;;
    self <- read ;;
    if OrderedDict.contains subscription_definition_id
         (subscription_definition_versions self)
    then modify (fun self =>
           set_subscription_definition_versions
             (OrderedDict.remove subscription_definition_id
                (subscription_definition_versions self)) self)
    else raise (Builtin (Py.KeyError subscription_definition_id)).

Definition update_subscription_definition (subscription_definition_id : string)
    (name : option string) : M exn GreengrassBackend unit :=
  if is_empty_name name
  then raise (InvalidContainerDefinitionException
         "Input does not contain any attributes to be updated")
  else
    self <- read ;;
    if negb (OrderedDict.contains subscription_definition_id
               (subscription_definitions self))
    then raise (IdNotFoundException
           "That subscriptions definition does not exist.")
    else set_attr subscription_definitions set_subscription_definitions
           subscription_definition_id (sd_set_name name).

(** [list_subscription_definition_versions] returns the dict of the versions, not
    its values. *)
Definition list_subscription_definition_versions (subscription_definition_id : string)
  : M exn GreengrassBackend (OrderedDict.t FakeSubscriptionDefinitionVersion) :=
  self <- read ;;
  if negb (OrderedDict.contains subscription_definition_id
             (subscription_definition_versions self))
  then raise (IdNotFoundException
         "That subscriptions definition does not exist.")
  else
    match OrderedDict.get subscription_definition_id
            (subscription_definition_versions self) with
    | None => raise (Builtin (Py.KeyError subscription_definition_id))
    | Some vers => ret (vers)
    end.

(** *** Groups *)

Definition list_groups (self : GreengrassBackend) : list FakeGroup :=
  OrderedDict.values (groups self).

Definition delete_group (group_id : string) : M exn GreengrassBackend unit :=
  self <- read ;;
  if negb (OrderedDict.contains group_id (groups self))
  then raise (IdNotFoundException "That group definition does not exist.")
  else
    modify (fun self =>
      set_groups (OrderedDict.remove group_id (groups self)) self) ;;;
    self <- read ;;
    if OrderedDict.contains group_id (group_versions self)
    then modify (fun self =>
           set_group_versions
             (OrderedDict.remove group_id (group_versions self)) self)
    else raise (Builtin (Py.KeyError group_id)).

Definition update_group (group_id : string) (name : option string)
  : M exn GreengrassBackend unit :=
  if is_empty_name name
  then raise (InvalidContainerDefinitionException
         "Input does not contain any attributes to be updated")
  else
    self <- read ;;
    if negb (OrderedDict.contains group_id (groups self))
    then raise (IdNotFoundException "That group definition does not exist.")
    else set_attr groups set_groups group_id (g_set_name name).

Definition list_group_versions (group_id : string)
  : M exn GreengrassBackend (list FakeGroupVersion) :=
  self <- read ;;
  match OrderedDict.get group_id (group_versions self) with
  | None => raise (IdNotFoundException "That group definition does not exist.")
  | Some vers => ret (OrderedDict.values vers)
  end.

End WithOracle.

End Greengrass.

(* ================================================================== *)
(** * Definitions used to state and prove the properties *)

Module Spec.
Import Py Eff Glue.

(** Every character. *)
Definition all_ascii : list ascii := map ascii_of_nat (seq 0 256).

Fixpoint is_prefix (a b : list ascii) : bool :=
  match a, b with
  | [], _ => true
  | x :: a', y :: b' => Ascii.eqb x y && is_prefix a' b'
  | _ :: _, [] => false
  end.

(** The table of the escapes inside quotes [q]. *)
Definition escapes (q : ascii) : list (ascii * list ascii) :=
  map (fun c => (c, repr_char q c)) all_ascii.

(** The escapes of two different characters never start alike. *)
Definition escapes_apart (q : ascii) : bool :=
  let table := escapes q in
  forallb (fun x =>
    forallb (fun y =>
      implb (is_prefix (snd x) (snd y) || is_prefix (snd y) (snd x))
            (Ascii.eqb (fst x) (fst y))) table) table.

(** No escape starts with the quote that closes the literal. *)
Definition escapes_avoid_quote (q : ascii) : bool :=
  forallb (fun c =>
    match repr_char q c with
    | [] => false
    | x :: _ => negb (Ascii.eqb x q)
    end) all_ascii.

(** The items of [str(l)] after the first one, and the closing bracket. *)
Fixpoint items_tail (l : list string) : list ascii :=
  match l with
  | [] => ["]"%char]
  | s :: l' => (","%char :: " "%char :: chars (repr s) ++ items_tail l')%list
  end.

Definition items (l : list string) : list ascii :=
  match l with
  | [] => ["]"%char]
  | s :: l' => (chars (repr s) ++ items_tail l')%list
  end.

(** The job and the crawler that [create_job] and [create_crawler] build
    when the oracle has been read [n] times. *)
Definition new_job (oracle : Oracle) (n : nat) (name : string)
    (args : JobArgs) : FakeJob :=
  {| j_name := name; j_args := args; j_state := "READY";
     j_created_on := clock oracle n;
     j_last_modified_on := clock oracle (S n);
     j_arn := "arn:aws:glue:us-east-1:" ++ get_account_id oracle
              ++ ":job/" ++ name |}.

Definition new_crawler (oracle : Oracle) (n : nat) (name : string)
    (args : CrawlerArgs) : FakeCrawler :=
  {| c_name := name; c_args := args; c_state := "READY";
     c_creation_time := clock oracle n; c_last_updated := clock oracle n;
     c_version := 1; c_crawl_elapsed_time := 0;
     c_last_crawl_info := None;
     c_arn := "arn:aws:glue:us-east-1:" ++ get_account_id oracle
              ++ ":crawler/" ++ name |}.

(** Every character of [s] is in the class [p]. *)
Definition over (p : ascii -> bool) (s : string) : Prop :=
  forallb p (chars s) = true.

Definition line_feed : string := String Re.newline "".

(** [s] has the shape [P], possibly followed by one line feed: the
    strings that a pattern ending in [$] accepts. *)
Definition up_to_line_feed (P : string -> Prop) (s : string) : Prop :=
  P s \/ exists s0, s = s0 ++ line_feed /\ P s0.

(** The ARN of a thing:
    [arn:aws:iot:<region>:<12 digits>:thing/<name>]. *)
Definition thing_arn_shape (s : string) : Prop :=
  exists region account thing : string,
    s = "arn:aws:iot:" ++ region ++ ":" ++ account ++ ":thing/" ++ thing
    /\ region <> "" /\ over Re.alnum_dash region
    /\ String.length account = 12 /\ over is_digit account
    /\ thing <> "" /\ over Re.alnum_dash thing.

(** The ARN of a function with its alias or version:
    [arn:aws:lambda:<region>:<12 digits>:function:<name>:<qualifier>]. *)
Definition function_arn_shape (s : string) : Prop :=
  exists region account name qualifier : string,
    s = "arn:aws:lambda:" ++ region ++ ":" ++ account ++ ":function:"
        ++ name ++ ":" ++ qualifier
    /\ region <> "" /\ over Re.alnum_dash region
    /\ String.length account = 12 /\ over is_digit account
    /\ name <> "" /\ over Re.word_dash name
    /\ qualifier <> "" /\ over Re.word_dash qualifier.

(** The ARN of a definition version of the given kind. *)
Definition def_ver_arn_of (kind region account definition_id version_id
    : string) : string :=
  "arn:aws:greengrass:" ++ region ++ ":" ++ account
  ++ ":greengrass/definition/" ++ kind ++ "/" ++ definition_id
  ++ "/versions/" ++ version_id.

Definition def_ver_arn_shape (kind s : string) : Prop :=
  exists region account definition_id version_id : string,
    s = def_ver_arn_of kind region account definition_id version_id
    /\ region <> "" /\ over Re.alnum_dash region
    /\ String.length account = 12 /\ over is_digit account
    /\ String.length definition_id = 36
    /\ over Re.lower_digit_dash definition_id
    /\ String.length version_id = 36
    /\ over Re.lower_digit_dash version_id.

(** The sources and targets of a subscription that are in order: the two
    literals, the ARN of a thing, and the ARN of a function with its
    qualifier. *)
Definition accepted_endpoint (s : string) : Prop :=
  s = "cloud" \/ s = "GGShadowService"
  \/ thing_arn_shape s \/ function_arn_shape s.

(** The errors of a list of subscriptions, in the order of the list, the
    source of a subscription before its target. *)
Definition subscription_errors (subscriptions : list Greengrass.Subscription)
  : list string :=
  flat_map
    (fun sub =>
       (if Greengrass._is_valid_subscription_target_or_source
             (Greengrass.Source sub)
        then [] else [Greengrass.source_error sub])
       ++ (if Greengrass._is_valid_subscription_target_or_source
                (Greengrass.Target sub)
           then [] else [Greengrass.target_error sub]))%list
    subscriptions.

(** A reference resolves in a store of versions: it is the ARN of a
    version of the kind (possibly followed by a line feed, which then
    belongs to the version id that is looked up), its definition id is in
    the store, its version id is among the versions of that definition,
    and the version found there records this very ARN. *)
Definition reference_resolves {V : Type} (arn_of : V -> string)
    (versions : OrderedDict.t (OrderedDict.t V)) (kind a : string) : Prop :=
  exists (region account definition_id version_id tail : string)
         (vers : OrderedDict.t V) (ver : V),
    a = def_ver_arn_of kind region account definition_id version_id ++ tail
    /\ (tail = "" \/ tail = line_feed)
    /\ region <> "" /\ over Re.alnum_dash region
    /\ String.length account = 12 /\ over is_digit account
    /\ String.length definition_id = 36
    /\ over Re.lower_digit_dash definition_id
    /\ String.length version_id = 36
    /\ over Re.lower_digit_dash version_id
    /\ OrderedDict.get definition_id versions = Some vers
    /\ OrderedDict.get (version_id ++ tail) vers = Some ver
    /\ arn_of ver = a.

(** A reference of a group version is in order: it is null or it
    resolves. *)
Definition reference_ok {V : Type} (arn_of : V -> string)
    (versions : OrderedDict.t (OrderedDict.t V)) (kind : string)
    (arn : option string) : Prop :=
  arn = None
  \/ exists a, arn = Some a /\ reference_resolves arn_of versions kind a.

(** The errors of a group version, in the order in which the code checks
    the five kinds. *)
Definition reference_errors (cores functions resources devices
    subscriptions : bool) : list string :=
  ((if cores then [] else ["Cores definition reference does not exist"])
   ++ (if functions then []
       else ["Lambda definition reference does not exist"])
   ++ (if resources then []
       else ["Resource definition reference does not exist"])
   ++ (if devices then []
       else ["Devices definition reference does not exist"])
   ++ (if subscriptions then []
       else ["Subscription definition reference does not exist"]))%list.

(** The group version that [create_group_version] builds when the oracle
    has been read [n] times. *)
Definition new_group_version (oracle : Oracle) (region : string) (n : nat)
    (group_id : string)
    (core device function resource subscription : option string)
  : Greengrass.FakeGroupVersion :=
  {| Greengrass.gv_region_name := region;
     Greengrass.gv_group_id := group_id;
     Greengrass.gv_version := uuid4 oracle n;
     Greengrass.gv_arn :=
       "arn:aws:greengrass:" ++ region ++ ":" ++ get_account_id oracle
       ++ ":greengrass/groups/" ++ group_id ++ "/versions/" ++ uuid4 oracle n;
     Greengrass.gv_created_at_datetime := clock oracle (S n);
     Greengrass.gv_core_definition_version_arn := core;
     Greengrass.gv_device_definition_version_arn := device;
     Greengrass.gv_function_definition_version_arn := function;
     Greengrass.gv_resource_definition_version_arn := resource;
     Greengrass.gv_subscription_definition_version_arn := subscription |}.

(** Two assignments to attributes of the object stored under [id]:
    [d[id].a = x; d[id].b = y]. *)
Definition repointed {V : Type} (id : string) (first second : V -> V)
    (v : V) (d : OrderedDict.t V) : OrderedDict.t V :=
  OrderedDict.set id (second (first v)) (OrderedDict.set id (first v) d).

(** The core definition and the core definition version that the
    constructors build when the oracle has been read [n] times, and the
    backend after the version has been added to the definition [d] stored
    under [id]. *)
Definition new_core_definition (oracle : Oracle) (region : string) (n : nat)
    (name : option string)
  : Greengrass.FakeCoreDefinition :=
  {| Greengrass.cd_region_name := region; Greengrass.cd_name := name;
     Greengrass.cd_id := uuid4 oracle n;
     Greengrass.cd_arn := "arn:aws:greengrass:" ++ region ++ ":"
                  ++ get_account_id oracle
                  ++ ":greengrass/definition/cores/" ++ uuid4 oracle n;
     Greengrass.cd_created_at_datetime := clock oracle (S n);
     Greengrass.cd_latest_version := ""; Greengrass.cd_latest_version_arn := "" |}.

Definition new_core_version (oracle : Oracle) (region : string) (n : nat)
    (id : string) (definition : Greengrass.dict)
  : Greengrass.FakeCoreDefinitionVersion :=
  {| Greengrass.cv_region_name := region; Greengrass.cv_core_definition_id := id;
     Greengrass.cv_definition := definition;
     Greengrass.cv_version := uuid4 oracle n;
     Greengrass.cv_arn := "arn:aws:greengrass:" ++ region ++ ":"
                  ++ get_account_id oracle
                  ++ ":greengrass/definition/cores/" ++ id
                  ++ "/versions/" ++ uuid4 oracle n;
     Greengrass.cv_created_at_datetime := clock oracle (S n) |}.

Definition with_core_version (ver : Greengrass.FakeCoreDefinitionVersion)
    (id : string) (d : Greengrass.FakeCoreDefinition)
    (self : Greengrass.GreengrassBackend) : Greengrass.GreengrassBackend :=
  Greengrass.set_core_definitions
    (repointed id
       (Greengrass.cd_set_latest_version (Greengrass.cv_version ver))
       (Greengrass.cd_set_latest_version_arn (Greengrass.cv_arn ver))
       d (Greengrass.core_definitions self))
    (Greengrass.set_core_definition_versions
       (Greengrass.add_version id (Greengrass.cv_version ver) ver
          (Greengrass.core_definition_versions self)) self).

(** The device definition and the device definition version that the
    constructors build when the oracle has been read [n] times, and the
    backend after the version has been added to the definition [d] stored
    under [id]. *)
Definition new_device_definition (oracle : Oracle) (region : string) (n : nat)
    (name : option string) (initial_version : Py.json)
  : Greengrass.FakeDeviceDefinition :=
  {| Greengrass.dd_region_name := region; Greengrass.dd_id := uuid4 oracle n;
     Greengrass.dd_arn := "arn:aws:greengrass:" ++ region ++ ":"
                  ++ get_account_id oracle
                  ++ ":greengrass/definition/devices/" ++ uuid4 oracle n;
     Greengrass.dd_created_at_datetime := clock oracle (S n);
     Greengrass.dd_update_at_datetime := clock oracle (S (S n));
     Greengrass.dd_latest_version := ""; Greengrass.dd_latest_version_arn := "";
     Greengrass.dd_name := name; Greengrass.dd_initial_version := initial_version |}.

Definition new_device_version (oracle : Oracle) (region : string) (n : nat)
    (id : string) (devices : Py.json)
  : Greengrass.FakeDeviceDefinitionVersion :=
  {| Greengrass.dv_region_name := region; Greengrass.dv_device_definition_id := id;
     Greengrass.dv_devices := devices;
     Greengrass.dv_version := uuid4 oracle n;
     Greengrass.dv_arn := "arn:aws:greengrass:" ++ region ++ ":"
                  ++ get_account_id oracle
                  ++ ":greengrass/definition/devices/" ++ id
                  ++ "/versions/" ++ uuid4 oracle n;
     Greengrass.dv_created_at_datetime := clock oracle (S n) |}.

Definition with_device_version (ver : Greengrass.FakeDeviceDefinitionVersion)
    (id : string) (d : Greengrass.FakeDeviceDefinition)
    (self : Greengrass.GreengrassBackend) : Greengrass.GreengrassBackend :=
  Greengrass.set_device_definitions
    (repointed id
       (Greengrass.dd_set_latest_version (Greengrass.dv_version ver))
       (Greengrass.dd_set_latest_version_arn (Greengrass.dv_arn ver))
       d (Greengrass.device_definitions self))
    (Greengrass.set_device_definition_versions
       (Greengrass.add_version id (Greengrass.dv_version ver) ver
          (Greengrass.device_definition_versions self)) self).

(** The resource definition and the resource definition version that the
    constructors build when the oracle has been read [n] times, and the
    backend after the version has been added to the definition [d] stored
    under [id]. *)
Definition new_resource_definition (oracle : Oracle) (region : string) (n : nat)
    (name : option string) (initial_version : Py.json)
  : Greengrass.FakeResourceDefinition :=
  {| Greengrass.rd_region_name := region; Greengrass.rd_id := uuid4 oracle n;
     Greengrass.rd_arn := "arn:aws:greengrass:" ++ region ++ ":"
                  ++ get_account_id oracle
                  ++ ":greengrass/definition/resources/" ++ uuid4 oracle n;
     Greengrass.rd_created_at_datetime := clock oracle (S n);
     Greengrass.rd_update_at_datetime := clock oracle (S (S n));
     Greengrass.rd_latest_version := ""; Greengrass.rd_latest_version_arn := "";
     Greengrass.rd_name := name; Greengrass.rd_initial_version := initial_version |}.

Definition new_resource_version (oracle : Oracle) (region : string) (n : nat)
    (id : string) (resources : Py.json)
  : Greengrass.FakeResourceDefinitionVersion :=
  {| Greengrass.rv_region_name := region; Greengrass.rv_resource_definition_id := id;
     Greengrass.rv_resources := resources;
     Greengrass.rv_version := uuid4 oracle n;
     Greengrass.rv_arn := "arn:aws:greengrass:" ++ region ++ ":"
                  ++ get_account_id oracle
                  ++ ":greengrass/definition/resources/" ++ id
                  ++ "/versions/" ++ uuid4 oracle n;
     Greengrass.rv_created_at_datetime := clock oracle (S n) |}.

Definition with_resource_version (ver : Greengrass.FakeResourceDefinitionVersion)
    (id : string) (d : Greengrass.FakeResourceDefinition)
    (self : Greengrass.GreengrassBackend) : Greengrass.GreengrassBackend :=
  Greengrass.set_resource_definitions
    (repointed id
       (Greengrass.rd_set_latest_version (Greengrass.rv_version ver))
       (Greengrass.rd_set_latest_version_arn (Greengrass.rv_arn ver))
       d (Greengrass.resource_definitions self))
    (Greengrass.set_resource_definition_versions
       (Greengrass.add_version id (Greengrass.rv_version ver) ver
          (Greengrass.resource_definition_versions self)) self).

(** The function definition and the function definition version that the
    constructors build when the oracle has been read [n] times, and the
    backend after the version has been added to the definition [d] stored
    under [id]. *)
Definition new_function_definition (oracle : Oracle) (region : string) (n : nat)
    (name : option string) (initial_version : Py.json)
  : Greengrass.FakeFunctionDefinition :=
  {| Greengrass.fd_region_name := region; Greengrass.fd_id := uuid4 oracle n;
     Greengrass.fd_arn := "arn:aws:greengrass:" ++ region ++ ":"
                  ++ get_account_id oracle
                  ++ ":greengrass/definition/functions/" ++ uuid4 oracle n;
     Greengrass.fd_created_at_datetime := clock oracle (S n);
     Greengrass.fd_update_at_datetime := clock oracle (S (S n));
     Greengrass.fd_latest_version := ""; Greengrass.fd_latest_version_arn := "";
     Greengrass.fd_name := name; Greengrass.fd_initial_version := initial_version |}.

Definition new_function_version (oracle : Oracle) (region : string) (n : nat)
    (id : string) (functions : Py.json) (default_config : Py.json)
  : Greengrass.FakeFunctionDefinitionVersion :=
  {| Greengrass.fv_region_name := region; Greengrass.fv_function_definition_id := id;
     Greengrass.fv_functions := functions;
     Greengrass.fv_default_config := default_config;
     Greengrass.fv_version := uuid4 oracle n;
     Greengrass.fv_arn := "arn:aws:greengrass:" ++ region ++ ":"
                  ++ get_account_id oracle
                  ++ ":greengrass/definition/functions/" ++ id
                  ++ "/versions/" ++ uuid4 oracle n;
     Greengrass.fv_created_at_datetime := clock oracle (S n) |}.

Definition with_function_version (ver : Greengrass.FakeFunctionDefinitionVersion)
    (id : string) (d : Greengrass.FakeFunctionDefinition)
    (self : Greengrass.GreengrassBackend) : Greengrass.GreengrassBackend :=
  Greengrass.set_function_definitions
    (repointed id
       (Greengrass.fd_set_latest_version (Greengrass.fv_version ver))
       (Greengrass.fd_set_latest_version_arn (Greengrass.fv_arn ver))
       d (Greengrass.function_definitions self))
    (Greengrass.set_function_definition_versions
       (Greengrass.add_version id (Greengrass.fv_version ver) ver
          (Greengrass.function_definition_versions self)) self).

(** The subscription definition and the subscription definition version that the
    constructors build when the oracle has been read [n] times, and the
    backend after the version has been added to the definition [d] stored
    under [id]. *)
Definition new_subscription_definition (oracle : Oracle) (region : string) (n : nat)
    (name : option string) (initial_version : Greengrass.SubscriptionDefinitionInitialVersion)
  : Greengrass.FakeSubscriptionDefinition :=
  {| Greengrass.sd_region_name := region; Greengrass.sd_id := uuid4 oracle n;
     Greengrass.sd_arn := "arn:aws:greengrass:" ++ region ++ ":"
                  ++ get_account_id oracle
                  ++ ":greengrass/definition/subscriptions/" ++ uuid4 oracle n;
     Greengrass.sd_created_at_datetime := clock oracle (S n);
     Greengrass.sd_update_at_datetime := clock oracle (S (S n));
     Greengrass.sd_latest_version := ""; Greengrass.sd_latest_version_arn := "";
     Greengrass.sd_name := name; Greengrass.sd_initial_version := initial_version |}.

Definition new_subscription_version (oracle : Oracle) (region : string) (n : nat)
    (id : string) (subscriptions : list Greengrass.Subscription)
  : Greengrass.FakeSubscriptionDefinitionVersion :=
  {| Greengrass.sv_region_name := region; Greengrass.sv_subscription_definition_id := id;
     Greengrass.sv_subscriptions := subscriptions;
     Greengrass.sv_version := uuid4 oracle n;
     Greengrass.sv_arn := "arn:aws:greengrass:" ++ region ++ ":"
                  ++ get_account_id oracle
                  ++ ":greengrass/definition/subscriptions/" ++ id
                  ++ "/versions/" ++ uuid4 oracle n;
     Greengrass.sv_created_at_datetime := clock oracle (S n) |}.

Definition with_subscription_version (ver : Greengrass.FakeSubscriptionDefinitionVersion)
    (id : string) (self : Greengrass.GreengrassBackend) : Greengrass.GreengrassBackend :=
  Greengrass.set_subscription_definition_versions
    (Greengrass.add_version id (Greengrass.sv_version ver) ver
       (Greengrass.subscription_definition_versions self)) self.

(** The group that [FakeGroup] builds when the oracle has been read [n]
    times. *)
Definition new_group (oracle : Oracle) (region : string) (n : nat)
    (name : option string) : Greengrass.FakeGroup :=
  {| Greengrass.g_region_name := region;
     Greengrass.g_group_id := uuid4 oracle n;
     Greengrass.g_name := name;
     Greengrass.g_arn := "arn:aws:greengrass:" ++ region ++ ":"
                         ++ get_account_id oracle
                         ++ ":greengrass/groups/" ++ uuid4 oracle n;
     Greengrass.g_created_at_datetime := clock oracle (S n);
     Greengrass.g_last_updated_datetime := clock oracle (S (S n));
     Greengrass.g_latest_version := "";
     Greengrass.g_latest_version_arn := "" |}.

(** The backend after [create_subscription_definition] has stored the
    definition [d] and its first version [ver]. *)
Definition with_first_subscription_version
    (ver : Greengrass.FakeSubscriptionDefinitionVersion)
    (d : Greengrass.FakeSubscriptionDefinition)
    (self : Greengrass.GreengrassBackend) : Greengrass.GreengrassBackend :=
  Greengrass.set_subscription_definitions
    (Greengrass.update_at (Greengrass.sd_id d)
       (Greengrass.sd_set_latest_version_arn (Greengrass.sv_arn ver))
       (Greengrass.update_at (Greengrass.sd_id d)
          (Greengrass.sd_set_latest_version (Greengrass.sv_version ver))
          (OrderedDict.set (Greengrass.sd_id d) d
             (Greengrass.subscription_definitions self))))
    (Greengrass.set_subscription_definition_versions
       (Greengrass.add_version (Greengrass.sd_id d)
          (Greengrass.sv_version ver) ver
          (Greengrass.subscription_definition_versions self)) self).

(** The backend after a successful [create_group_version] for the group
    [g] stored under [group_id]. *)
Definition with_group_version (gv : Greengrass.FakeGroupVersion)
    (group_id : string) (g : Greengrass.FakeGroup)
    (self : Greengrass.GreengrassBackend) : Greengrass.GreengrassBackend :=
  Greengrass.set_groups
    (repointed group_id
       (Greengrass.g_set_latest_version_arn (Greengrass.gv_arn gv))
       (Greengrass.g_set_latest_version (Greengrass.gv_version gv))
       g (Greengrass.groups self))
    (Greengrass.set_group_versions
       (Greengrass.add_version group_id (Greengrass.gv_version gv) gv
          (Greengrass.group_versions self)) self).

(** The format of an ARN:
    [arn:aws:<service>:<region>:<account-id>:<kind>/<identifier>], and with
    [/versions/<version-id>] for a version. *)
Definition arn_of_resource (service region account kind identifier : string)
  : string :=
  "arn:aws:" ++ service ++ ":" ++ region ++ ":" ++ account ++ ":" ++ kind
  ++ "/" ++ identifier.

Definition arn_of_version (service region account kind identifier version
    : string) : string :=
  "arn:aws:" ++ service ++ ":" ++ region ++ ":" ++ account ++ ":" ++ kind
  ++ "/" ++ identifier ++ "/versions/" ++ version.

(** [m] occurs in [s]. *)
Definition mentions (s m : string) : Prop :=
  exists pre post : string, s = pre ++ m ++ post.

(** The partition that [update_partition] and [create_partition] build
    from an input, at the [n]-th read of the oracle. *)
Definition built (oracle : Oracle) (t : FakeTable) (n : nat) (input : PartitionInput)
  : FakePartition :=
  {| creation_time := clock oracle n;
     p_database_name := t_database_name t;
     p_table_name := t_name t;
     partition_input := input;
     p_values := match Values input with Some v => v | None => [] end |}.

(** ** What the other operations of the catalog build *)

(** The database, the table, the job run and the registry that the
    creating operations build when the oracle has been read [n] times. *)
Definition new_database (oracle : Oracle) (n : nat) (database_name : string)
    (database_input : dict) : FakeDatabase :=
  {| d_name := database_name; d_input := database_input;
     d_created_time := clock oracle n; tables := OrderedDict.empty |}.

Definition new_table (oracle : Oracle) (n : nat)
    (database_name table_name : string) (table_input : dict) : FakeTable :=
  {| t_database_name := database_name; t_name := table_name;
     partitions := OrderedDict.empty; t_created_time := clock oracle n;
     versions := [table_input] |}.

Definition new_job_run (oracle : Oracle) (n : nat)
    (job_name job_run_id : string) : FakeJobRun :=
  {| r_job_name := job_name; r_job_run_id := job_run_id;
     r_arguments := None; r_allocated_capacity := None;
     r_timeout := None; r_worker_type := "Standard";
     r_started_on := clock oracle n; r_modified_on := clock oracle (S n);
     r_completed_on := clock oracle (S (S n)) |}.

Definition new_registry (oracle : Oracle) (n : nat) (registry_name : string)
    (description : option string) (tags : tags_t) : FakeRegistry :=
  {| reg_name := registry_name; reg_description := description;
     reg_tags := tags; reg_created_time := clock oracle n;
     reg_updated_time := clock oracle (S n);
     registry_arn := "arn:aws:glue:us-east-1:" ++ get_account_id oracle
                     ++ ":registry/" ++ registry_name |}.







(** The names that [create_registry] takes: letters, digits and the
    signs [-_$#.], at least one of them, possibly followed by one line
    feed. *)
Definition registry_name_shape (s : string) : Prop :=
  s <> "" /\ over registry_name_char s.

(** The requests that [create_registry] serves when the backend holds
    [registries]. *)
Definition registry_accepted (registries : OrderedDict.t FakeRegistry)
    (registry_name : string) (description : option string) (tags : tags_t)
  : Prop :=
  (List.length registries < 10)%nat
  /\ up_to_line_feed registry_name_shape registry_name
  /\ (utf8_length registry_name <= 255)%nat
  /\ OrderedDict.contains registry_name registries = false
  /\ (forall s, description = Some s -> (utf8_length s <= 2048)%nat)
  /\ (forall t, tags = Some t -> (List.length t <= 50)%nat).

(** A request to [create_registry]: the name, the description, the
    tags. *)
Definition registry_request : Type := (string * option string * tags_t)%type.

(** The backend after a sequence of requests, each of which may be
    refused. *)
Definition after_registry_requests (oracle : Oracle)
    (requests : list registry_request) (w : World GlueBackend)
  : World GlueBackend :=
  fold_left
    (fun w request =>
       match request with
       | (registry_name, description, tags) =>
           snd (create_registry oracle registry_name description tags w)
       end) requests w.

(** At most ten registries, under names that differ, each filed under
    its own name. *)
Definition registries_in_order (registries : OrderedDict.t FakeRegistry)
  : Prop :=
  (List.length registries <= 10)%nat
  /\ NoDup (OrderedDict.keys registries)
  /\ Forall (fun entry => reg_name (snd entry) = fst entry) registries.

End Spec.

(* ================================================================== *)
(** * Objects of the examples *)

Module Examples.
Import Py Eff.

Definition digit_char (n : nat) : ascii := ascii_of_nat (48 + n mod 10).

(** The ids that the example oracle hands out: one per read. *)
Definition uuid_of (n : nat) : string :=
  "00000000-0000-4000-8000-0000000000"
  ++ String (digit_char (n / 10)) (String (digit_char n) "").

Definition oracle0 : Oracle :=
  {| uuid4 := uuid_of;
     clock := fun n => Z.of_nat n;
     get_account_id := "123456789012" |}.

Import Glue.


(** A table with three snapshots, for the examples. *)
Definition snapshot (tag : string) : dict := [("Description", JStr tag)].

Definition three_versions : FakeTable :=
  {| t_database_name := "db"; t_name := "tbl";
     partitions := OrderedDict.empty; t_created_time := 0;
     versions := [snapshot "first"; snapshot "second"; snapshot "third"] |}.

Definition partition_of (values : list string) (location : string)
  : PartitionInput :=
  {| Values := Some values;
     other_fields := [("StorageDescriptor",
                       JDict [("Location", JStr location)])] |}.

Definition stored_partition (values : list string) (location : string)
  : string * FakePartition :=
  (str_list values,
   {| creation_time := 0; p_database_name := "db"; p_table_name := "tbl";
      partition_input := partition_of values location;
      p_values := values |}).

(** A table with three partitions. *)
Definition three_partitions : FakeTable :=
  {| t_database_name := "db"; t_name := "tbl";
     partitions := [stored_partition ["2021"; "01"] "s3://a";
                    stored_partition ["2021"; "02"] "s3://b";
                    stored_partition ["2022"; "01"] "s3://c"];
     t_created_time := 0;
     versions := [snapshot "first"] |}.

(** New inputs: the second partition with another location, the first
    one under a free key, and the first one under the key of the second. *)
Definition moved : PartitionInput :=
  partition_of ["2021"; "02"] "s3://moved".
Definition renamed : PartitionInput := partition_of ["2021"; "03"] "s3://a".
Definition colliding : PartitionInput := partition_of ["2021"; "02"] "s3://a".

(** A job and a crawler request: the role is given, the command of a job
    is a Spark script, everything else is left out. *)
Definition job_args (role : string) : JobArgs :=
  {| j_role := JStr role;
     j_command := JDict [("Name", JStr "glueetl")];
     j_description := JNull; j_log_uri := JNull;
     j_execution_property := JNull; j_default_arguments := JNull;
     j_non_overridable_arguments := JNull; j_connections := JNull;
     j_max_retries := JNull; j_allocated_capacity := JNull;
     j_timeout := JNull; j_max_capacity := JNull;
     j_security_configuration := JNull; j_tags := None;
     j_notification_property := JNull; j_glue_version := JNull;
     j_number_of_workers := JNull; j_worker_type := JNull |}.

Definition crawler_args (role : string) : CrawlerArgs :=
  {| c_role := JStr role; c_database_name := JStr "db";
     c_description := JNull; c_targets := JNull; c_schedule := JNull;
     c_classifiers := JNull; c_table_prefix := JNull;
     c_schema_change_policy := JNull; c_recrawl_policy := JNull;
     c_lineage_configuration := JNull; c_configuration := JNull;
     c_crawler_security_configuration := JNull; c_tags := None |}.

(** The backend of the module after [create_job("etl", role="old-role",
    ...)]. *)
Definition backend_with_job : World GlueBackend :=
  snd (create_job oracle0 "etl" (job_args "old-role")
         (mkWorld (glue_backend "123456789012") 0)).

(** The empty backend of the catalog and what the examples make of
    it. *)
Definition empty_backend : World GlueBackend :=
  mkWorld (glue_backend "123456789012") 0.

Definition sales_input : dict := [("Description", JStr "sales of the shop")].

(** The backend after [create_database("sales", ...)]. *)
Definition sales_world : World GlueBackend :=
  snd (create_database oracle0 "sales" sales_input empty_backend).

(** The backend after the tables "orders" and "customers" have been
    created in "sales". *)
Definition catalog : World GlueBackend :=
  snd (create_table oracle0 "sales" "customers" (snapshot "customers")
         (snd (create_table oracle0 "sales" "orders" (snapshot "orders")
                 sales_world))).

(** A partition input without ["Values"]. *)
Definition no_values : PartitionInput :=
  {| Values := None; other_fields := [("Parameters", JDict [])] |}.

(** The backend after [create_crawler("nightly", ...)]. *)
Definition crawler_world : World GlueBackend :=
  snd (create_crawler oracle0 "nightly" (crawler_args "role") empty_backend).

(** Ten registries, named by the oracle. *)
Definition ten_requests : list Spec.registry_request :=
  map (fun n => (uuid_of n, None, None)) (seq 0 10).

Definition ten_registries : World GlueBackend :=
  Spec.after_registry_requests oracle0 ten_requests empty_backend.

(** A description of two control characters, and the registry store
    after [create_registry("schemas", ...)]. *)
Definition control_characters : string :=
  String (ascii_of_nat 1) (String (ascii_of_nat 2) "").

Definition one_registry : World GlueBackend :=
  snd (create_registry oracle0 "schemas" None None empty_backend).

Import Greengrass.

(** The subscription of the spec's example and one with a bad target. *)
Definition good_subscription : Subscription :=
  {| Id := "sub-1"; Source := "cloud"; Subject := Some "topic";
     Target := "arn:aws:iot:us-east-1:123456789012:thing/foo" |}.

Definition bad_subscription : Subscription :=
  {| Id := "sub-2"; Source := "cloud"; Subject := Some "topic";
     Target := "not-a-real-target" |}.

(** The subscription of the example with a line feed after its target. *)
Definition trailing_subscription : Subscription :=
  {| Id := "sub-1"; Source := "cloud"; Subject := Some "topic";
     Target := Target good_subscription ++ Spec.line_feed |}.

(** An empty backend for a region. *)
Definition greengrass_backend : World GreengrassBackend :=
  mkWorld (GreengrassBackend_init "eu-west-1" "123456789012") 0.

(** The backend after [create_group("edge", None)]: the group has the id
    that the oracle handed out first. *)
Definition group_world : World GreengrassBackend :=
  snd (create_group oracle0 (Some "edge") None greengrass_backend).

Definition edge_group_id : string := uuid_of 0.

(** A well-shaped reference to a core definition that was never
    created. *)
Definition missing_core_arn : string :=
  Spec.def_ver_arn_of "cores" "eu-west-1" "123456789012"
    (uuid_of 50) (uuid_of 51).

(** A group whose only reference names a core definition that was never
    created. *)
Definition dangling_references : GroupVersionInput :=
  {| CoreDefinitionVersionArn := Some missing_core_arn;
     DeviceDefinitionVersionArn := None;
     FunctionDefinitionVersionArn := None;
     ResourceDefinitionVersionArn := None;
     SubscriptionDefinitionVersionArn := None |}.

(** The backend after [create_subscription_definition] with the
    subscription of the example, and a second subscription for a later
    version. *)
Definition subscription_world : World GreengrassBackend :=
  snd (create_subscription_definition oracle0 (Some "subscriptions")
         {| Subscriptions := Some [good_subscription] |} greengrass_backend).

Definition later_subscription : Subscription :=
  {| Id := "sub-3"; Source := "GGShadowService"; Subject := Some "shadow";
     Target := "cloud" |}.

End Examples.

(* ================================================================== *)
(** * Facts about ordered dictionaries *)

Module OrderedDictFacts.
Import OrderedDict.

Section Facts.
Context {V : Type}.
Implicit Types (d : OrderedDict.t V) (k : string) (v : V).

Lemma contains_get k d :
  contains k d = true <-> exists v, get k d = Some v.
Proof.
  unfold contains. destruct (get k d) as [v|].
  - split; [eauto | reflexivity].
  - split; [discriminate | intros [v H]; discriminate].
Qed.

Lemma contains_false k d : contains k d = false <-> get k d = None.
Proof.
  unfold contains. destruct (get k d); split; congruence.
Qed.

Lemma get_app k d d' :
  get k (d ++ d')%list =
  match get k d with Some v => Some v | None => get k d' end.
Proof.
  induction d as [|[k' v'] d IH]; simpl; [reflexivity|].
  destruct (String.eqb k k'); [reflexivity | exact IH].
Qed.

Lemma get_replace_same k v d :
  get k (replace k v d) = option_map (fun _ => v) (get k d).
Proof.
  induction d as [|[k' v'] d IH]; simpl; [reflexivity|].
  destruct (String.eqb k k') eqn:E; simpl; rewrite E; [reflexivity | exact IH].
Qed.

Lemma get_replace_other k k' v d :
  k <> k' -> get k' (replace k v d) = get k' d.
Proof.
  intros Hne. induction d as [|[k0 v0] d IH]; simpl; [reflexivity|].
  destruct (String.eqb k k0) eqn:E; simpl.
  - apply String.eqb_eq in E. subst k0.
    destruct (String.eqb k' k) eqn:E'; [|exact IH].
    apply String.eqb_eq in E'. congruence.
  - destruct (String.eqb k' k0); [reflexivity | exact IH].
Qed.

Lemma keys_replace k v d : keys (replace k v d) = keys d.
Proof.
  induction d as [|[k' v'] d IH]; simpl; [reflexivity|].
  destruct (String.eqb k k'); simpl; f_equal; exact IH.
Qed.

Lemma index_replace k k' v d : index k' (replace k v d) = index k' d.
Proof.
  induction d as [|[k0 v0] d IH]; simpl; [reflexivity|].
  destruct (String.eqb k k0); simpl; rewrite IH; reflexivity.
Qed.

(** [d[k] = v] then [d[k]] *)
Lemma get_set_same k v d : get k (set k v d) = Some v.
Proof.
  unfold set. destruct (contains k d) eqn:E.
  - rewrite get_replace_same. apply contains_get in E.
    destruct E as [v' ->]. reflexivity.
  - rewrite get_app. apply contains_false in E. rewrite E.
    simpl. rewrite String.eqb_refl. reflexivity.
Qed.

Lemma get_set_other k k' v d : k <> k' -> get k' (set k v d) = get k' d.
Proof.
  intros Hne. unfold set. destruct (contains k d).
  - apply get_replace_other; assumption.
  - rewrite get_app. destruct (get k' d); [reflexivity|].
    simpl. destruct (String.eqb k' k) eqn:E; [|reflexivity].
    apply String.eqb_eq in E. congruence.
Qed.

Lemma contains_set_same k v d : contains k (set k v d) = true.
Proof. unfold contains. rewrite get_set_same. reflexivity. Qed.

Lemma contains_set_other k k' v d :
  k <> k' -> contains k' (set k v d) = contains k' d.
Proof.
  intros H. unfold contains. rewrite get_set_other by assumption.
  reflexivity.
Qed.

(** Assigning to a key that is present moves nothing. *)
Lemma keys_set_present k v d :
  contains k d = true -> keys (set k v d) = keys d.
Proof. intros H. unfold set. rewrite H. apply keys_replace. Qed.

Lemma index_set_present k k' v d :
  contains k d = true -> index k' (set k v d) = index k' d.
Proof. intros H. unfold set. rewrite H. apply index_replace. Qed.

Lemma length_set_present k v d :
  contains k d = true -> List.length (set k v d) = List.length d.
Proof.
  intros H. apply keys_set_present with (v := v) in H.
  unfold keys in H. apply (f_equal (@List.length string)) in H.
  rewrite !length_map in H. exact H.
Qed.

(** A new key goes to the end. *)
Lemma set_absent k v d :
  contains k d = false -> set k v d = (d ++ [(k, v)])%list.
Proof. intros H. unfold set. rewrite H. reflexivity. Qed.

Lemma get_remove_same k d : get k (remove k d) = None.
Proof.
  induction d as [|[k' v'] d IH]; simpl; [reflexivity|].
  destruct (String.eqb k k') eqn:E; [exact IH|].
  simpl. rewrite E. exact IH.
Qed.

Lemma get_remove_other k k' d : k <> k' -> get k' (remove k d) = get k' d.
Proof.
  intros Hne. induction d as [|[k0 v0] d IH]; simpl; [reflexivity|].
  destruct (String.eqb k k0) eqn:E.
  - apply String.eqb_eq in E. subst k0.
    destruct (String.eqb k' k) eqn:E'; [|exact IH].
    apply String.eqb_eq in E'. congruence.
  - simpl. destruct (String.eqb k' k0); [reflexivity | exact IH].
Qed.

(** Removing a key that is absent changes nothing. *)
Lemma remove_absent k d : get k d = None -> remove k d = d.
Proof.
  induction d as [|[k' v'] d IH]; simpl; [reflexivity|].
  destruct (String.eqb k k'); [discriminate|].
  intros H. f_equal. apply IH. exact H.
Qed.

(** The entry of a key sits at the key's index in the listing. *)
Lemma index_values k d n :
  index k d = Some n -> nth_error (values d) n = get k d.
Proof.
  revert n. induction d as [|[k' v'] d IH]; simpl; [discriminate|].
  intros n. destruct (String.eqb k k').
  - intros [= <-]. reflexivity.
  - destruct (index k d) as [m|]; simpl; [|discriminate].
    intros [= <-]. simpl. apply IH. reflexivity.
Qed.

Lemma index_contains k d :
  contains k d = true -> exists n, index k d = Some n.
Proof.
  unfold contains. induction d as [|[k' v'] d IH]; simpl; [discriminate|].
  destruct (String.eqb k k'); [eauto|].
  intros H. destruct (IH H) as [n ->]. simpl. eauto.
Qed.
End Facts.

End OrderedDictFacts.

(* ================================================================== *)
(** * Running a computation step by step *)

Module EffFacts.
Import Py Eff.

Section Steps.
Context {E S : Type}.
Implicit Types (w : World S).

Lemma run_ret {A B} (a : A) (k : A -> M E S B) w :
  bind (ret a) k w = k a w.
Proof. reflexivity. Qed.

Lemma run_raise {A B} (e : E) (k : A -> M E S B) w :
  bind (raise e) k w = (Raise e, w).
Proof. reflexivity. Qed.

Lemma run_read {B} (k : S -> M E S B) w :
  bind read k w = k (store w) w.
Proof. reflexivity. Qed.

Lemma run_modify {B} (f : S -> S) (k : unit -> M E S B) w :
  bind (modify f) k w = k tt (mkWorld (f (store w)) (reads w)).
Proof. reflexivity. Qed.

Lemma run_next {A B} (stream : nat -> A) (k : A -> M E S B) w :
  bind (next stream) k w
  = k (stream (reads w)) (mkWorld (store w) (Datatypes.S (reads w))).
Proof. reflexivity. Qed.

Lemma run_bind {A B C} (m : M E S A) (k : A -> M E S B)
    (k' : B -> M E S C) w :
  bind (bind m k) k' w = bind m (fun a => bind (k a) k') w.
Proof.
  unfold bind. destruct (m w) as [[a | e] w']; reflexivity.
Qed.

Lemma end_modify (f : S -> S) w :
  @modify E S f w = (Ok tt, mkWorld (f (store w)) (reads w)).
Proof. reflexivity. Qed.

Lemma end_ret {A} (a : A) w : @ret E S A a w = (Ok a, w).
Proof. reflexivity. Qed.

Lemma end_raise {A} (e : E) w : @raise E S A e w = (Raise e, w).
Proof. reflexivity. Qed.

(** A call whose outcome is known. *)
Lemma run_step {A B} (m : M E S A) (k : A -> M E S B) w (a : A) w' :
  m w = (Ok a, w') -> bind m k w = k a w'.
Proof. intros H. unfold bind. rewrite H. reflexivity. Qed.

Lemma run_fail {A B} (m : M E S A) (k : A -> M E S B) w (e : E) w' :
  m w = (Raise e, w') -> bind m k w = (Raise e, w').
Proof. intros H. unfold bind. rewrite H. reflexivity. Qed.

Lemma world_eta w : mkWorld (store w) (reads w) = w.
Proof. destruct w. reflexivity. Qed.
End Steps.

Create Rewrite HintDb run.
#[export] Hint Rewrite @run_ret @run_raise @run_read @run_modify @run_next
  @run_bind @end_modify @end_ret @end_raise : run.

End EffFacts.

(* ================================================================== *)
(** * Facts about the builtins *)

Module PyFacts.
Import Py Spec.

Lemma chars_app (s t : string) : chars (s ++ t) = (chars s ++ chars t)%list.
Proof.
  induction s as [|c s IH]; simpl; [reflexivity|].
  unfold chars in *. simpl. rewrite IH. reflexivity.
Qed.

Lemma chars_str_of (l : list ascii) : chars (str_of l) = l.
Proof. apply list_ascii_of_string_of_list_ascii. Qed.

Lemma str_of_chars (s : string) : str_of (chars s) = s.
Proof. apply string_of_list_ascii_of_string. Qed.

Lemma chars_inj (s t : string) : chars s = chars t -> s = t.
Proof.
  intros H. rewrite <- (str_of_chars s), <- (str_of_chars t), H.
  reflexivity.
Qed.

(** ** Indexing *)

Section Getitem.
Context {A : Type}.
Implicit Types (l : list A) (i : Z).

Lemma getitem_nonneg l i x :
  (0 <= i)%Z -> nth_error l (Z.to_nat i) = Some x -> getitem l i = Ok x.
Proof.
  intros Hi Hn. unfold getitem.
  assert (Hlt : (Z.to_nat i < List.length l)%nat)
    by (apply nth_error_Some; congruence).
  destruct (i <? 0)%Z eqn:E; [apply Z.ltb_lt in E; lia|].
  replace ((0 <=? i)%Z && (i <? Z.of_nat (List.length l))%Z) with true.
  - rewrite Hn. reflexivity.
  - symmetry. apply andb_true_iff. split.
    + apply Z.leb_le. lia.
    + apply Z.ltb_lt. lia.
Qed.

(** A negative index counts from the end. *)
Lemma getitem_negative l i :
  (- Z.of_nat (List.length l) <= i < 0)%Z ->
  exists x, getitem l i = Ok x
            /\ nth_error l (Z.to_nat (i + Z.of_nat (List.length l))) = Some x.
Proof.
  intros Hi. unfold getitem.
  destruct (i <? 0)%Z eqn:E; [|apply Z.ltb_ge in E; lia].
  set (j := (i + Z.of_nat (List.length l))%Z).
  replace ((0 <=? j)%Z && (j <? Z.of_nat (List.length l))%Z) with true.
  - destruct (nth_error l (Z.to_nat j)) as [x|] eqn:Hn; [eauto|].
    apply nth_error_None in Hn. subst j. lia.
  - symmetry. apply andb_true_iff. split.
    + apply Z.leb_le. subst j. lia.
    + apply Z.ltb_lt. subst j. lia.
Qed.


Lemma getitem_raises l i e : getitem l i = Raise e -> e = IndexError.
Proof.
  unfold getitem.
  destruct (_ && _); [destruct (nth_error _ _)|]; congruence.
Qed.

Lemma getitem_last l x : getitem (l ++ [x])%list (-1) = Ok x.
Proof.
  destruct (getitem_negative (l ++ [x])%list (-1)) as [y [H1 H2]].
  - rewrite length_app. change (List.length [x]) with 1%nat. lia.
  - rewrite H1. f_equal.
    rewrite length_app in H2. change (List.length [x]) with 1%nat in H2.
    replace (Z.to_nat (-1 + Z.of_nat (List.length l + 1)))
      with (List.length l) in H2 by lia.
    rewrite nth_error_app2 in H2 by lia.
    rewrite Nat.sub_diag in H2. simpl in H2. congruence.
Qed.
End Getitem.

(** ** [int] *)


(** ** [repr] and [str] of a list are injective *)


Lemma all_ascii_complete (c : ascii) : In c all_ascii.
Proof.
  unfold all_ascii. rewrite <- (ascii_nat_embedding c).
  apply in_map. apply in_seq. pose proof (nat_ascii_bounded c). lia.
Qed.


Lemma is_prefix_app (a b x y : list ascii) :
  (a ++ x = b ++ y)%list -> is_prefix a b || is_prefix b a = true.
Proof.
  revert b. induction a as [|c a IH]; intros [|d b]; simpl; try reflexivity.
  intros [= -> H]. rewrite Ascii.eqb_refl. simpl. apply IH. exact H.
Qed.


Lemma escapes_apart_squote : escapes_apart squote = true.
Proof. vm_compute. reflexivity. Qed.

Lemma escapes_apart_dquote : escapes_apart dquote = true.
Proof. vm_compute. reflexivity. Qed.

Lemma escapes_avoid_squote : escapes_avoid_quote squote = true.
Proof. vm_compute. reflexivity. Qed.

Lemma escapes_avoid_dquote : escapes_avoid_quote dquote = true.
Proof. vm_compute. reflexivity. Qed.

Lemma repr_quote_cases (s : string) :
  repr_quote s = squote \/ repr_quote s = dquote.
Proof. unfold repr_quote. destruct (_ && _); auto. Qed.

Lemma repr_char_inj (q c1 c2 : ascii) (x y : list ascii) :
  q = squote \/ q = dquote ->
  (repr_char q c1 ++ x = repr_char q c2 ++ y)%list -> c1 = c2 /\ x = y.
Proof.
  intros Hq H.
  assert (Hap : escapes_apart q = true)
    by (destruct Hq as [-> | ->];
        [apply escapes_apart_squote | apply escapes_apart_dquote]).
  assert (Hin : forall c, In (c, repr_char q c) (escapes q)).
  { intros c. unfold escapes.
    apply (in_map (fun c => (c, repr_char q c))). apply all_ascii_complete. }
  unfold escapes_apart in Hap. cbv zeta in Hap.
  rewrite forallb_forall in Hap. specialize (Hap _ (Hin c1)).
  rewrite forallb_forall in Hap. specialize (Hap _ (Hin c2)).
  cbn [fst snd] in Hap.
  rewrite (is_prefix_app _ _ _ _ H) in Hap. simpl in Hap.
  apply Ascii.eqb_eq in Hap. subst c2. split; [reflexivity|].
  eapply app_inv_head. exact H.
Qed.

Lemma repr_char_not_quote (q c : ascii) (x y : list ascii) :
  q = squote \/ q = dquote ->
  (repr_char q c ++ x)%list <> q :: y.
Proof.
  intros Hq H.
  assert (Hav : escapes_avoid_quote q = true)
    by (destruct Hq as [-> | ->];
        [apply escapes_avoid_squote | apply escapes_avoid_dquote]).
  unfold escapes_avoid_quote in Hav. rewrite forallb_forall in Hav.
  specialize (Hav c (all_ascii_complete c)).
  destruct (repr_char q c) as [|z l]; [discriminate|].
  simpl in H. injection H as -> _. rewrite Ascii.eqb_refl in Hav.
  discriminate.
Qed.

(** The body of a [repr] followed by its closing quote can be read back
    in one way only. *)
Lemma repr_body_inj (q : ascii) (l1 l2 : list ascii) (x y : list ascii) :
  q = squote \/ q = dquote ->
  (flat_map (repr_char q) l1 ++ q :: x
   = flat_map (repr_char q) l2 ++ q :: y)%list ->
  l1 = l2 /\ x = y.
Proof.
  intros Hq. revert l2.
  induction l1 as [|c1 l1 IH]; intros [|c2 l2]; simpl; intros H.
  - injection H as ->. auto.
  - symmetry in H. rewrite <- app_assoc in H.
    exfalso. eapply repr_char_not_quote; eauto.
  - rewrite <- app_assoc in H.
    exfalso. eapply repr_char_not_quote; eauto.
  - rewrite <- !app_assoc in H.
    apply repr_char_inj in H; [|assumption].
    destruct H as [-> H]. apply IH in H. destruct H as [-> ->]. auto.
Qed.

Lemma chars_repr (s : string) :
  chars (repr s)
  = (repr_quote s :: repr_body (repr_quote s) s ++ [repr_quote s])%list.
Proof. unfold repr. apply chars_str_of. Qed.

(** No [repr] is the beginning of another one. *)
Lemma repr_inj_app (s1 s2 : string) (x y : list ascii) :
  (chars (repr s1) ++ x = chars (repr s2) ++ y)%list -> s1 = s2 /\ x = y.
Proof.
  rewrite !chars_repr. simpl. intros H.
  injection H as Hq H. rewrite <- Hq in H.
  rewrite <- !app_assoc in H. simpl in H.
  unfold repr_body in H.
  apply repr_body_inj in H; [|apply repr_quote_cases].
  destruct H as [H ->]. split; [|reflexivity].
  apply chars_inj. exact H.
Qed.

Lemma repr_inj (s1 s2 : string) : repr s1 = repr s2 -> s1 = s2.
Proof.
  intros H.
  destruct (repr_inj_app s1 s2 [] []) as [H' _]; [|exact H'].
  rewrite H. reflexivity.
Qed.


Lemma chars_join_tail (s : string) (l : list string) :
  (chars (join ", " (map repr (s :: l))) ++ ["]"%char]
   = chars (repr s) ++ items_tail l)%list.
Proof.
  revert s. induction l as [|s' l IH]; intros s.
  - reflexivity.
  - change (join ", " (map repr (s :: s' :: l)))
      with (repr s ++ ", " ++ join ", " (map repr (s' :: l))).
    rewrite !chars_app. rewrite <- !app_assoc. f_equal.
    change (chars ", ") with [","%char; " "%char]. simpl.
    do 2 f_equal. apply IH.
Qed.

Lemma chars_str_list (l : list string) :
  chars (str_list l) = "["%char :: items l.
Proof.
  unfold str_list. rewrite !chars_app.
  change (chars "[") with ["["%char]. change (chars "]") with ["]"%char].
  simpl. f_equal. destruct l as [|s l]; [reflexivity|].
  apply chars_join_tail.
Qed.

Lemma repr_first_char (s : string) :
  exists q r, chars (repr s) = q :: r /\ (q = squote \/ q = dquote).
Proof.
  rewrite chars_repr. eexists _, _. split; [reflexivity|].
  apply repr_quote_cases.
Qed.

Lemma items_tail_inj (l1 l2 : list string) :
  items_tail l1 = items_tail l2 -> l1 = l2.
Proof.
  revert l2. induction l1 as [|s1 l1 IH]; intros [|s2 l2];
    cbn [items_tail]; try reflexivity; try discriminate.
  intros H.
  assert (Hcut : forall (a b : ascii) (u v : list ascii),
             a :: b :: u = a :: b :: v -> u = v) by (intros; congruence).
  apply Hcut in H. apply repr_inj_app in H. destruct H as [-> H].
  f_equal. apply IH. exact H.
Qed.

Lemma items_inj (l1 l2 : list string) : items l1 = items l2 -> l1 = l2.
Proof.
  destruct l1 as [|s1 l1], l2 as [|s2 l2]; cbn [items]; try reflexivity.
  - destruct (repr_first_char s2) as (q & r & -> & [-> | ->]); discriminate.
  - destruct (repr_first_char s1) as (q & r & -> & [-> | ->]); discriminate.
  - intros H. apply repr_inj_app in H. destruct H as [-> H].
    f_equal. apply items_tail_inj. exact H.
Qed.

(** Two lists of values have the same key only if they are the same
    list. *)
Lemma str_list_inj (l1 l2 : list string) :
  str_list l1 = str_list l2 -> l1 = l2.
Proof.
  intros H. apply (f_equal chars) in H. rewrite !chars_str_list in H.
  injection H as H. apply items_inj. exact H.
Qed.


(** ** Strings and their characters *)

Lemma str_of_app (l1 l2 : list ascii) :
  str_of (l1 ++ l2)%list = str_of l1 ++ str_of l2.
Proof.
  apply chars_inj. rewrite chars_app, !chars_str_of. reflexivity.
Qed.

Lemma length_chars (s : string) : List.length (chars s) = String.length s.
Proof.
  induction s as [|c s IH]; [reflexivity|].
  unfold chars in *. simpl. rewrite IH. reflexivity.
Qed.

Lemma chars_nil (s : string) : chars s = [] <-> s = "".
Proof.
  split; [|intros ->; reflexivity].
  destruct s; [reflexivity | discriminate].
Qed.

Lemma decompose (s : string) (l : list ascii) :
  chars s = l <-> s = str_of l.
Proof.
  split.
  - intros <-. symmetry. apply str_of_chars.
  - intros ->. apply chars_str_of.
Qed.


Lemma append_assoc (a b c : string) : (a ++ b) ++ c = a ++ b ++ c.
Proof.
  apply chars_inj. rewrite !chars_app. symmetry. apply app_assoc.
Qed.

Lemma append_empty_r (a : string) : a ++ "" = a.
Proof.
  apply chars_inj. rewrite chars_app. apply app_nil_r.
Qed.

(** ** Mentions *)

Lemma mentions_refl (s : string) : mentions s s.
Proof. exists "", "". rewrite append_empty_r. reflexivity. Qed.

Lemma mentions_inside (pre post s m : string) :
  mentions s m -> mentions (pre ++ s ++ post) m.
Proof.
  intros (a & b & ->). exists (pre ++ a), (b ++ post).
  rewrite !append_assoc. reflexivity.
Qed.

Lemma mentions_join (sep : string) (l : list string) (m : string) :
  In m l -> mentions (join sep l) m.
Proof.
  induction l as [|x l IH]; [intros []|].
  intros [-> | Hin].
  - destruct l as [|y l].
    + apply mentions_refl.
    + change (join sep (m :: y :: l)) with (m ++ sep ++ join sep (y :: l)).
      exists "", (sep ++ join sep (y :: l)). reflexivity.
  - destruct l as [|y l]; [destruct Hin|].
    change (join sep (x :: y :: l)) with (x ++ sep ++ join sep (y :: l)).
    specialize (IH Hin). destruct IH as (a & b & ->).
    exists (x ++ sep ++ a), b. rewrite !append_assoc. reflexivity.
Qed.


(** ** [split] *)

Lemma split_aux_app_sep (sep : ascii) (p rest : string) (acc : list ascii) :
  split_aux sep (p ++ String sep rest) acc
  = (split_aux sep p acc ++ split_aux sep rest [])%list.
Proof.
  revert acc. induction p as [|c p IH]; intros acc; simpl.
  - rewrite Ascii.eqb_refl. reflexivity.
  - destruct (Ascii.eqb c sep); [simpl; f_equal|]; apply IH.
Qed.

(** Cutting at an occurrence of the separator cuts the list of pieces. *)
Lemma split_app_sep (sep : ascii) (p rest : string) :
  split sep (p ++ String sep rest) = (split sep p ++ split sep rest)%list.
Proof. apply split_aux_app_sep. Qed.

Lemma split_aux_no_sep (sep : ascii) (a : string) (acc : list ascii) :
  has_char sep a = false ->
  split_aux sep a acc = [str_of (rev acc ++ chars a)%list].
Proof.
  revert acc. induction a as [|c a IH]; intros acc; simpl.
  - intros _. change (chars "") with (@nil ascii). rewrite app_nil_r.
    reflexivity.
  - intros H. apply orb_false_iff in H. destruct H as [Hc Ha].
    rewrite Ascii.eqb_sym, Hc. rewrite (IH _ Ha). simpl.
    rewrite <- app_assoc. reflexivity.
Qed.

Lemma split_no_sep (sep : ascii) (a : string) :
  has_char sep a = false -> split sep a = [a].
Proof.
  intros H. unfold split. rewrite (split_aux_no_sep _ _ _ H). simpl.
  rewrite str_of_chars. reflexivity.
Qed.

Lemma has_char_app (c : ascii) (a b : string) :
  has_char c (a ++ b) = has_char c a || has_char c b.
Proof.
  induction a as [|d a IH]; simpl; [reflexivity|].
  rewrite IH. apply orb_assoc.
Qed.

Lemma over_has_char (p : ascii -> bool) (x : string) (c : ascii) :
  over p x -> p c = false -> has_char c x = false.
Proof.
  unfold over. intros H Hc. induction x as [|d x IH]; [reflexivity|].
  change (chars (String d x)) with (d :: chars x) in H. simpl in H.
  apply andb_true_iff in H. destruct H as [Hd Hx]. simpl.
  rewrite (IH Hx), orb_false_r.
  destruct (Ascii.eqb c d) eqn:E; [|reflexivity].
  apply Ascii.eqb_eq in E. congruence.
Qed.

(** The last three pieces of a list of pieces. *)
Lemma getitem_third_last {A} (l : list A) (x y z : A) :
  getitem (l ++ [x; y; z])%list (-3) = Ok x.
Proof.
  destruct (getitem_negative (l ++ [x; y; z])%list (-3)) as [u [H1 H2]].
  - rewrite length_app. change (List.length [x; y; z]) with 3%nat. lia.
  - rewrite H1. f_equal.
    rewrite length_app in H2. change (List.length [x; y; z]) with 3%nat in H2.
    replace (Z.to_nat (-3 + Z.of_nat (List.length l + 3)))
      with (List.length l) in H2 by lia.
    rewrite nth_error_app2 in H2 by lia.
    rewrite Nat.sub_diag in H2. simpl in H2. congruence.
Qed.

Lemma getitem_last_of_three {A} (l : list A) (x y z : A) :
  getitem (l ++ [x; y; z])%list (-1) = Ok z.
Proof.
  change (l ++ [x; y; z])%list with (l ++ [x; y] ++ [z])%list.
  rewrite app_assoc. apply getitem_last.
Qed.


End PyFacts.

(* ================================================================== *)
(** * The data catalog: tables, partitions, and the backend *)

Module GlueFacts.
Import Py Eff Glue Spec Examples EffFacts.

(** ** Table versions *)

Lemma get_version_parsed (t : FakeTable) (s : string) (n : Z) :
  int s = Ok n ->
  get_version t (VerStr s) = get_version t (VerInt (n - 1)).
Proof. intros H. unfold get_version. rewrite H. reflexivity. Qed.

Lemma get_version_int_in_range (t : FakeTable) (i : Z) (v : dict) :
  (0 <= i)%Z -> nth_error (versions t) (Z.to_nat i) = Some v ->
  get_version t (VerInt i) = Ok v.
Proof.
  intros Hi Hn. unfold get_version.
  rewrite (PyFacts.getitem_nonneg _ _ _ Hi Hn). reflexivity.
Qed.


Lemma get_version_int_negative (t : FakeTable) (i : Z) :
  (- Z.of_nat (List.length (versions t)) <= i < 0)%Z ->
  exists v, get_version t (VerInt i) = Ok v
            /\ nth_error (versions t)
                 (Z.to_nat (i + Z.of_nat (List.length (versions t)))) = Some v.
Proof.
  intros Hi. unfold get_version.
  destruct (PyFacts.getitem_negative (versions t) i Hi) as [v [H1 H2]].
  rewrite H1. eauto.
Qed.





(** C10: on a table with at least one snapshot the token "0" is answered
    with the snapshot appended last; a token whose internal index lies
    between -len and -1 is answered with the snapshot at that distance from
    the end.  [as_dict] relies on the same reading of -1. *)
Theorem get_version_counts_from_the_end (t : FakeTable) :
  (forall (vs : list dict) (v : dict),
     versions t = (vs ++ [v])%list ->
     get_version t (VerStr "0") = Ok v
     /\ get_version t (VerInt (-1)) = Ok v)
  /\ (forall (s : string) (n : Z),
        int s = Ok n ->
        (- Z.of_nat (List.length (versions t)) <= n - 1 <= -1)%Z ->
        exists v,
          get_version t (VerStr s) = Ok v
          /\ nth_error (versions t)
               (Z.to_nat (n - 1 + Z.of_nat (List.length (versions t))))
             = Some v).
Proof.
  split.
  - intros vs v Hv.
    assert (H : get_version t (VerInt (-1)) = Ok v).
    { unfold get_version. rewrite Hv, PyFacts.getitem_last. reflexivity. }
    split; [|exact H].
    rewrite (get_version_parsed t "0" 0%Z eq_refl). exact H.
  - intros s n Hs Hr. rewrite (get_version_parsed _ _ _ Hs).
    apply get_version_int_negative. lia.
Qed.

Lemma get_version_counts_from_the_end_witness :
  get_version three_versions (VerStr "0") = Ok (snapshot "third")
  /\ exists v, get_version three_versions (VerStr "-1") = Ok v
               /\ nth_error (versions three_versions) 1 = Some v.
Proof.
  destruct (get_version_counts_from_the_end three_versions) as [H0 Hneg].
  split.
  - exact (proj1 (H0 [snapshot "first"; snapshot "second"] _ eq_refl)).
  - apply (Hneg "-1" (-1)%Z eq_refl). simpl. lia.
Defined.

(** [as_dict()] shows the snapshot appended last. *)
Lemma as_dict_default_last (isoformat : Z -> string) (t : FakeTable)
    (vs : list dict) (v : dict) :
  versions t = (vs ++ [v])%list ->
  as_dict_default isoformat t
  = Ok (dict_update
          [("DatabaseName", JStr (t_database_name t));
           ("Name", JStr (t_name t));
           ("CreateTime", JStr (isoformat (t_created_time t)))] v).
Proof.
  intros Hv. unfold as_dict_default, as_dict, get_version.
  rewrite Hv, PyFacts.getitem_last. reflexivity.
Qed.

(** ** Partitions *)

#[local] Arguments Py.str_list : simpl never.

Section Partitions.
Variable oracle : Oracle.


Lemma update_partition_in_place_run (t : FakeTable) (n : nat)
    (input : PartitionInput) (values : list string) :
  Values input = Some values ->
  update_partition oracle values input (mkWorld t n)
  = if OrderedDict.contains (str_list values) (partitions t)
    then (Ok tt,
          mkWorld (set_partitions
                     (OrderedDict.set (str_list values) (built oracle t n input)
                        (partitions t)) t) (S n))
    else (Raise PartitionNotFoundException, mkWorld t (S n)).
Proof.
  intros Hv. unfold update_partition, FakePartition_init, built.
  unfold bind, read, next, ret, modify, raise. cbn.
  rewrite Hv. cbn.
  destruct (list_eq_dec string_dec values values) as [_|Hne];
    [|congruence].
  destruct (OrderedDict.contains (str_list values) (partitions t));
    reflexivity.
Qed.

Lemma update_partition_key_change_run (t : FakeTable) (n : nat)
    (input : PartitionInput) (old_values values : list string) :
  Values input = Some values ->
  old_values <> values ->
  update_partition oracle old_values input (mkWorld t n)
  = let removed :=
      OrderedDict.remove (str_list old_values) (partitions t) in
    match OrderedDict.get (str_list old_values) (partitions t) with
    | None =>
        (Raise PartitionNotFoundException,
         mkWorld (set_partitions removed t) (S n))
    | Some _ =>
        if OrderedDict.contains (str_list values) removed
        then (Raise PartitionAlreadyExistsException,
              mkWorld (set_partitions removed t) (S n))
        else (Ok tt,
              mkWorld (set_partitions
                         (OrderedDict.set (str_list values)
                            (built oracle t n input) removed)
                         (set_partitions removed t)) (S n))
    end.
Proof.
  intros Hv Hne. unfold update_partition, FakePartition_init, built.
  unfold bind, read, next, ret, modify, raise. cbn.
  rewrite Hv. cbn.
  destruct (list_eq_dec string_dec old_values values) as [He|_];
    [congruence|].
  cbn.
  destruct (OrderedDict.get (str_list old_values) (partitions t));
    [|reflexivity].
  cbn.
  destruct (OrderedDict.contains (str_list values)
              (OrderedDict.remove (str_list old_values) (partitions t)));
    reflexivity.
Qed.
(** C4: when the old values are the values of the new input, a missing
    key fails with PartitionNotFound and leaves the partitions as they
    were; a key that is present gets the new partition at its place: the
    keys, their order and every other entry are the same, and the
    partition sits at the same position of the listing. *)
Theorem update_partition_in_place (t : FakeTable) (n : nat)
    (old_values : list string) (input : PartitionInput)
    (values : list string) :
  Values input = Some values ->
  old_values = values ->
  let key := str_list values in
  let r := update_partition oracle old_values input (mkWorld t n) in
  let t' := store (snd r) in
  (OrderedDict.contains key (partitions t) = false ->
     fst r = Raise PartitionNotFoundException
     /\ partitions t' = partitions t)
  /\ (OrderedDict.contains key (partitions t) = true ->
       fst r = Ok tt
       /\ partitions t'
          = OrderedDict.replace key (built oracle t n input) (partitions t)
       /\ OrderedDict.keys (partitions t') = OrderedDict.keys (partitions t)
       /\ get_partition t' values = Ok (built oracle t n input)
       /\ partition_input (built oracle t n input) = input
       /\ (forall k, k <> key ->
             OrderedDict.get k (partitions t')
             = OrderedDict.get k (partitions t))
       /\ exists i,
            OrderedDict.index key (partitions t) = Some i
            /\ OrderedDict.index key (partitions t') = Some i
            /\ nth_error (list_partitions t') i = Some (built oracle t n input)
            /\ List.length (list_partitions t')
               = List.length (list_partitions t)).
Proof.
  intros Hv -> key r t'. subst r t'.
  rewrite (update_partition_in_place_run t n input values Hv).
  fold key. split; intros Hc; rewrite Hc; cbn.
  - split; reflexivity.
  - split; [reflexivity|].
    split; [unfold OrderedDict.set; rewrite Hc; reflexivity|].
    split; [apply OrderedDictFacts.keys_set_present; exact Hc|].
    split.
    { unfold get_partition. cbn. fold key.
      rewrite OrderedDictFacts.get_set_same. reflexivity. }
    split; [reflexivity|].
    split.
    { intros k Hk. apply OrderedDictFacts.get_set_other. congruence. }
    destruct (OrderedDictFacts.index_contains key (partitions t) Hc)
      as [i Hi].
    exists i. split; [exact Hi|].
    assert (Hi' : OrderedDict.index key
                    (OrderedDict.set key (built oracle t n input) (partitions t))
                  = Some i)
      by (rewrite OrderedDictFacts.index_set_present; assumption).
    split; [exact Hi'|]. split.
    + change (nth_error
                (OrderedDict.values
                   (OrderedDict.set key (built oracle t n input) (partitions t)))
                i = Some (built oracle t n input)).
      rewrite (OrderedDictFacts.index_values _ _ _ Hi').
      apply OrderedDictFacts.get_set_same.
    + change (List.length
                (OrderedDict.values
                   (OrderedDict.set key (built oracle t n input) (partitions t)))
              = List.length (OrderedDict.values (partitions t))).
      unfold OrderedDict.values. rewrite !length_map.
      apply OrderedDictFacts.length_set_present. exact Hc.
Qed.

(** C5: when the old values differ from the values of the new input, a
    missing old key fails with PartitionNotFound and leaves the
    partitions as they were; otherwise the old entry is removed, and the
    call fails with PartitionAlreadyExists if the new key is taken, or
    else stores the partition under the new key: the old values then
    resolve to nothing and the new values to the updated partition. *)
Theorem update_partition_key_change (t : FakeTable) (n : nat)
    (old_values : list string) (input : PartitionInput)
    (values : list string) :
  Values input = Some values ->
  old_values <> values ->
  let old_key := str_list old_values in
  let key := str_list values in
  let r := update_partition oracle old_values input (mkWorld t n) in
  let t' := store (snd r) in
  (OrderedDict.contains old_key (partitions t) = false ->
     fst r = Raise PartitionNotFoundException
     /\ partitions t' = partitions t)
  /\ (OrderedDict.contains old_key (partitions t) = true ->
       OrderedDict.contains key (partitions t) = true ->
       fst r = Raise PartitionAlreadyExistsException)
  /\ (OrderedDict.contains old_key (partitions t) = true ->
       OrderedDict.contains key (partitions t) = false ->
       fst r = Ok tt
       /\ get_partition t' old_values = Raise PartitionNotFoundException
       /\ get_partition t' values = Ok (built oracle t n input)
       /\ partition_input (built oracle t n input) = input
       /\ (forall k, k <> old_key -> k <> key ->
             OrderedDict.get k (partitions t')
             = OrderedDict.get k (partitions t))).
Proof.
  intros Hv Hne old_key key r t'. subst r t'.
  rewrite (update_partition_key_change_run t n input old_values values
             Hv Hne).
  fold old_key key.
  assert (Hkeys : old_key <> key).
  { intros H. apply Hne. apply PyFacts.str_list_inj. exact H. }
  assert (Hrm : OrderedDict.contains key
                  (OrderedDict.remove old_key (partitions t))
                = OrderedDict.contains key (partitions t)).
  { unfold OrderedDict.contains.
    rewrite OrderedDictFacts.get_remove_other by assumption.
    reflexivity. }
  cbv zeta. rewrite Hrm.
  split; [|split].
  - intros Hc. apply OrderedDictFacts.contains_false in Hc.
    rewrite Hc. cbn. split; [reflexivity|].
    apply OrderedDictFacts.remove_absent. exact Hc.
  - intros Hc Hk. apply OrderedDictFacts.contains_get in Hc.
    destruct Hc as [p ->]. rewrite Hk. reflexivity.
  - intros Hc Hk. apply OrderedDictFacts.contains_get in Hc.
    destruct Hc as [p ->]. rewrite Hk. cbn.
    split; [reflexivity|]. split; [|split; [|split]].
    + unfold get_partition. cbn. fold old_key.
      rewrite OrderedDictFacts.get_set_other by congruence.
      rewrite OrderedDictFacts.get_remove_same. reflexivity.
    + unfold get_partition. cbn. fold key.
      rewrite OrderedDictFacts.get_set_same. reflexivity.
    + reflexivity.
    + intros k Hk1 Hk2.
      rewrite OrderedDictFacts.get_set_other by congruence.
      apply OrderedDictFacts.get_remove_other. congruence.
Qed.
End Partitions.


(** Altering the second of three partitions in place: it stays second. *)
Lemma update_partition_in_place_witness :
  fst (update_partition oracle0 ["2021"; "02"] moved
         (mkWorld three_partitions 0)) = Ok tt
  /\ OrderedDict.keys
       (partitions
          (store (snd (update_partition oracle0 ["2021"; "02"] moved
                         (mkWorld three_partitions 0)))))
     = OrderedDict.keys (partitions three_partitions)
  /\ get_partition
       (store (snd (update_partition oracle0 ["2021"; "02"] moved
                      (mkWorld three_partitions 0))))
       ["2021"; "02"]
     = Ok (built oracle0 three_partitions 0 moved).
Proof.
  destruct (update_partition_in_place oracle0 three_partitions 0
              ["2021"; "02"] moved ["2021"; "02"] eq_refl eq_refl)
    as [_ H].
  destruct (H eq_refl) as (H1 & _ & H2 & H3 & _).
  split; [exact H1|]. split; [exact H2 | exact H3].
Defined.

(** Moving the first of three partitions to a new key, and to a key that
    is taken. *)
Lemma update_partition_key_change_witness :
  (fst (update_partition oracle0 ["2021"; "01"] renamed
          (mkWorld three_partitions 0)) = Ok tt
   /\ get_partition
        (store (snd (update_partition oracle0 ["2021"; "01"] renamed
                       (mkWorld three_partitions 0))))
        ["2021"; "01"]
      = Raise PartitionNotFoundException
   /\ get_partition
        (store (snd (update_partition oracle0 ["2021"; "01"] renamed
                       (mkWorld three_partitions 0))))
        ["2021"; "03"]
      = Ok (built oracle0 three_partitions 0 renamed))
  /\ fst (update_partition oracle0 ["2021"; "01"] colliding
            (mkWorld three_partitions 0))
     = Raise PartitionAlreadyExistsException.
Proof.
  split.
  - destruct (update_partition_key_change oracle0 three_partitions 0
                ["2021"; "01"] renamed ["2021"; "03"] eq_refl)
      as (_ & _ & H); [discriminate|].
    destruct (H eq_refl eq_refl) as (H1 & H2 & H3 & _).
    split; [exact H1|]. split; [exact H2 | exact H3].
  - destruct (update_partition_key_change oracle0 three_partitions 0
                ["2021"; "01"] colliding ["2021"; "02"] eq_refl)
      as (_ & H & _); [discriminate|].
    exact (H eq_refl eq_refl).
Defined.

(** What the failed key change leaves behind: the old entry is gone. *)
Example update_partition_collision_removes_old :
  get_partition
    (store (snd (update_partition oracle0 ["2021"; "01"]
                   colliding (mkWorld three_partitions 0))))
    ["2021"; "01"]
  = Raise PartitionNotFoundException.
Proof. vm_compute. reflexivity. Qed.


(** ** Creating under a name that is taken *)

#[local] Arguments String.append : simpl never.

Section Backend.
Variable oracle : Oracle.

Lemma create_database_existing (b : GlueBackend) (n : nat)
    (database_name : string) (database_input : dict) :
  OrderedDict.contains database_name (databases b) = true ->
  create_database oracle database_name database_input (mkWorld b n)
  = (Raise DatabaseAlreadyExistsException, mkWorld b n).
Proof.
  intros H. unfold create_database, bind, read, raise. cbn.
  rewrite H. reflexivity.
Qed.

Lemma create_table_existing (b : GlueBackend) (n : nat)
    (database_name table_name : string) (table_input : dict)
    (database : FakeDatabase) :
  OrderedDict.get database_name (databases b) = Some database ->
  OrderedDict.contains table_name (tables database) = true ->
  create_table oracle database_name table_name table_input (mkWorld b n)
  = (Raise TableAlreadyExistsException, mkWorld b n).
Proof.
  intros Hd Ht.
  unfold create_table, get_database, bind, read, raise, ret. cbn.
  rewrite Hd. cbn. rewrite Ht. reflexivity.
Qed.

Lemma create_crawler_existing (b : GlueBackend) (n : nat)
    (name : string) (args : CrawlerArgs) :
  OrderedDict.contains name (crawlers b) = true ->
  create_crawler oracle name args (mkWorld b n)
  = (Raise CrawlerAlreadyExistsException, mkWorld b n).
Proof.
  intros H. unfold create_crawler, bind, read, raise. cbn.
  rewrite H. reflexivity.
Qed.

Lemma create_partition_existing (t : FakeTable) (n : nat)
    (input : PartitionInput) :
  OrderedDict.contains (str_list (p_values (built oracle t n input)))
    (partitions t) = true ->
  create_partition oracle input (mkWorld t n)
  = (Raise PartitionAlreadyExistsException, mkWorld t (S n)).
Proof.
  intros H.
  unfold create_partition, FakePartition_init, bind, read, next, raise, ret.
  cbn. unfold built in H. cbn in H. rewrite H. reflexivity.
Qed.

(** What [create_job] does, whatever the backend holds. *)
Lemma create_job_run (b : GlueBackend) (n : nat) (name : string)
    (args : JobArgs) :
  create_job oracle name args (mkWorld b n)
  = (Ok name,
     mkWorld
       (set_jobs
          (OrderedDict.set name (new_job oracle n name args) (jobs b))
          (set_tagger
             (TaggingService_tag_resource
                (j_arn (new_job oracle n name args))
                (match j_tags args with
                 | Some t => t
                 | None => OrderedDict.empty
                 end) (tagger b)) b))
       (S (S n))).
Proof. reflexivity. Qed.

(** C1, on the code: [create_job] under a name that is taken does not
    fail; it returns the name and the job stored under it is the new
    one. *)
Theorem create_job_replaces_existing (b : GlueBackend) (n : nat)
    (name : string) (args : JobArgs) :
  OrderedDict.contains name (jobs b) = true ->
  fst (create_job oracle name args (mkWorld b n)) = Ok name
  /\ OrderedDict.get name
       (jobs (store (snd (create_job oracle name args (mkWorld b n)))))
     = Some (new_job oracle n name args)
  /\ j_args (new_job oracle n name args) = args.
Proof.
  intros _. rewrite create_job_run. cbn.
  split; [reflexivity|]. split; [|reflexivity].
  apply OrderedDictFacts.get_set_same.
Qed.

(** ** The ARNs of crawlers and jobs *)

Lemma create_crawler_run (b : GlueBackend) (n : nat) (name : string)
    (args : CrawlerArgs) :
  OrderedDict.contains name (crawlers b) = false ->
  create_crawler oracle name args (mkWorld b n)
  = (Ok tt,
     mkWorld
       (set_crawlers
          (OrderedDict.set name (new_crawler oracle n name args) (crawlers b))
          (set_tagger
             (TaggingService_tag_resource
                (c_arn (new_crawler oracle n name args))
                (match c_tags args with
                 | Some t => t
                 | None => OrderedDict.empty
                 end) (tagger b)) b))
       (S n)).
Proof.
  intros H. unfold create_crawler, bind, read. cbn. rewrite H. reflexivity.
Qed.

Lemma crawler_arn (b : GlueBackend) (n : nat) (name : string)
    (args : CrawlerArgs) :
  OrderedDict.contains name (crawlers b) = false ->
  exists c,
    OrderedDict.get name
      (crawlers (store (snd (create_crawler oracle name args (mkWorld b n)))))
    = Some c
    /\ c_arn c = "arn:aws:glue:us-east-1:" ++ get_account_id oracle
                 ++ ":crawler/" ++ name.
Proof.
  intros H. rewrite (create_crawler_run b n name args H). cbn.
  rewrite OrderedDictFacts.get_set_same. eexists. split; reflexivity.
Qed.

Lemma job_arn (b : GlueBackend) (n : nat) (name : string) (args : JobArgs) :
  exists j,
    OrderedDict.get name
      (jobs (store (snd (create_job oracle name args (mkWorld b n)))))
    = Some j
    /\ j_arn j = "arn:aws:glue:us-east-1:" ++ get_account_id oracle
                 ++ ":job/" ++ name.
Proof.
  rewrite create_job_run. cbn.
  rewrite OrderedDictFacts.get_set_same. eexists. split; reflexivity.
Qed.
End Backend.


(** A second [create_job("etl", ...)] succeeds and the stored job carries
    the new role. *)
Lemma create_job_replaces_existing_witness :
  OrderedDict.get "etl" (jobs (store backend_with_job))
  = Some (new_job oracle0 0 "etl" (job_args "old-role"))
  /\ fst (create_job oracle0 "etl" (job_args "new-role") backend_with_job)
     = Ok "etl"
  /\ OrderedDict.get "etl"
       (jobs (store (snd (create_job oracle0 "etl" (job_args "new-role")
                            backend_with_job))))
     = Some (new_job oracle0 2 "etl" (job_args "new-role")).
Proof.
  split; [reflexivity|].
  destruct (create_job_replaces_existing oracle0 (store backend_with_job) 2
              "etl" (job_args "new-role") eq_refl) as (H1 & H2 & _).
  split; [exact H1 | exact H2].
Defined.

(** C9, as the spec states it for crawlers: the region segment of the ARN
    is the region of the backend.  The backend of the module has the
    region "global", the ARN of its crawlers says "us-east-1". *)
Lemma crawler_arn_ignores_backend_region :
  ~ (forall (o : Oracle) (b : GlueBackend) (n : nat) (name : string)
            (args : CrawlerArgs) (c : FakeCrawler),
        OrderedDict.get name
          (crawlers (store (snd (create_crawler o name args (mkWorld b n)))))
        = Some c ->
        c_arn c = "arn:aws:glue:" ++ region_name b ++ ":" ++ get_account_id o
                  ++ ":crawler/" ++ name).
Proof.
  intros H.
  specialize (H oracle0 (glue_backend "123456789012") 0%nat "nightly"
                (crawler_args "role")
                (new_crawler oracle0 0 "nightly" (crawler_args "role"))
                eq_refl).
  vm_compute in H. discriminate H.
Qed.


End GlueFacts.

(* ================================================================== *)
(** * The matcher agrees with what a pattern denotes *)

Module ReFacts.
Import Re.

Lemma matches_empty (l : list ascii) : ~ Matches Empty l.
Proof. intros H. inversion H. Qed.

Lemma matches_eps (l : list ascii) : Matches Eps l <-> l = [].
Proof.
  split.
  - intros H. inversion H. reflexivity.
  - intros ->. constructor.
Qed.

Lemma matches_class (p : ascii -> bool) (l : list ascii) :
  Matches (Class p) l <-> exists c, l = [c] /\ p c = true.
Proof.
  split.
  - intros H. inversion H; subst. eauto.
  - intros (c & -> & Hc). constructor. exact Hc.
Qed.

Lemma matches_seq (r1 r2 : re) (l : list ascii) :
  Matches (Seq r1 r2) l
  <-> exists l1 l2, l = (l1 ++ l2)%list /\ Matches r1 l1 /\ Matches r2 l2.
Proof.
  split.
  - intros H. inversion H; subst. eauto.
  - intros (l1 & l2 & -> & H1 & H2). constructor; assumption.
Qed.

Lemma matches_alt (r1 r2 : re) (l : list ascii) :
  Matches (Alt r1 r2) l <-> Matches r1 l \/ Matches r2 l.
Proof.
  split.
  - intros H. inversion H; subst; auto.
  - intros [H | H]; [apply MAltL | apply MAltR]; exact H.
Qed.

Lemma seq_cases (r1 r2 : re) :
  (seq r1 r2 = Empty /\ (r1 = Empty \/ r2 = Empty))
  \/ (seq r1 r2 = r2 /\ r1 = Eps)
  \/ seq r1 r2 = Seq r1 r2.
Proof. destruct r1, r2; cbn [seq]; auto. Qed.

Lemma alt_cases (r1 r2 : re) :
  (alt r1 r2 = r2 /\ r1 = Empty)
  \/ (alt r1 r2 = r1 /\ r2 = Empty)
  \/ alt r1 r2 = Alt r1 r2.
Proof. destruct r1, r2; cbn [alt]; auto. Qed.

Lemma seq_sound (r1 r2 : re) (l : list ascii) :
  Matches (seq r1 r2) l <-> Matches (Seq r1 r2) l.
Proof.
  destruct (seq_cases r1 r2) as [[-> H] | [[-> ->] | ->]];
    [| |reflexivity].
  - split; intros Hm; [inversion Hm|].
    apply matches_seq in Hm. destruct Hm as (l1 & l2 & _ & H1 & H2).
    destruct H as [-> | ->]; [inversion H1 | inversion H2].
  - rewrite matches_seq. split.
    + intros Hm. exists [], l. repeat split; [constructor | exact Hm].
    + intros (l1 & l2 & -> & H1 & H2).
      apply matches_eps in H1. subst l1. exact H2.
Qed.

Lemma alt_sound (r1 r2 : re) (l : list ascii) :
  Matches (alt r1 r2) l <-> Matches (Alt r1 r2) l.
Proof.
  rewrite matches_alt.
  destruct (alt_cases r1 r2) as [[-> ->] | [[-> ->] | ->]].
  - split; [auto | intros [H | H]; [inversion H | exact H]].
  - split; [auto | intros [H | H]; [exact H | inversion H]].
  - apply matches_alt.
Qed.

Lemma nullable_sound (r : re) : nullable r = true <-> Matches r [].
Proof.
  induction r as [| |p|r1 IH1 r2 IH2|r1 IH1 r2 IH2|r IH]; cbn [nullable].
  - split; [discriminate | intros H; inversion H].
  - split; [constructor | reflexivity].
  - split; [discriminate | intros H; inversion H].
  - rewrite andb_true_iff, IH1, IH2, matches_seq. split.
    + intros [H1 H2]. exists [], []. auto.
    + intros (l1 & l2 & Hl & H1 & H2). symmetry in Hl.
      apply app_eq_nil in Hl. destruct Hl as [-> ->]. auto.
  - rewrite orb_true_iff, IH1, IH2, matches_alt. reflexivity.
  - split; [constructor | reflexivity].
Qed.

(** A star that matches a non-empty list matches a first non-empty round
    and then the rest. *)
Lemma matches_star_cons (r : re) (c : ascii) (l : list ascii) :
  Matches (Star r) (c :: l) ->
  exists l1 l2, l = (l1 ++ l2)%list
                /\ Matches r (c :: l1) /\ Matches (Star r) l2.
Proof.
  intros H. remember (Star r) as sr eqn:Hsr.
  remember (c :: l) as cl eqn:Hcl.
  induction H as [| | | | | r' | r' l1 l2 H1 _ H2 IH2]; try discriminate.
  injection Hsr as ->.
  destruct l1 as [|c1 l1].
  - simpl in Hcl. apply IH2; [reflexivity | exact Hcl].
  - simpl in Hcl. injection Hcl as Hc Hl. subst c1 l. eauto.
Qed.

Lemma deriv_sound (c : ascii) (r : re) (l : list ascii) :
  Matches (deriv c r) l <-> Matches r (c :: l).
Proof.
  revert l.
  induction r as [| |p|r1 IH1 r2 IH2|r1 IH1 r2 IH2|r IH]; intros l;
    cbn [deriv].
  - split; intros H; inversion H.
  - split; intros H; inversion H.
  - destruct (p c) eqn:Hp.
    + rewrite matches_eps. split.
      * intros ->. constructor. exact Hp.
      * intros H. inversion H. reflexivity.
    + split; intros H; inversion H; subst. congruence.
  - assert (Hseq : Matches (seq (deriv c r1) r2) l
                   <-> exists l1 l2, l = (l1 ++ l2)%list
                         /\ Matches r1 (c :: l1) /\ Matches r2 l2).
    { rewrite seq_sound, matches_seq. split.
      - intros (l1 & l2 & -> & H1 & H2). apply IH1 in H1. eauto.
      - intros (l1 & l2 & -> & H1 & H2). apply IH1 in H1. eauto. }
    rewrite matches_seq. destruct (nullable r1) eqn:Hn.
    + rewrite alt_sound, matches_alt, Hseq, IH2. split.
      * intros [(l1 & l2 & -> & H1 & H2) | H].
        -- exists (c :: l1), l2. auto.
        -- exists [], (c :: l). repeat split; [|exact H].
           apply nullable_sound. exact Hn.
      * intros (l1 & l2 & Hl & H1 & H2). destruct l1 as [|c1 l1].
        -- simpl in Hl. subst l2. right. exact H2.
        -- simpl in Hl. injection Hl as Hc Hl. subst c1 l. left. eauto.
    + rewrite Hseq. split.
      * intros (l1 & l2 & -> & H1 & H2). exists (c :: l1), l2. auto.
      * intros (l1 & l2 & Hl & H1 & H2). destruct l1 as [|c1 l1].
        -- apply nullable_sound in H1. congruence.
        -- simpl in Hl. injection Hl as Hc Hl. subst c1 l. eauto.
  - rewrite alt_sound, !matches_alt, IH1, IH2. reflexivity.
  - rewrite seq_sound, matches_seq. split.
    + intros (l1 & l2 & -> & H1 & H2). apply IH in H1.
      change (c :: l1 ++ l2)%list with ((c :: l1) ++ l2)%list.
      constructor; assumption.
    + intros H. apply matches_star_cons in H.
      destruct H as (l1 & l2 & -> & H1 & H2). apply IH in H1. eauto.
Qed.

(** The matcher decides what the pattern denotes. *)
Theorem fullmatch_sound (r : re) (l : list ascii) :
  fullmatch r l = true <-> Matches r l.
Proof.
  revert r. induction l as [|c l IH]; intros r; cbn [fullmatch].
  - apply nullable_sound.
  - rewrite IH. apply deriv_sound.
Qed.

(** ** The shapes of the patterns *)

Lemma matches_lit (s : string) (l : list ascii) :
  Matches (Lit s) l <-> l = Py.chars s.
Proof.
  revert l. induction s as [|c s IH]; intros l; cbn [Lit].
  - apply matches_eps.
  - rewrite matches_seq. split.
    + intros (l1 & l2 & -> & H1 & H2). apply matches_class in H1.
      destruct H1 as (c' & -> & Hc). apply Ascii.eqb_eq in Hc. subst c'.
      apply IH in H2. subst l2. reflexivity.
    + intros ->. exists [c], (Py.chars s). repeat split.
      * constructor. apply Ascii.eqb_refl.
      * apply IH. reflexivity.
Qed.

Lemma matches_star_class (p : ascii -> bool) (l : list ascii) :
  Matches (Star (Class p)) l <-> forallb p l = true.
Proof.
  split.
  - intros H. remember (Star (Class p)) as sr eqn:Hsr.
    induction H as [| | | | | r' | r' l1 l2 H1 _ H2 IH2]; try discriminate.
    + reflexivity.
    + injection Hsr as ->. apply matches_class in H1.
      destruct H1 as (c & -> & Hc). simpl. rewrite Hc. apply IH2.
      reflexivity.
  - induction l as [|c l IH]; simpl; intros H; [constructor|].
    apply andb_true_iff in H. destruct H as [Hc Hl].
    change (c :: l) with ([c] ++ l)%list. constructor.
    + constructor. exact Hc.
    + apply IH. exact Hl.
Qed.

Lemma matches_plus_class (p : ascii -> bool) (l : list ascii) :
  Matches (Plus (Class p)) l <-> l <> [] /\ forallb p l = true.
Proof.
  unfold Plus. rewrite matches_seq. split.
  - intros (l1 & l2 & -> & H1 & H2). apply matches_class in H1.
    destruct H1 as (c & -> & Hc). apply matches_star_class in H2.
    split; [discriminate|]. simpl. rewrite Hc. exact H2.
  - intros [Hne H]. destruct l as [|c l]; [congruence|].
    simpl in H. apply andb_true_iff in H. destruct H as [Hc Hl].
    exists [c], l. repeat split.
    + constructor. exact Hc.
    + apply matches_star_class. exact Hl.
Qed.

Lemma matches_rep_class (n : nat) (p : ascii -> bool) (l : list ascii) :
  Matches (Rep n (Class p)) l <-> List.length l = n /\ forallb p l = true.
Proof.
  revert l. induction n as [|n IH]; intros l; cbn [Rep].
  - rewrite matches_eps. split.
    + intros ->. auto.
    + intros [H _]. destruct l; [reflexivity | discriminate].
  - rewrite matches_seq. split.
    + intros (l1 & l2 & -> & H1 & H2). apply matches_class in H1.
      destruct H1 as (c & -> & Hc). apply IH in H2. destruct H2 as [Hl Hp].
      simpl. rewrite Hc, Hl. auto.
    + intros [Hl Hp]. destruct l as [|c l]; [discriminate|].
      simpl in Hl, Hp. apply andb_true_iff in Hp. destruct Hp as [Hc Hp].
      exists [c], l. repeat split.
      * constructor. exact Hc.
      * apply IH. split; [congruence | exact Hp].
Qed.

(** [re.match("^r$", s)]: [r] matches all of [s], or all of it but a final
    line feed. *)
Lemma match_anchored_sound (r : re) (s : string) :
  match_anchored r s = true
  <-> Matches r (Py.chars s)
      \/ exists s0, s = s0 ++ String newline "" /\ Matches r (Py.chars s0).
Proof.
  unfold match_anchored. rewrite fullmatch_sound, matches_seq. split.
  - intros (l1 & l2 & Hl & H1 & H2). apply matches_alt in H2.
    destruct H2 as [H2 | H2].
    + apply matches_eps in H2. subst l2. rewrite app_nil_r in Hl.
      left. rewrite Hl. exact H1.
    + apply matches_class in H2. destruct H2 as (c & -> & Hc).
      apply Ascii.eqb_eq in Hc. subst c. right. exists (Py.str_of l1).
      split.
      * apply PyFacts.chars_inj.
        rewrite PyFacts.chars_app, PyFacts.chars_str_of. exact Hl.
      * rewrite PyFacts.chars_str_of. exact H1.
  - intros [H | (s0 & -> & H)].
    + exists (Py.chars s), []. rewrite app_nil_r. repeat split.
      * exact H.
      * apply MAltL. constructor.
    + exists (Py.chars s0), [newline]. repeat split.
      * apply PyFacts.chars_app.
      * exact H.
      * apply MAltR. constructor. apply Ascii.eqb_refl.
Qed.


(** ** Patterns read segment by segment *)

Lemma plus_class_str (p : ascii -> bool) (l : list ascii) :
  Matches (Plus (Class p)) l
  <-> Py.str_of l <> "" /\ Spec.over p (Py.str_of l).
Proof.
  rewrite matches_plus_class. unfold Spec.over.
  rewrite PyFacts.chars_str_of.
  split; intros [H1 H2]; split; try exact H2.
  - intros H. apply H1. apply (f_equal Py.chars) in H.
    rewrite PyFacts.chars_str_of in H. exact H.
  - intros ->. apply H1. reflexivity.
Qed.

Lemma rep_class_str (n : nat) (p : ascii -> bool) (l : list ascii) :
  Matches (Rep n (Class p)) l
  <-> String.length (Py.str_of l) = n /\ Spec.over p (Py.str_of l).
Proof.
  rewrite matches_rep_class. unfold Spec.over.
  rewrite <- PyFacts.length_chars, PyFacts.chars_str_of. reflexivity.
Qed.

Lemma seq_lit (s : string) (r : re) (l : list ascii) :
  Matches (Seq (Lit s) r) l
  <-> exists l', l = (Py.chars s ++ l')%list /\ Matches r l'.
Proof.
  rewrite matches_seq. split.
  - intros (l1 & l2 & -> & H1 & H2). apply matches_lit in H1. subst l1.
    eauto.
  - intros (l' & -> & H). exists (Py.chars s), l'.
    repeat split; [|exact H]. apply matches_lit. reflexivity.
Qed.

Lemma seq_plus (p : ascii -> bool) (r : re) (l : list ascii) :
  Matches (Seq (Plus (Class p)) r) l
  <-> exists (x : string) l',
        l = (Py.chars x ++ l')%list /\ x <> "" /\ Spec.over p x
        /\ Matches r l'.
Proof.
  rewrite matches_seq. split.
  - intros (l1 & l2 & -> & H1 & H2). apply plus_class_str in H1.
    destruct H1 as [Hne Hp]. exists (Py.str_of l1), l2.
    rewrite PyFacts.chars_str_of. auto.
  - intros (x & l' & -> & Hne & Hp & H). exists (Py.chars x), l'.
    repeat split; [|exact H]. apply plus_class_str.
    rewrite PyFacts.str_of_chars. auto.
Qed.

Lemma seq_rep (n : nat) (p : ascii -> bool) (r : re) (l : list ascii) :
  Matches (Seq (Rep n (Class p)) r) l
  <-> exists (x : string) l',
        l = (Py.chars x ++ l')%list /\ String.length x = n
        /\ Spec.over p x /\ Matches r l'.
Proof.
  rewrite matches_seq. split.
  - intros (l1 & l2 & -> & H1 & H2). apply rep_class_str in H1.
    destruct H1 as [Hn Hp]. exists (Py.str_of l1), l2.
    rewrite PyFacts.chars_str_of. auto.
  - intros (x & l' & -> & Hn & Hp & H). exists (Py.chars x), l'.
    repeat split; [|exact H]. apply rep_class_str.
    rewrite PyFacts.str_of_chars. auto.
Qed.

Lemma end_plus (p : ascii -> bool) (l : list ascii) :
  Matches (Plus (Class p)) l
  <-> exists x : string, l = Py.chars x /\ x <> "" /\ Spec.over p x.
Proof.
  rewrite plus_class_str. split.
  - intros [H1 H2]. exists (Py.str_of l).
    rewrite PyFacts.chars_str_of. auto.
  - intros (x & -> & H1 & H2). rewrite PyFacts.str_of_chars. auto.
Qed.

Lemma end_rep (n : nat) (p : ascii -> bool) (l : list ascii) :
  Matches (Rep n (Class p)) l
  <-> exists x : string,
        l = Py.chars x /\ String.length x = n /\ Spec.over p x.
Proof.
  rewrite rep_class_str. split.
  - intros [H1 H2]. exists (Py.str_of l).
    rewrite PyFacts.chars_str_of. auto.
  - intros (x & -> & H1 & H2). rewrite PyFacts.str_of_chars. auto.
Qed.

Lemma match_anchored_shape (r : re) (P : string -> Prop) :
  (forall s, Matches r (Py.chars s) <-> P s) ->
  forall s, match_anchored r s = true <-> Spec.up_to_line_feed P s.
Proof.
  intros HP s. rewrite match_anchored_sound. unfold Spec.up_to_line_feed.
  rewrite HP. split; (intros [H | (s0 & E & H)]; [left; exact H|]);
    right; exists s0; (split; [exact E|]); apply HP; exact H.
Qed.


End ReFacts.

(* ================================================================== *)
(** * Facts about the catalog: databases, tables, partitions *)

Module CatalogFacts.
Import Py Eff Glue Spec Examples EffFacts.

#[local] Arguments String.append : simpl never.
#[local] Arguments Py.str_list : simpl never.

(** ** The versions of a table *)

Lemma nth_error_in_range {A} (l : list A) (i : nat) :
  (i < List.length l)%nat -> exists v, nth_error l i = Some v.
Proof.
  intros H. destruct (nth_error l i) as [v|] eqn:E; [eauto|].
  apply nth_error_None in E. lia.
Qed.

(** X1: [update] never rewrites history.  After [update(table_input)]
    every version token that was answered before is answered with the
    same snapshot, the next token and the default of [as_dict] are
    answered with the new input, and the partitions are untouched. *)
Theorem update_keeps_earlier_versions (t : FakeTable) (n : nat)
    (table_input : dict) :
  let t' := store (snd (update table_input (mkWorld t n))) in
  (forall s k,
      int s = Ok k -> (1 <= k <= Z.of_nat (List.length (versions t)))%Z ->
      get_version t' (VerStr s) = get_version t (VerStr s))
  /\ (forall s,
         int s = Ok (Z.of_nat (List.length (versions t)) + 1)%Z ->
         get_version t' (VerStr s) = Ok table_input)
  /\ get_version t' (VerInt (-1)) = Ok table_input
  /\ partitions t' = partitions t.
Proof.
  cbn [update modify store snd versions set_versions partitions].
  assert (Hlast : nth_error (versions t ++ [table_input])
                    (List.length (versions t)) = Some table_input).
  { rewrite nth_error_app2 by lia. rewrite Nat.sub_diag. reflexivity. }
  split; [|split; [|split; [|reflexivity]]].
  - intros s k Hs Hk. unfold get_version. rewrite Hs.
    cbn [versions set_versions].
    destruct (nth_error_in_range (versions t) (Z.to_nat (k - 1)))
      as [v Hv]; [lia|].
    rewrite (PyFacts.getitem_nonneg (versions t) (k - 1) v) by (lia || exact Hv).
    rewrite (PyFacts.getitem_nonneg _ (k - 1) v); [reflexivity | lia |].
    rewrite nth_error_app1 by lia. exact Hv.
  - intros s Hs. unfold get_version. rewrite Hs. cbn [versions set_versions].
    rewrite (PyFacts.getitem_nonneg _ _ table_input); [reflexivity | lia |].
    replace (Z.to_nat (Z.of_nat (List.length (versions t)) + 1 - 1))
      with (List.length (versions t)) by lia.
    exact Hlast.
  - unfold get_version. cbn [versions set_versions].
    destruct (PyFacts.getitem_negative (versions t ++ [table_input]) (-1))
      as [v [H1 H2]].
    { rewrite length_app. cbn [List.length]. lia. }
    rewrite H1. f_equal.
    rewrite length_app in H2. cbn [List.length] in H2.
    replace (Z.to_nat (-1 + Z.of_nat (List.length (versions t) + 1)))
      with (List.length (versions t)) in H2 by lia.
    congruence.
Qed.


(** ** Databases and tables *)

Lemma get_database_run (b : GlueBackend) (n : nat) (database_name : string)
    (database : FakeDatabase) :
  OrderedDict.get database_name (databases b) = Some database ->
  get_database database_name (mkWorld b n) = (Ok database, mkWorld b n).
Proof.
  intros H. unfold get_database. autorewrite with run. cbn [store].
  rewrite H. reflexivity.
Qed.

Lemma get_database_missing (b : GlueBackend) (n : nat)
    (database_name : string) :
  OrderedDict.get database_name (databases b) = None ->
  get_database database_name (mkWorld b n)
  = (Raise (DatabaseNotFoundException database_name), mkWorld b n).
Proof.
  intros H. unfold get_database. autorewrite with run. cbn [store].
  rewrite H. reflexivity.
Qed.

Lemma get_table_run (b : GlueBackend) (n : nat)
    (database_name table_name : string) (database : FakeDatabase) :
  OrderedDict.get database_name (databases b) = Some database ->
  get_table database_name table_name (mkWorld b n)
  = (match OrderedDict.get table_name (tables database) with
     | Some t => Ok t
     | None => Raise (TableNotFoundException table_name)
     end, mkWorld b n).
Proof.
  intros H. unfold get_table.
  erewrite run_step by (apply get_database_run; exact H).
  destruct (OrderedDict.get table_name (tables database)); reflexivity.
Qed.

Lemma get_tables_run (b : GlueBackend) (n : nat) (database_name : string)
    (database : FakeDatabase) :
  OrderedDict.get database_name (databases b) = Some database ->
  get_tables database_name (mkWorld b n)
  = (Ok (OrderedDict.values (tables database)), mkWorld b n).
Proof.
  intros H. unfold get_tables.
  erewrite run_step by (apply get_database_run; exact H). reflexivity.
Qed.

Lemma values_app {V} (d d' : OrderedDict.t V) :
  OrderedDict.values (d ++ d')%list
  = (OrderedDict.values d ++ OrderedDict.values d')%list.
Proof. apply map_app. Qed.

Section Catalog.
Variable oracle : Oracle.

Lemma create_database_run (b : GlueBackend) (n : nat)
    (database_name : string) (database_input : dict) :
  OrderedDict.contains database_name (databases b) = false ->
  create_database oracle database_name database_input (mkWorld b n)
  = (Ok (new_database oracle n database_name database_input),
     mkWorld
       (set_databases
          (databases b
           ++ [(database_name,
                new_database oracle n database_name database_input)])%list
          b) (S n)).
Proof.
  intros H. unfold create_database, FakeDatabase_init.
  autorewrite with run. cbn [store reads]. rewrite H.
  autorewrite with run. cbn [store reads].
  rewrite (OrderedDictFacts.set_absent _ _ _ H). reflexivity.
Qed.

(** X2: a database created under a free name is the one that
    [get_database] returns, it is the last of [get_databases], it has no
    tables, and every other name is answered as before. *)
Theorem create_database_round_trip (b : GlueBackend) (n : nat)
    (database_name : string) (database_input : dict) :
  OrderedDict.contains database_name (databases b) = false ->
  let database := new_database oracle n database_name database_input in
  let w' := snd (create_database oracle database_name database_input
                   (mkWorld b n)) in
  fst (create_database oracle database_name database_input (mkWorld b n))
  = Ok database
  /\ get_database database_name w' = (Ok database, w')
  /\ get_databases (store w') = (get_databases b ++ [database])%list
  /\ get_tables database_name w' = (Ok [], w')
  /\ (forall other,
         other <> database_name ->
         fst (get_database other w')
         = fst (get_database other (mkWorld b n))).
Proof.
  intros H database w'. subst w'. rewrite (create_database_run _ _ _ _ H).
  cbn [fst snd]. fold database.
  assert (Hget : OrderedDict.get database_name
                   (databases
                      (set_databases
                         (databases b ++ [(database_name, database)])%list b))
                 = Some database).
  { cbn [databases set_databases]. rewrite OrderedDictFacts.get_app.
    apply OrderedDictFacts.contains_false in H. rewrite H.
    cbn [OrderedDict.get]. rewrite String.eqb_refl. reflexivity. }
  split; [reflexivity|]. split; [apply get_database_run; exact Hget|].
  split; [|split].
  - unfold get_databases. cbn [store databases set_databases].
    rewrite values_app. reflexivity.
  - rewrite (get_tables_run _ _ _ _ Hget). reflexivity.
  - intros other Hne. unfold get_database. autorewrite with run.
    cbn [store databases set_databases]. rewrite OrderedDictFacts.get_app.
    destruct (OrderedDict.get other (databases b)); [reflexivity|].
    cbn [OrderedDict.get].
    destruct (String.eqb other database_name) eqn:E; [|reflexivity].
    apply String.eqb_eq in E. contradiction.
Qed.

Lemma create_table_run (b : GlueBackend) (n : nat)
    (database_name table_name : string) (table_input : dict)
    (database : FakeDatabase) :
  OrderedDict.get database_name (databases b) = Some database ->
  OrderedDict.contains table_name (tables database) = false ->
  create_table oracle database_name table_name table_input (mkWorld b n)
  = (Ok (new_table oracle n database_name table_name table_input),
     mkWorld
       (store_table database_name table_name
          (new_table oracle n database_name table_name table_input) b)
       (S n)).
Proof.
  intros Hd Ht. unfold create_table.
  erewrite run_step by (apply get_database_run; exact Hd).
  rewrite Ht. unfold FakeTable_init. autorewrite with run. reflexivity.
Qed.

Lemma get_store_table (b : GlueBackend) (database_name table_name : string)
    (table : FakeTable) (database : FakeDatabase) :
  OrderedDict.get database_name (databases b) = Some database ->
  OrderedDict.get database_name
    (databases (store_table database_name table_name table b))
  = Some (set_tables
            (OrderedDict.set table_name table (tables database)) database).
Proof.
  intros H. unfold store_table. rewrite H. cbn [databases set_databases].
  apply OrderedDictFacts.get_set_same.
Qed.

Lemma get_store_table_other (b : GlueBackend)
    (database_name table_name other : string) (table : FakeTable) :
  other <> database_name ->
  OrderedDict.get other
    (databases (store_table database_name table_name table b))
  = OrderedDict.get other (databases b).
Proof.
  intros H. unfold store_table.
  destruct (OrderedDict.get database_name (databases b)); [|reflexivity].
  cbn [databases set_databases].
  apply OrderedDictFacts.get_set_other. congruence.
Qed.

(** X3: a table created under a free name of an existing database is
    the one that [get_table] returns; it holds the input as its only
    version and no partitions; it is the last of [get_tables]; the other
    tables of the database and the other databases are as before. *)
Theorem create_table_round_trip (b : GlueBackend) (n : nat)
    (database_name table_name : string) (table_input : dict)
    (database : FakeDatabase) :
  OrderedDict.get database_name (databases b) = Some database ->
  OrderedDict.contains table_name (tables database) = false ->
  let table := new_table oracle n database_name table_name table_input in
  let w' := snd (create_table oracle database_name table_name table_input
                   (mkWorld b n)) in
  fst (create_table oracle database_name table_name table_input
         (mkWorld b n)) = Ok table
  /\ get_table database_name table_name w' = (Ok table, w')
  /\ get_version table (VerStr "1") = Ok table_input
  /\ list_partitions table = []
  /\ get_tables database_name w'
     = (Ok (OrderedDict.values (tables database) ++ [table])%list, w')
  /\ (forall other,
         other <> table_name ->
         fst (get_table database_name other w')
         = fst (get_table database_name other (mkWorld b n)))
  /\ (forall other,
         other <> database_name ->
         OrderedDict.get other (databases (store w'))
         = OrderedDict.get other (databases b)).
Proof.
  intros Hd Ht table w'. subst w'.
  rewrite (create_table_run _ _ _ _ _ _ Hd Ht). cbn [fst snd]. fold table.
  pose proof (get_store_table b database_name table_name table database Hd)
    as Hget.
  split; [reflexivity|]. split; [|split; [reflexivity|split; [reflexivity|]]].
  - rewrite (get_table_run _ _ _ _ _ Hget). cbn [tables set_tables].
    rewrite OrderedDictFacts.get_set_same. reflexivity.
  - split; [|split].
    + rewrite (get_tables_run _ _ _ _ Hget). cbn [tables set_tables].
      rewrite (OrderedDictFacts.set_absent _ _ _ Ht), values_app.
      reflexivity.
    + intros other Hne. rewrite (get_table_run _ _ _ _ _ Hget).
      rewrite (get_table_run _ _ _ _ _ Hd). cbn [fst tables set_tables].
      rewrite OrderedDictFacts.get_set_other by congruence. reflexivity.
    + intros other Hne. cbn [store]. apply get_store_table_other. exact Hne.
Qed.

Lemma delete_table_run (b : GlueBackend) (n : nat)
    (database_name table_name : string) (database : FakeDatabase) :
  OrderedDict.get database_name (databases b) = Some database ->
  OrderedDict.contains table_name (tables database) = true ->
  delete_table database_name table_name (mkWorld b n)
  = (Ok OrderedDict.empty,
     mkWorld (drop_table database_name table_name b) n).
Proof.
  intros Hd Ht. unfold delete_table.
  erewrite run_step by (apply get_database_run; exact Hd).
  rewrite Ht. autorewrite with run. reflexivity.
Qed.

Lemma get_drop_table (b : GlueBackend) (database_name table_name : string)
    (database : FakeDatabase) :
  OrderedDict.get database_name (databases b) = Some database ->
  OrderedDict.get database_name
    (databases (drop_table database_name table_name b))
  = Some (set_tables
            (OrderedDict.remove table_name (tables database)) database).
Proof.
  intros H. unfold drop_table. rewrite H. cbn [databases set_databases].
  apply OrderedDictFacts.get_set_same.
Qed.

(** X4: [delete_table].  In an existing database a table that is there
    is removed: it is not found afterwards, a second deletion fails, the
    listing is the former one without it, and the other tables are as
    before; a table that is not there gives TableNotFound and changes
    nothing.  In a missing database the four table operations fail with
    DatabaseNotFound, whatever the table. *)
Theorem delete_table_removes (b : GlueBackend) (n : nat)
    (database_name table_name : string) :
  let w := mkWorld b n in
  let w' := snd (delete_table database_name table_name w) in
  (forall database,
      OrderedDict.get database_name (databases b) = Some database ->
      OrderedDict.contains table_name (tables database) = true ->
      fst (delete_table database_name table_name w) = Ok OrderedDict.empty
      /\ get_table database_name table_name w'
         = (Raise (TableNotFoundException table_name), w')
      /\ delete_table database_name table_name w'
         = (Raise (TableNotFoundException table_name), w')
      /\ get_tables database_name w'
         = (Ok (OrderedDict.values
                  (OrderedDict.remove table_name (tables database))), w')
      /\ (forall other,
             other <> table_name ->
             fst (get_table database_name other w')
             = fst (get_table database_name other w)))
  /\ (forall database,
         OrderedDict.get database_name (databases b) = Some database ->
         OrderedDict.contains table_name (tables database) = false ->
         delete_table database_name table_name w
         = (Raise (TableNotFoundException table_name), w))
  /\ (OrderedDict.get database_name (databases b) = None ->
      let missing := DatabaseNotFoundException database_name in
      delete_table database_name table_name w = (Raise missing, w)
      /\ get_table database_name table_name w = (Raise missing, w)
      /\ get_tables database_name w = (Raise missing, w)
      /\ forall table_input,
           create_table oracle database_name table_name table_input w
           = (Raise missing, w)).
Proof.
  intros w w'. subst w w'. split; [|split].
  - intros database Hd Ht. rewrite (delete_table_run _ _ _ _ _ Hd Ht).
    cbn [fst snd].
    pose proof (get_drop_table b database_name table_name database Hd)
      as Hget.
    split; [reflexivity|]. split; [|split; [|split]].
    + rewrite (get_table_run _ _ _ _ _ Hget). cbn [tables set_tables].
      rewrite OrderedDictFacts.get_remove_same. reflexivity.
    + unfold delete_table.
      erewrite run_step by (apply get_database_run; exact Hget).
      cbn [tables set_tables]. unfold OrderedDict.contains.
      rewrite OrderedDictFacts.get_remove_same. reflexivity.
    + rewrite (get_tables_run _ _ _ _ Hget). reflexivity.
    + intros other Hne. rewrite (get_table_run _ _ _ _ _ Hget).
      rewrite (get_table_run _ _ _ _ _ Hd). cbn [fst tables set_tables].
      rewrite OrderedDictFacts.get_remove_other by congruence. reflexivity.
  - intros database Hd Ht. unfold delete_table.
    erewrite run_step by (apply get_database_run; exact Hd).
    rewrite Ht. reflexivity.
  - intros Hd missing. subst missing.
    pose proof (get_database_missing b n database_name Hd) as Hm.
    unfold delete_table, get_table, get_tables, create_table.
    repeat split; try intros table_input;
      erewrite run_fail by exact Hm; reflexivity.
Qed.

Lemma delete_database_run (b : GlueBackend) (n : nat)
    (database_name : string) :
  OrderedDict.contains database_name (databases b) = true ->
  delete_database database_name (mkWorld b n)
  = (Ok tt,
     mkWorld (set_databases
                (OrderedDict.remove database_name (databases b)) b) n).
Proof.
  intros H. unfold delete_database. autorewrite with run. cbn [store].
  rewrite H. reflexivity.
Qed.

(** X5: [delete_database] takes the tables of the database with it.
    Afterwards the database and its tables are not found, a second
    deletion fails, the other databases are as before, and a database
    created again under the name starts without tables. *)
Theorem delete_database_drops_tables (b : GlueBackend) (n : nat)
    (database_name : string) (database : FakeDatabase)
    (database_input : dict) :
  OrderedDict.get database_name (databases b) = Some database ->
  let missing := DatabaseNotFoundException database_name in
  let w1 := snd (delete_database database_name (mkWorld b n)) in
  let w2 := snd (create_database oracle database_name database_input w1) in
  fst (delete_database database_name (mkWorld b n)) = Ok tt
  /\ get_database database_name w1 = (Raise missing, w1)
  /\ (forall table_name,
         get_table database_name table_name w1 = (Raise missing, w1))
  /\ delete_database database_name w1 = (Raise missing, w1)
  /\ (forall other,
         other <> database_name ->
         OrderedDict.get other (databases (store w1))
         = OrderedDict.get other (databases b))
  /\ fst (create_database oracle database_name database_input w1)
     = Ok (new_database oracle n database_name database_input)
  /\ get_tables database_name w2 = (Ok [], w2).
Proof.
  intros Hd missing w1 w2. subst missing w1 w2.
  assert (Hc : OrderedDict.contains database_name (databases b) = true)
    by (apply OrderedDictFacts.contains_get; eauto).
  rewrite (delete_database_run _ _ _ Hc). cbn [fst snd].
  set (b1 := set_databases
               (OrderedDict.remove database_name (databases b)) b).
  assert (Hgone : OrderedDict.get database_name (databases b1) = None)
    by apply OrderedDictFacts.get_remove_same.
  assert (Hfree : OrderedDict.contains database_name (databases b1) = false)
    by (apply OrderedDictFacts.contains_false; exact Hgone).
  pose proof (get_database_missing b1 n database_name Hgone) as Hm.
  split; [reflexivity|]. split; [exact Hm|].
  split; [intros table_name; unfold get_table;
          erewrite run_fail by exact Hm; reflexivity|].
  split.
  { unfold delete_database. autorewrite with run. cbn [store].
    rewrite Hfree. reflexivity. }
  split.
  { intros other Hne. cbn [store]. subst b1. cbn [databases set_databases].
    apply OrderedDictFacts.get_remove_other. congruence. }
  rewrite (create_database_run b1 n _ database_input Hfree). cbn [fst snd].
  split; [reflexivity|].
  rewrite (get_tables_run _ _ _
             (new_database oracle n database_name database_input));
    [reflexivity|].
  cbn [databases set_databases]. rewrite OrderedDictFacts.get_app, Hgone.
  cbn [OrderedDict.get]. rewrite String.eqb_refl. reflexivity.
Qed.

(** ** Partitions *)

Lemma get_partition_missing (t : FakeTable) (values : list string) :
  get_partition t values = Raise PartitionNotFoundException
  <-> OrderedDict.get (str_list values) (partitions t) = None.
Proof.
  unfold get_partition.
  destruct (OrderedDict.get (str_list values) (partitions t));
    split; congruence.
Qed.

Lemma create_partition_run (t : FakeTable) (n : nat)
    (input : PartitionInput) :
  OrderedDict.contains (str_list (p_values (built oracle t n input)))
    (partitions t) = false ->
  create_partition oracle input (mkWorld t n)
  = (Ok tt,
     mkWorld
       (set_partitions
          (partitions t
           ++ [(str_list (p_values (built oracle t n input)),
                built oracle t n input)])%list t) (S n)).
Proof.
  intros H. unfold create_partition, FakePartition_init.
  autorewrite with run. cbn [store reads].
  change {| creation_time := clock oracle n;
            p_database_name := t_database_name t;
            p_table_name := t_name t;
            partition_input := input;
            p_values := match Values input with
                        | Some v => v
                        | None => []
                        end |} with (built oracle t n input).
  rewrite H. autorewrite with run. cbn [store reads].
  rewrite (OrderedDictFacts.set_absent _ _ _ H). reflexivity.
Qed.

(** X6: a partition created under values that are free is the one that
    [get_partition] returns for these values, it is the last of the
    listing, the partitions under other values are as before, and a
    second creation with the same input fails. *)
Theorem create_partition_round_trip (t : FakeTable) (n : nat)
    (input : PartitionInput) :
  let partition := built oracle t n input in
  get_partition t (p_values partition) = Raise PartitionNotFoundException ->
  let w' := snd (create_partition oracle input (mkWorld t n)) in
  fst (create_partition oracle input (mkWorld t n)) = Ok tt
  /\ get_partition (store w') (p_values partition) = Ok partition
  /\ list_partitions (store w') = (list_partitions t ++ [partition])%list
  /\ (forall other,
         other <> p_values partition ->
         get_partition (store w') other = get_partition t other)
  /\ fst (create_partition oracle input w')
     = Raise PartitionAlreadyExistsException
  /\ versions (store w') = versions t.
Proof.
  intros partition Hfree w'. subst w'.
  apply get_partition_missing in Hfree.
  assert (Hc : OrderedDict.contains (str_list (p_values partition))
                 (partitions t) = false)
    by (apply OrderedDictFacts.contains_false; exact Hfree).
  rewrite (create_partition_run _ _ _ Hc). cbn [fst snd store]. fold partition.
  split; [reflexivity|]. split; [|split; [|split; [|split]]].
  - unfold get_partition. cbn [partitions set_partitions].
    rewrite OrderedDictFacts.get_app, Hfree. cbn [OrderedDict.get].
    rewrite String.eqb_refl. reflexivity.
  - unfold list_partitions. cbn [partitions set_partitions].
    rewrite values_app. reflexivity.
  - intros other Hne. unfold get_partition. cbn [partitions set_partitions].
    rewrite OrderedDictFacts.get_app.
    destruct (OrderedDict.get (str_list other) (partitions t));
      [reflexivity|].
    cbn [OrderedDict.get].
    destruct (String.eqb (str_list other) (str_list (p_values partition)))
      eqn:E; [|reflexivity].
    apply String.eqb_eq, PyFacts.str_list_inj in E. contradiction.
  - unfold create_partition, FakePartition_init. autorewrite with run.
    cbn [store reads t_database_name t_name set_partitions partitions
         p_values].
    unfold OrderedDict.contains. rewrite OrderedDictFacts.get_app.
    unfold partition, built in Hfree. cbn [p_values] in Hfree.
    rewrite Hfree. cbn [OrderedDict.get]. unfold partition, built.
    cbn [p_values]. rewrite String.eqb_refl. reflexivity.
  - reflexivity.
Qed.

(** X7: a partition input without ["Values"].  [create_partition] files
    it under the empty list of values; [update_partition] raises
    KeyError('Values') for it whatever the old values are, leaving the
    partitions as they were. *)
Theorem partition_without_values (t : FakeTable) (n : nat)
    (input : PartitionInput) :
  Values input = None ->
  (get_partition t [] = Raise PartitionNotFoundException ->
   fst (create_partition oracle input (mkWorld t n)) = Ok tt
   /\ get_partition
        (store (snd (create_partition oracle input (mkWorld t n)))) []
      = Ok (built oracle t n input))
  /\ (forall old_values,
         update_partition oracle old_values input (mkWorld t n)
         = (Raise (Builtin (KeyError "Values")), mkWorld t (S n))).
Proof.
  intros Hv. split.
  - intros Hfree. apply get_partition_missing in Hfree.
    assert (Hp : p_values (built oracle t n input) = [])
      by (unfold built; cbn [p_values]; rewrite Hv; reflexivity).
    assert (Hc : OrderedDict.contains
                   (str_list (p_values (built oracle t n input)))
                   (partitions t) = false)
      by (rewrite Hp; apply OrderedDictFacts.contains_false; exact Hfree).
    rewrite (create_partition_run _ _ _ Hc). cbn [fst snd store].
    split; [reflexivity|]. unfold get_partition.
    cbn [partitions set_partitions]. rewrite Hp.
    rewrite OrderedDictFacts.get_app, Hfree. cbn [OrderedDict.get].
    rewrite String.eqb_refl. reflexivity.
  - intros old_values. unfold update_partition, FakePartition_init.
    autorewrite with run. cbn [store reads]. rewrite Hv.
    autorewrite with run. reflexivity.
Qed.
End Catalog.

(** X8: [delete_partition].  A partition that is there is removed: it
    is not found afterwards, the listing is the former one without it,
    and the partitions under other values are as before; values that
    are not there give PartitionNotFound and change nothing. *)
Theorem delete_partition_removes (t : FakeTable) (n : nat)
    (values : list string) :
  let w' := snd (delete_partition values (mkWorld t n)) in
  (forall partition,
      get_partition t values = Ok partition ->
      fst (delete_partition values (mkWorld t n)) = Ok tt
      /\ get_partition (store w') values = Raise PartitionNotFoundException
      /\ list_partitions (store w')
         = OrderedDict.values
             (OrderedDict.remove (str_list values) (partitions t))
      /\ (forall other,
             other <> values ->
             get_partition (store w') other = get_partition t other)
      /\ versions (store w') = versions t)
  /\ (get_partition t values = Raise PartitionNotFoundException ->
      delete_partition values (mkWorld t n)
      = (Raise PartitionNotFoundException, mkWorld t n)).
Proof.
  intros w'. subst w'. unfold delete_partition. autorewrite with run.
  cbn [store]. unfold OrderedDict.contains, get_partition.
  destruct (OrderedDict.get (str_list values) (partitions t)) as [p|] eqn:E.
  - split; [|discriminate]. intros partition _.
    cbn [modify fst snd store partitions set_partitions list_partitions].
    rewrite OrderedDictFacts.get_remove_same.
    split; [reflexivity|]. split; [reflexivity|]. split; [reflexivity|].
    split; [|reflexivity].
    intros other Hne. rewrite OrderedDictFacts.get_remove_other;
      [reflexivity|].
    intros Heq. apply PyFacts.str_list_inj in Heq. congruence.
  - split; [discriminate|]. intros _. reflexivity.
Qed.


(** The table with three snapshots after a fourth [update]: the token
    "2" is answered as before, the token "4" with the new snapshot. *)
Lemma update_keeps_earlier_versions_witness :
  get_version
    (store (snd (update (snapshot "fourth") (mkWorld three_versions 0))))
    (VerStr "2")
  = get_version three_versions (VerStr "2")
  /\ get_version
       (store (snd (update (snapshot "fourth") (mkWorld three_versions 0))))
       (VerStr "4")
     = Ok (snapshot "fourth").
Proof.
  destruct (update_keeps_earlier_versions three_versions 0
              (snapshot "fourth")) as (H1 & H2 & _).
  split.
  - apply (H1 "2" 2%Z); [reflexivity | simpl; lia].
  - apply H2. reflexivity.
Defined.

(** [create_database("sales", ...)] on the empty backend. *)
Lemma create_database_round_trip_witness :
  get_database "sales" sales_world
  = (Ok (new_database oracle0 0 "sales" sales_input), sales_world)
  /\ get_databases (store sales_world)
     = [new_database oracle0 0 "sales" sales_input].
Proof.
  destruct (create_database_round_trip oracle0 (store empty_backend) 0
              "sales" sales_input eq_refl) as (_ & H1 & H2 & _).
  split; [exact H1 | exact H2].
Defined.

(** [create_table("sales", "invoices", ...)] on the catalog: the table
    is found, and it is listed after "orders" and "customers". *)
Lemma create_table_round_trip_witness :
  fst (get_table "sales" "invoices"
         (snd (create_table oracle0 "sales" "invoices" (snapshot "invoices")
                 catalog)))
  = Ok (new_table oracle0 3 "sales" "invoices" (snapshot "invoices"))
  /\ fst (get_tables "sales"
            (snd (create_table oracle0 "sales" "invoices"
                    (snapshot "invoices") catalog)))
     = Ok [new_table oracle0 1 "sales" "orders" (snapshot "orders");
           new_table oracle0 2 "sales" "customers" (snapshot "customers");
           new_table oracle0 3 "sales" "invoices" (snapshot "invoices")].
Proof.
  destruct (create_table_round_trip oracle0 (store catalog) 3
              "sales" "invoices" (snapshot "invoices") _ eq_refl eq_refl)
    as (_ & H1 & _ & _ & H2 & _).
  split; [exact (f_equal fst H1) | exact (f_equal fst H2)].
Defined.

(** [delete_table("sales", "orders")] on the catalog: "orders" is gone,
    "customers" is what is listed; "invoices" was never there; the
    database "stock" does not exist. *)
Lemma delete_table_removes_witness :
  (fst (get_table "sales" "orders"
          (snd (delete_table "sales" "orders" catalog)))
   = Raise (TableNotFoundException "orders")
   /\ fst (get_tables "sales" (snd (delete_table "sales" "orders" catalog)))
      = Ok [new_table oracle0 2 "sales" "customers" (snapshot "customers")])
  /\ delete_table "sales" "invoices" catalog
     = (Raise (TableNotFoundException "invoices"), catalog)
  /\ delete_table "stock" "orders" catalog
     = (Raise (DatabaseNotFoundException "stock"), catalog).
Proof.
  split; [|split].
  - destruct (delete_table_removes oracle0 (store catalog) 3
                "sales" "orders") as (H & _).
    destruct (H _ eq_refl eq_refl) as (_ & H1 & _ & H2 & _).
    split; [exact (f_equal fst H1) | exact (f_equal fst H2)].
  - destruct (delete_table_removes oracle0 (store catalog) 3
                "sales" "invoices") as (_ & H & _).
    exact (H _ eq_refl eq_refl).
  - destruct (delete_table_removes oracle0 (store catalog) 3
                "stock" "orders") as (_ & _ & H).
    destruct (H eq_refl) as (H1 & _). exact H1.
Defined.

(** [delete_database("sales")] on the catalog, then
    [create_database("sales", ...)]: the tables are gone. *)
Lemma delete_database_drops_tables_witness :
  fst (get_table "sales" "orders" (snd (delete_database "sales" catalog)))
  = Raise (DatabaseNotFoundException "sales")
  /\ fst (get_tables "sales"
            (snd (create_database oracle0 "sales" sales_input
                    (snd (delete_database "sales" catalog)))))
     = Ok [].
Proof.
  destruct (delete_database_drops_tables oracle0 (store catalog) 3
              "sales" _ sales_input eq_refl)
    as (_ & _ & H1 & _ & _ & _ & H2).
  split; [exact (f_equal fst (H1 "orders")) | exact (f_equal fst H2)].
Defined.

(** A fourth partition of the table with three. *)
Lemma create_partition_round_trip_witness :
  get_partition
    (store (snd (create_partition oracle0 renamed
                   (mkWorld three_partitions 0))))
    ["2021"; "03"]
  = Ok (built oracle0 three_partitions 0 renamed)
  /\ fst (create_partition oracle0 renamed
            (snd (create_partition oracle0 renamed
                    (mkWorld three_partitions 0))))
     = Raise PartitionAlreadyExistsException.
Proof.
  destruct (create_partition_round_trip oracle0 three_partitions 0 renamed
              eq_refl) as (_ & H1 & _ & _ & H2 & _).
  split; [exact H1 | exact H2].
Defined.

(** An input without ["Values"] on the table with three partitions. *)
Lemma partition_without_values_witness :
  get_partition
    (store (snd (create_partition oracle0 no_values
                   (mkWorld three_partitions 0)))) []
  = Ok (built oracle0 three_partitions 0 no_values)
  /\ update_partition oracle0 ["2021"; "01"] no_values
       (mkWorld three_partitions 0)
     = (Raise (Builtin (KeyError "Values")), mkWorld three_partitions 1).
Proof.
  destruct (partition_without_values oracle0 three_partitions 0 no_values
              eq_refl) as (H1 & H2).
  destruct (H1 eq_refl) as (_ & H3).
  split; [exact H3 | exact (H2 ["2021"; "01"])].
Defined.

(** Deleting the second of three partitions, and one that is not
    there. *)
Lemma delete_partition_removes_witness :
  (get_partition
     (store (snd (delete_partition ["2021"; "02"]
                    (mkWorld three_partitions 0))))
     ["2021"; "02"]
   = Raise PartitionNotFoundException
   /\ get_partition
        (store (snd (delete_partition ["2021"; "02"]
                       (mkWorld three_partitions 0))))
        ["2022"; "01"]
      = get_partition three_partitions ["2022"; "01"])
  /\ delete_partition ["2021"; "03"] (mkWorld three_partitions 0)
     = (Raise PartitionNotFoundException, mkWorld three_partitions 0).
Proof.
  split.
  - destruct (delete_partition_removes three_partitions 0 ["2021"; "02"])
      as (H & _).
    destruct (H _ eq_refl) as (_ & H1 & _ & H2 & _).
    split; [exact H1 | apply H2; discriminate].
  - destruct (delete_partition_removes three_partitions 0 ["2021"; "03"])
      as (_ & H).
    exact (H eq_refl).
Defined.

End CatalogFacts.

(* ================================================================== *)
(** * Facts about crawlers and jobs *)

Module RunFacts.
Import Py Eff Glue Spec Examples EffFacts.

#[local] Arguments String.append : simpl never.


Lemma get_crawler_missing (b : GlueBackend) (n : nat) (name : string) :
  OrderedDict.get name (crawlers b) = None ->
  get_crawler name (mkWorld b n)
  = (Raise (CrawlerNotFoundException name), mkWorld b n).
Proof.
  intros H. unfold get_crawler. autorewrite with run.
  cbn [store]. rewrite H. reflexivity.
Qed.


Lemma set_c_state_twice (s s' : string) (c : FakeCrawler) :
  set_c_state s (set_c_state s' c) = set_c_state s c.
Proof. reflexivity. Qed.








Section Jobs.
Variable oracle : Oracle.

Lemma delete_crawler_run (b : GlueBackend) (n : nat) (name : string) :
  OrderedDict.contains name (crawlers b) = true ->
  delete_crawler name (mkWorld b n)
  = (Ok tt,
     mkWorld (set_crawlers (OrderedDict.remove name (crawlers b)) b) n).
Proof.
  intros H. unfold delete_crawler. autorewrite with run. cbn [store].
  rewrite H. reflexivity.
Qed.

(** X11: [delete_crawler].  A crawler that is there is removed: it is
    not found afterwards, neither by [get_crawler] nor by
    [start_crawler]; the listing is the former one without it; the tags
    recorded under its ARN stay; and a crawler can be created under the
    name again, READY.  A name that is not there gives CrawlerNotFound
    and changes nothing. *)
Theorem delete_crawler_removes (b : GlueBackend) (n : nat) (name : string) :
  let w := mkWorld b n in
  let w' := snd (delete_crawler name w) in
  (forall c,
      OrderedDict.get name (crawlers b) = Some c ->
      fst (delete_crawler name w) = Ok tt
      /\ get_crawler name w' = (Raise (CrawlerNotFoundException name), w')
      /\ start_crawler name w'
         = (Raise (CrawlerNotFoundException name), w')
      /\ get_crawlers (store w')
         = OrderedDict.values (OrderedDict.remove name (crawlers b))
      /\ (forall arn, get_tags (store w') arn = get_tags b arn)
      /\ (forall other,
             other <> name ->
             OrderedDict.get other (crawlers (store w'))
             = OrderedDict.get other (crawlers b))
      /\ forall args,
           fst (create_crawler oracle name args w') = Ok tt
           /\ OrderedDict.get name
                (crawlers (store (snd (create_crawler oracle name args w'))))
              = Some (new_crawler oracle n name args))
  /\ (OrderedDict.get name (crawlers b) = None ->
      delete_crawler name w = (Raise (CrawlerNotFoundException name), w)).
Proof.
  intros w w'. subst w w'. split.
  - intros c H.
    assert (Hc : OrderedDict.contains name (crawlers b) = true)
      by (apply OrderedDictFacts.contains_get; eauto).
    rewrite (delete_crawler_run _ _ _ Hc). cbn [fst snd store].
    set (b1 := set_crawlers (OrderedDict.remove name (crawlers b)) b).
    assert (Hgone : OrderedDict.get name (crawlers b1) = None)
      by apply OrderedDictFacts.get_remove_same.
    split; [reflexivity|]. split; [|split; [|split; [|split; [|split]]]].
    + unfold get_crawler. autorewrite with run. cbn [store].
      rewrite Hgone. reflexivity.
    + unfold start_crawler.
      erewrite run_fail by (apply get_crawler_missing; exact Hgone).
      reflexivity.
    + reflexivity.
    + reflexivity.
    + intros other Hne. subst b1. cbn [crawlers set_crawlers].
      apply OrderedDictFacts.get_remove_other. congruence.
    + intros args.
      assert (Hfree : OrderedDict.contains name (crawlers b1) = false)
        by (apply OrderedDictFacts.contains_false; exact Hgone).
      rewrite (GlueFacts.create_crawler_run oracle b1 n name args Hfree).
      cbn [fst snd store crawlers set_crawlers].
      split; [reflexivity|]. apply OrderedDictFacts.get_set_same.
  - intros H. unfold delete_crawler. autorewrite with run. cbn [store].
    unfold OrderedDict.contains. rewrite H. reflexivity.
Qed.

Lemma get_job_run_ (b : GlueBackend) (n : nat) (name : string) (j : FakeJob) :
  OrderedDict.get name (jobs b) = Some j ->
  get_job name (mkWorld b n) = (Ok j, mkWorld b n).
Proof.
  intros H. unfold get_job. autorewrite with run.
  cbn [store]. rewrite H. reflexivity.
Qed.

Lemma get_job_missing (b : GlueBackend) (n : nat) (name : string) :
  OrderedDict.get name (jobs b) = None ->
  get_job name (mkWorld b n)
  = (Raise (JobNotFoundException name), mkWorld b n).
Proof.
  intros H. unfold get_job. autorewrite with run.
  cbn [store]. rewrite H. reflexivity.
Qed.

Lemma set_j_state_same (j : FakeJob) : set_j_state (j_state j) j = j.
Proof. destruct j. reflexivity. Qed.

Lemma get_put_job (b : GlueBackend) (name : string) (j : FakeJob) :
  OrderedDict.get name (jobs (put_job name j b)) = Some j.
Proof. apply OrderedDictFacts.get_set_same. Qed.

Lemma start_job_run_ready (b : GlueBackend) (n : nat) (name : string)
    (j : FakeJob) :
  OrderedDict.get name (jobs b) = Some j ->
  j_state j <> "RUNNING" ->
  start_job_run oracle name (mkWorld b n)
  = (Ok "01",
     mkWorld (put_job name (set_j_state "RUNNING" j) b) (S (S (S n)))).
Proof.
  intros H Hs. unfold start_job_run.
  erewrite run_step by (apply get_job_run_; exact H).
  unfold on_stored, FakeJob_start_job_run, FakeJobRun_init.
  autorewrite with run. cbn [store reads].
  apply String.eqb_neq in Hs. rewrite Hs. autorewrite with run.
  reflexivity.
Qed.

Lemma start_job_run_running (b : GlueBackend) (n : nat) (name : string)
    (j : FakeJob) :
  OrderedDict.get name (jobs b) = Some j ->
  j_state j = "RUNNING" ->
  start_job_run oracle name (mkWorld b n)
  = (Raise (ConcurrentRunsExceededException
              ("Job with name " ++ j_name j ++ " already running")),
     mkWorld (put_job name j b) n).
Proof.
  intros H Hs. unfold start_job_run.
  erewrite run_step by (apply get_job_run_; exact H).
  unfold on_stored, FakeJob_start_job_run.
  autorewrite with run. cbn [store reads].
  rewrite Hs. reflexivity.
Qed.

(** X12: a job runs once.  [start_job_run] on a job that is not RUNNING
    returns the run id "01" and makes the job RUNNING; on a RUNNING job
    it raises ConcurrentRunsExceeded and the job stays as it is, so that
    after one start every further start is refused; an unknown name
    gives JobNotFound. *)
Theorem job_runs_once (b : GlueBackend) (n : nat) (name : string) :
  let w := mkWorld b n in
  let refused j :=
    Raise (ConcurrentRunsExceededException
             ("Job with name " ++ j_name j ++ " already running")) in
  (forall j,
      OrderedDict.get name (jobs b) = Some j ->
      (j_state j <> "RUNNING" ->
       let w1 := snd (start_job_run oracle name w) in
       let w2 := snd (start_job_run oracle name w1) in
       fst (start_job_run oracle name w) = Ok "01"
       /\ OrderedDict.get name (jobs (store w1))
          = Some (set_j_state "RUNNING" j)
       /\ fst (start_job_run oracle name w1) = refused j
       /\ fst (start_job_run oracle name w2) = refused j)
      /\ (j_state j = "RUNNING" ->
          fst (start_job_run oracle name w) = refused j
          /\ OrderedDict.get name
               (jobs (store (snd (start_job_run oracle name w))))
             = Some j)
      /\ (forall other,
             other <> name ->
             OrderedDict.get other
               (jobs (store (snd (start_job_run oracle name w))))
             = OrderedDict.get other (jobs b)))
  /\ (OrderedDict.get name (jobs b) = None ->
      start_job_run oracle name w
      = (Raise (JobNotFoundException name), w)).
Proof.
  intros w refused. subst w refused. cbv beta. split.
  - intros j H. split; [|split].
    + intros Hs w1 w2. subst w1 w2.
      rewrite (start_job_run_ready _ _ _ _ H Hs). cbn [fst snd store].
      pose proof (get_put_job b name (set_j_state "RUNNING" j)) as H1.
      rewrite (start_job_run_running _ _ _ _ H1 eq_refl). cbn [fst snd].
      split; [reflexivity|]. split; [exact H1|]. split; [reflexivity|].
      rewrite (start_job_run_running _ _ name (set_j_state "RUNNING" j)
                 (get_put_job _ _ _) eq_refl).
      reflexivity.
    + intros Hs. rewrite (start_job_run_running _ _ _ _ H Hs).
      cbn [fst snd store]. split; [reflexivity|]. apply get_put_job.
    + intros other Hne.
      destruct (String.eqb (j_state j) "RUNNING") eqn:E.
      * apply String.eqb_eq in E.
        rewrite (start_job_run_running _ _ _ _ H E). cbn [snd store].
        apply OrderedDictFacts.get_set_other. congruence.
      * apply String.eqb_neq in E.
        rewrite (start_job_run_ready _ _ _ _ H E). cbn [snd store].
        apply OrderedDictFacts.get_set_other. congruence.
  - intros H. unfold start_job_run.
    erewrite run_fail by (apply get_job_missing; exact H). reflexivity.
Qed.

(** X13: creating a job again under its name makes it startable again.
    Whatever the backend holds, [start_job_run] right after [create_job]
    is served; so a job that is RUNNING, for which a start is refused,
    is started once more after a second [create_job] under its name. *)
Theorem create_job_makes_startable (b : GlueBackend) (n : nat)
    (name : string) (args args' : JobArgs) :
  let w1 := snd (create_job oracle name args (mkWorld b n)) in
  let w2 := snd (start_job_run oracle name w1) in
  let w3 := snd (create_job oracle name args' w2) in
  fst (start_job_run oracle name w1) = Ok "01"
  /\ fst (start_job_run oracle name w2)
     = Raise (ConcurrentRunsExceededException
                ("Job with name " ++ name ++ " already running"))
  /\ fst (create_job oracle name args' w2) = Ok name
  /\ fst (start_job_run oracle name w3) = Ok "01".
Proof.
  intros w1 w2 w3. subst w1 w2 w3.
  assert (Hnew : forall b n args,
             fst (start_job_run oracle name
                    (snd (create_job oracle name args (mkWorld b n))))
             = Ok "01"
             /\ exists b' n',
                  snd (start_job_run oracle name
                         (snd (create_job oracle name args (mkWorld b n))))
                  = mkWorld b' n'
                  /\ OrderedDict.get name (jobs b')
                     = Some (set_j_state "RUNNING"
                               (new_job oracle n name args))).
  { intros b0 n0 args0. rewrite GlueFacts.create_job_run. cbn [snd].
    erewrite start_job_run_ready;
      [|cbn [jobs set_jobs]; apply OrderedDictFacts.get_set_same
       |cbn [j_state new_job]; discriminate].
    cbn [fst snd]. split; [reflexivity|]. eexists _, _.
    split; [reflexivity|]. apply get_put_job. }
  destruct (Hnew b n args) as (H1 & b' & n' & H2 & H3).
  split; [exact H1|]. rewrite H2.
  rewrite (start_job_run_running _ _ _ _ H3 eq_refl). cbn [fst].
  split; [reflexivity|].
  rewrite GlueFacts.create_job_run. cbn [fst]. split; [reflexivity|].
  apply Hnew.
Qed.

(** X14: [get_job_run] does not look a run up.  For a job that exists
    it answers every run id, whatever the state of the job, with a run
    of that id in the name of the job, made on the spot from three reads
    of the clock; the backend is left as it is.  An unknown job gives
    JobNotFound. *)
Theorem get_job_run_answers_any_id (b : GlueBackend) (n : nat)
    (name run_id : string) :
  (forall j,
      OrderedDict.get name (jobs b) = Some j ->
      get_job_run oracle name run_id (mkWorld b n)
      = (Ok (new_job_run oracle n (j_name j) run_id),
         mkWorld b (S (S (S n)))))
  /\ (OrderedDict.get name (jobs b) = None ->
      get_job_run oracle name run_id (mkWorld b n)
      = (Raise (JobNotFoundException name), mkWorld b n)).
Proof.
  split.
  - intros j H. unfold get_job_run.
    erewrite run_step by (apply get_job_run_; exact H).
    unfold FakeJob_get_job_run, FakeJobRun_init. autorewrite with run.
    reflexivity.
  - intros H. unfold get_job_run.
    erewrite run_fail by (apply get_job_missing; exact H). reflexivity.
Qed.
End Jobs.




(** [delete_crawler("nightly")]: the crawler is gone, a start does not
    find it, and "weekly" was never there. *)
Lemma delete_crawler_removes_witness :
  (fst (delete_crawler "nightly" crawler_world) = Ok tt
   /\ fst (start_crawler "nightly"
             (snd (delete_crawler "nightly" crawler_world)))
      = Raise (CrawlerNotFoundException "nightly"))
  /\ delete_crawler "weekly" crawler_world
     = (Raise (CrawlerNotFoundException "weekly"), crawler_world).
Proof.
  split.
  - destruct (delete_crawler_removes oracle0 (store crawler_world) 1
                "nightly") as (H & _).
    destruct (H _ eq_refl) as (H1 & _ & H2 & _).
    split; [exact H1 | exact (f_equal fst H2)].
  - destruct (delete_crawler_removes oracle0 (store crawler_world) 1
                "weekly") as (_ & H).
    exact (H eq_refl).
Defined.

(** The job "etl": the first start is served, the second is refused; the
    job "missing" is not found. *)
Lemma job_runs_once_witness :
  (fst (start_job_run oracle0 "etl" backend_with_job) = Ok "01"
   /\ fst (start_job_run oracle0 "etl"
             (snd (start_job_run oracle0 "etl" backend_with_job)))
      = Raise (ConcurrentRunsExceededException
                 "Job with name etl already running"))
  /\ start_job_run oracle0 "missing" backend_with_job
     = (Raise (JobNotFoundException "missing"), backend_with_job).
Proof.
  split.
  - destruct (job_runs_once oracle0 (store backend_with_job) 2 "etl")
      as (H & _).
    destruct (H _ eq_refl) as (H1 & _).
    destruct H1 as (H2 & _ & H3 & _); [discriminate|].
    split; [exact H2 | exact H3].
  - destruct (job_runs_once oracle0 (store backend_with_job) 2 "missing")
      as (_ & H).
    exact (H eq_refl).
Defined.

(** A run id that no start ever handed out, on the job "etl" that was
    never started. *)
Lemma get_job_run_answers_any_id_witness :
  fst (get_job_run oracle0 "etl" "never-started" backend_with_job)
  = Ok (new_job_run oracle0 2 "etl" "never-started")
  /\ fst (get_job_run oracle0 "missing" "01" backend_with_job)
     = Raise (JobNotFoundException "missing").
Proof.
  destruct (get_job_run_answers_any_id oracle0 (store backend_with_job) 2
              "etl" "never-started") as (H1 & _).
  destruct (get_job_run_answers_any_id oracle0 (store backend_with_job) 2
              "missing" "01") as (_ & H2).
  split; [exact (f_equal fst (H1 _ eq_refl)) | exact (f_equal fst (H2 eq_refl))].
Defined.

End RunFacts.

(* ================================================================== *)
(** * Facts about the schema registries *)

Module RegistryFacts.
Import Py Eff Glue Spec Examples EffFacts.

#[local] Arguments String.append : simpl never.

Lemma registry_name_pattern (s : string) :
  Re.match_anchored (Re.Plus (Re.Class registry_name_char)) s = true
  <-> up_to_line_feed registry_name_shape s.
Proof.
  apply ReFacts.match_anchored_shape. intros s'.
  rewrite ReFacts.plus_class_str, PyFacts.str_of_chars. reflexivity.
Qed.

(** The description pattern matches at the start of every string: it is
    a starred class without anchors. *)
Lemma registry_description_pattern (r : Re.re) (l : list ascii) :
  Re.match_prefix (Re.Star r) l = true.
Proof. destruct l; reflexivity. Qed.

Lemma shape_nonempty (s : string) :
  up_to_line_feed registry_name_shape s -> s <> "".
Proof.
  intros [[H _] | [s0 [-> [H _]]]]; [exact H|].
  destruct s0; [congruence | discriminate].
Qed.

(** The checks of [create_registry], one by one. *)
Lemma registry_accepted_checks (registries : OrderedDict.t FakeRegistry)
    (registry_name : string) (description : option string) (tags : tags_t) :
  registry_accepted registries registry_name description tags
  <-> (10 <=? List.length registries)%nat = false
      /\ (String.eqb registry_name ""
          || (255 <? utf8_length registry_name)%nat) = false
      /\ Re.match_anchored (Re.Plus (Re.Class registry_name_char))
           registry_name = true
      /\ OrderedDict.contains registry_name registries = false
      /\ (nonempty_str description
          && (2048 <? utf8_length (match description with
                                   | Some s => s
                                   | None => ""
                                   end))%nat) = false
      /\ (nonempty_tags tags
          && (50 <? List.length (match tags with
                                 | Some t => t
                                 | None => []
                                 end))%nat) = false.
Proof.
  unfold registry_accepted. rewrite registry_name_pattern. split.
  - intros (H1 & H2 & H3 & H4 & H5 & H6).
    split; [apply Nat.leb_gt; exact H1|].
    split.
    { apply orb_false_iff. split.
      - apply String.eqb_neq, shape_nonempty, H2.
      - apply Nat.ltb_ge. exact H3. }
    split; [exact H2|]. split; [exact H4|]. split.
    + destruct description as [s|]; [|reflexivity].
      apply andb_false_iff. right. apply Nat.ltb_ge. apply H5. reflexivity.
    + destruct tags as [t|]; [|reflexivity].
      apply andb_false_iff. right. apply Nat.ltb_ge. apply H6. reflexivity.
  - intros (H1 & H2 & H3 & H4 & H5 & H6).
    apply orb_false_iff in H2. destruct H2 as [_ H2].
    split; [apply Nat.leb_gt; exact H1|]. split; [exact H3|].
    split; [apply Nat.ltb_ge; exact H2|]. split; [exact H4|]. split.
    + intros s ->. cbn [nonempty_str] in H5.
      destruct (String.eqb s "") eqn:E.
      * apply String.eqb_eq in E. subst s. cbn. lia.
      * cbn [negb andb] in H5. apply Nat.ltb_ge. exact H5.
    + intros t ->. destruct t as [|x t]; [cbn; lia|].
      cbn [nonempty_tags andb] in H6. apply Nat.ltb_ge. exact H6.
Qed.

Lemma registry_accepted_dec (registries : OrderedDict.t FakeRegistry)
    (registry_name : string) (description : option string) (tags : tags_t) :
  registry_accepted registries registry_name description tags
  \/ ~ registry_accepted registries registry_name description tags.
Proof.
  rewrite registry_accepted_checks.
  destruct (10 <=? List.length registries)%nat;
    [right; intros (H & _); discriminate|].
  destruct (String.eqb registry_name ""
            || (255 <? utf8_length registry_name)%nat);
    [right; intros (_ & H & _); discriminate|].
  destruct (Re.match_anchored (Re.Plus (Re.Class registry_name_char))
              registry_name);
    [|right; intros (_ & _ & H & _); discriminate].
  destruct (OrderedDict.contains registry_name registries);
    [right; intros (_ & _ & _ & H & _); discriminate|].
  destruct (nonempty_str description
            && (2048 <? utf8_length (match description with
                                     | Some s => s
                                     | None => ""
                                     end))%nat);
    [right; intros (_ & _ & _ & _ & H & _); discriminate|].
  destruct (nonempty_tags tags
            && (50 <? List.length (match tags with
                                   | Some t => t
                                   | None => []
                                   end))%nat);
    [right; intros (_ & _ & _ & _ & _ & H); discriminate|].
  left. repeat split.
Qed.

Lemma contains_not_in {V} (k : string) (d : OrderedDict.t V) :
  OrderedDict.contains k d = false -> ~ In k (OrderedDict.keys d).
Proof.
  unfold OrderedDict.contains.
  induction d as [|[k' v] d IH];
    cbn [OrderedDict.get OrderedDict.keys map fst]; [intros _ []|].
  destruct (String.eqb k k') eqn:E; [discriminate|].
  intros H [H' | H']; [|exact (IH H H')].
  apply String.eqb_neq in E. congruence.
Qed.

Section Registries.
Variable oracle : Oracle.

Lemma create_registry_ok (b : GlueBackend) (n : nat)
    (registry_name : string) (description : option string) (tags : tags_t) :
  registry_accepted (registries b) registry_name description tags ->
  create_registry oracle registry_name description tags (mkWorld b n)
  = (Ok (new_registry oracle n registry_name description tags),
     mkWorld
       (set_registries
          (registries b
           ++ [(registry_name,
                new_registry oracle n registry_name description tags)])%list
          b) (S (S n))).
Proof.
  intros H. apply registry_accepted_checks in H.
  destruct H as (H1 & H2 & H3 & H4 & H5 & H6).
  unfold create_registry. autorewrite with run. cbn [store reads].
  rewrite H1, H2, H3, H4, H5, H6. cbn [negb].
  rewrite registry_description_pattern, andb_false_r.
  unfold FakeRegistry_init. autorewrite with run. cbn [store reads].
  rewrite (OrderedDictFacts.set_absent _ _ _ H4). reflexivity.
Qed.

Lemma create_registry_raise (b : GlueBackend) (n : nat)
    (registry_name : string) (description : option string) (tags : tags_t) :
  ~ registry_accepted (registries b) registry_name description tags ->
  exists e,
    create_registry oracle registry_name description tags (mkWorld b n)
    = (Raise e, mkWorld b n).
Proof.
  intros H. rewrite registry_accepted_checks in H.
  unfold create_registry. autorewrite with run. cbn [store reads].
  destruct (10 <=? List.length (registries b))%nat;
    [eexists; reflexivity|].
  destruct (String.eqb registry_name ""
            || (255 <? utf8_length registry_name)%nat);
    [eexists; reflexivity|].
  destruct (Re.match_anchored (Re.Plus (Re.Class registry_name_char))
              registry_name); [|eexists; reflexivity].
  cbn [negb].
  destruct (OrderedDict.contains registry_name (registries b));
    [eexists; reflexivity|].
  destruct (nonempty_str description
            && (2048 <? utf8_length (match description with
                                     | Some s => s
                                     | None => ""
                                     end))%nat); [eexists; reflexivity|].
  rewrite registry_description_pattern, andb_false_r.
  destruct (nonempty_tags tags
            && (50 <? List.length (match tags with
                                   | Some t => t
                                   | None => []
                                   end))%nat); [eexists; reflexivity|].
  exfalso. apply H. repeat split.
Qed.

(** X15: what [create_registry] serves.  A request is served exactly
    when fewer than ten registries exist, the name is made of letters,
    digits and the signs [-_$#.] (a line feed may end it), takes at most
    255 bytes and is free, the description takes at most 2048 bytes and
    there are at most 50 tags.  The characters of the description are
    never a reason to refuse.  A served request appends the registry
    under its name and touches nothing else; a refused one changes
    nothing. *)
Theorem create_registry_serves (b : GlueBackend) (n : nat)
    (registry_name : string) (description : option string) (tags : tags_t) :
  (registry_accepted (registries b) registry_name description tags ->
   create_registry oracle registry_name description tags (mkWorld b n)
   = (Ok (new_registry oracle n registry_name description tags),
      mkWorld
        (set_registries
           (registries b
            ++ [(registry_name,
                 new_registry oracle n registry_name description tags)])%list
           b) (S (S n))))
  /\ (~ registry_accepted (registries b) registry_name description tags ->
      exists e,
        create_registry oracle registry_name description tags (mkWorld b n)
        = (Raise e, mkWorld b n)).
Proof.
  split; [apply create_registry_ok | apply create_registry_raise].
Qed.

Lemma create_registry_keeps_order (b : GlueBackend) (n : nat)
    (registry_name : string) (description : option string) (tags : tags_t) :
  registries_in_order (registries b) ->
  registries_in_order
    (registries
       (store (snd (create_registry oracle registry_name description tags
                      (mkWorld b n))))).
Proof.
  intros Hwf.
  destruct (registry_accepted_dec (registries b) registry_name description
              tags) as [H | H].
  - rewrite (create_registry_ok _ n _ _ _ H).
    cbn [snd store registries set_registries].
    destruct H as (H1 & _ & _ & H4 & _). destruct Hwf as (_ & W2 & W3).
    split; [rewrite length_app; cbn [List.length]; lia|]. split.
    + unfold OrderedDict.keys. rewrite map_app. cbn [map fst].
      apply NoDup_app; [exact W2 | repeat constructor; intros [] |].
      intros k Hk [<- | []]. exact (contains_not_in _ _ H4 Hk).
    + apply Forall_app. split; [exact W3|]. repeat constructor.
  - destruct (create_registry_raise _ n _ _ _ H) as [e ->]. exact Hwf.
Qed.

(** X16: the registries stay in order.  Starting from a new backend,
    after any sequence of [create_registry] requests, served or refused,
    at most ten registries exist, their names differ, and each is filed
    under its own name; with ten registries every request is refused
    for the limit, whatever its name. *)
Theorem registries_stay_in_order (requests : list registry_request)
    (region account : string) (n : nat) :
  registries_in_order
    (registries
       (store (after_registry_requests oracle requests
                 (mkWorld (GlueBackend_init region account) n))))
  /\ forall b m registry_name description tags,
       (10 <= List.length (registries b))%nat ->
       create_registry oracle registry_name description tags (mkWorld b m)
       = (Raise (ResourceNumberLimitExceededException "CreateRegistry"
                   "registries"),
          mkWorld b m).
Proof.
  split.
  - assert (Hgen : forall w,
               registries_in_order (registries (store w)) ->
               registries_in_order
                 (registries
                    (store (after_registry_requests oracle requests w)))).
    { induction requests as [|[[name description] tags] requests IH];
        intros w Hw; [exact Hw|].
      unfold after_registry_requests. cbn [fold_left]. apply IH.
      destruct w as [b m]. apply create_registry_keeps_order.
      exact Hw. }
    apply Hgen. cbn [store registries GlueBackend_init].
    split; [cbn; lia|]. split; [constructor | constructor].
  - intros b m registry_name description tags H.
    unfold create_registry. autorewrite with run. cbn [store reads].
    apply Nat.leb_le in H. rewrite H. reflexivity.
Qed.
End Registries.

(** A registry whose name ends in a line feed and whose description is
    made of control characters is served; a second request under the
    name "schemas" is refused. *)
Lemma create_registry_serves_witness :
  fst (create_registry oracle0 (String.append "schemas" line_feed)
         (Some control_characters) None empty_backend)
  = Ok (new_registry oracle0 0 (String.append "schemas" line_feed)
          (Some control_characters) None)
  /\ exists e,
       create_registry oracle0 "schemas" None None
         (mkWorld (store one_registry) 2)
       = (Raise e, mkWorld (store one_registry) 2).
Proof.
  split.
  - destruct (create_registry_serves oracle0 (store empty_backend) 0
                (String.append "schemas" line_feed)
                (Some control_characters) None) as (H & _).
    refine (f_equal fst (H _)).
    split; [simpl; lia|]. split.
    { right. exists "schemas". split; [reflexivity|].
      split; [discriminate | reflexivity]. }
    split; [simpl; lia|]. split; [reflexivity|]. split.
    + intros s [= <-]. simpl. lia.
    + intros t [=].
  - destruct (create_registry_serves oracle0 (store one_registry) 2
                "schemas" None None) as (_ & H).
    apply H. intros (_ & _ & _ & Hfree & _).
    vm_compute in Hfree. discriminate Hfree.
Defined.

(** With the ten registries of the example an eleventh request is
    refused for the limit. *)
Lemma registries_stay_in_order_witness :
  create_registry oracle0 "eleventh" None None
    (mkWorld (store ten_registries) 20)
  = (Raise (ResourceNumberLimitExceededException "CreateRegistry"
              "registries"), mkWorld (store ten_registries) 20).
Proof.
  destruct (registries_stay_in_order oracle0 [] "global" "123456789012" 0)
    as (_ & H).
  apply (H (store ten_registries) 20%nat).
  vm_compute. repeat constructor.
Defined.

End RegistryFacts.

(* ================================================================== *)
(** * The edge orchestration service: definitions, versions, groups *)

Module GreengrassFacts.
Import Py Eff Greengrass Spec Examples Re ReFacts PyFacts EffFacts.

#[local] Arguments String.append : simpl never.

(** ** The patterns of the module and the shapes they accept *)

Lemma thing_arn_sound (s : string) :
  Matches thing_arn (chars s) <-> thing_arn_shape s.
Proof.
  unfold thing_arn, thing_arn_shape. split.
  - intros H.
    apply seq_lit in H. destruct H as (l1 & E1 & H).
    apply seq_plus in H. destruct H as (region & l2 & E2 & R1 & R2 & H).
    apply seq_lit in H. destruct H as (l3 & E3 & H).
    apply seq_rep in H. destruct H as (acct & l4 & E4 & A1 & A2 & H).
    apply seq_lit in H. destruct H as (l5 & E5 & H).
    apply end_plus in H. destruct H as (thing & E6 & T1 & T2).
    subst. exists region, acct, thing. repeat split; try assumption.
    apply chars_inj. rewrite E1, !chars_app. reflexivity.
  - intros (region & acct & thing & -> & R1 & R2 & A1 & A2 & T1 & T2).
    rewrite !chars_app.
    apply seq_lit. eexists. split; [reflexivity|].
    apply seq_plus. eexists _, _. split; [reflexivity|].
    repeat split; try assumption.
    apply seq_lit. eexists. split; [reflexivity|].
    apply seq_rep. eexists _, _. split; [reflexivity|].
    repeat split; try assumption.
    apply seq_lit. eexists. split; [reflexivity|].
    apply end_plus. eexists. split; [reflexivity|]. auto.
Qed.

Lemma function_arn_sound (s : string) :
  Matches function_arn (chars s) <-> function_arn_shape s.
Proof.
  unfold function_arn, function_arn_shape. split.
  - intros H.
    apply seq_lit in H. destruct H as (l1 & E1 & H).
    apply seq_plus in H. destruct H as (region & l2 & E2 & R1 & R2 & H).
    apply seq_lit in H. destruct H as (l3 & E3 & H).
    apply seq_rep in H. destruct H as (acct & l4 & E4 & A1 & A2 & H).
    apply seq_lit in H. destruct H as (l5 & E5 & H).
    apply seq_plus in H. destruct H as (name & l6 & E6 & N1 & N2 & H).
    apply seq_lit in H. destruct H as (l7 & E7 & H).
    apply end_plus in H. destruct H as (qualifier & E8 & Q1 & Q2).
    subst. exists region, acct, name, qualifier.
    repeat split; try assumption.
    apply chars_inj. rewrite E1, !chars_app. reflexivity.
  - intros (region & acct & name & qualifier & -> & R1 & R2 & A1 & A2
            & N1 & N2 & Q1 & Q2).
    rewrite !chars_app.
    apply seq_lit. eexists. split; [reflexivity|].
    apply seq_plus. eexists _, _. split; [reflexivity|].
    repeat split; try assumption.
    apply seq_lit. eexists. split; [reflexivity|].
    apply seq_rep. eexists _, _. split; [reflexivity|].
    repeat split; try assumption.
    apply seq_lit. eexists. split; [reflexivity|].
    apply seq_plus. eexists _, _. split; [reflexivity|].
    repeat split; try assumption.
    apply seq_lit. eexists. split; [reflexivity|].
    apply end_plus. eexists. split; [reflexivity|]. auto.
Qed.

Lemma def_ver_arn_sound (kind s : string) :
  Matches (def_ver_arn kind) (chars s) <-> def_ver_arn_shape kind s.
Proof.
  unfold def_ver_arn, def_ver_arn_shape, def_ver_arn_of. split.
  - intros H.
    apply seq_lit in H. destruct H as (l1 & E1 & H).
    apply seq_plus in H. destruct H as (region & l2 & E2 & R1 & R2 & H).
    apply seq_lit in H. destruct H as (l3 & E3 & H).
    apply seq_rep in H. destruct H as (acct & l4 & E4 & A1 & A2 & H).
    apply seq_lit in H. destruct H as (l5 & E5 & H).
    apply seq_rep in H. destruct H as (did & l6 & E6 & D1 & D2 & H).
    apply seq_lit in H. destruct H as (l7 & E7 & H).
    apply end_rep in H. destruct H as (vid & E8 & V1 & V2).
    subst. exists region, acct, did, vid.
    repeat split; try assumption.
    apply chars_inj. rewrite E1, !chars_app, <- !app_assoc. reflexivity.
  - intros (region & acct & did & vid & -> & R1 & R2 & A1 & A2
            & D1 & D2 & V1 & V2).
    rewrite !chars_app.
    apply seq_lit. eexists. split; [reflexivity|].
    apply seq_plus. eexists _, _. split; [reflexivity|].
    repeat split; try assumption.
    apply seq_lit. eexists. split; [reflexivity|].
    apply seq_rep. eexists _, _. split; [reflexivity|].
    repeat split; try assumption.
    apply seq_lit. eexists. split; [rewrite !chars_app, <- !app_assoc;
                                    reflexivity|].
    apply seq_rep. eexists _, _. split; [reflexivity|].
    repeat split; try assumption.
    apply seq_lit. eexists. split; [reflexivity|].
    apply end_rep. eexists. split; [reflexivity|]. auto.
Qed.

(** ** Sources and targets of subscriptions *)

(** A string that ends in a character of a class that the line feed is
    not in does not end in a line feed. *)
Lemma no_line_feed_after (p : ascii -> bool) (a t s0 : string) :
  p Re.newline = false -> t <> "" -> over p t ->
  a ++ t <> s0 ++ line_feed.
Proof.
  intros Hp Ht Ho E. apply (f_equal chars) in E. rewrite !chars_app in E.
  apply (f_equal (@rev ascii)) in E. rewrite !rev_app_distr in E.
  change (rev (chars line_feed)) with [Re.newline] in E.
  cbn [app] in E.
  destruct (rev (chars t)) as [|c l] eqn:Er.
  - apply Ht. apply chars_inj. rewrite <- (rev_involutive (chars t)), Er.
    reflexivity.
  - cbn [app] in E. injection E as Ec _. subst c.
    assert (Hin : In Re.newline (chars t)).
    { apply in_rev. rewrite Er. left. reflexivity. }
    unfold over in Ho. rewrite forallb_forall in Ho.
    rewrite (Ho _ Hin) in Hp. discriminate Hp.
Qed.

Lemma thing_arn_no_line_feed (s s0 : string) :
  thing_arn_shape s -> s <> s0 ++ line_feed.
Proof.
  intros (region & account & thing & -> & _ & _ & _ & _ & Ht & Ho).
  rewrite <- !append_assoc.
  apply (no_line_feed_after Re.alnum_dash); [reflexivity | exact Ht | exact Ho].
Qed.

Lemma function_arn_no_line_feed (s s0 : string) :
  function_arn_shape s -> s <> s0 ++ line_feed.
Proof.
  intros (region & account & name & qualifier & -> & _ & _ & _ & _ & _ & _
          & Hq & Ho).
  rewrite <- !append_assoc.
  apply (no_line_feed_after Re.word_dash); [reflexivity | exact Hq | exact Ho].
Qed.

Lemma accepted_endpoint_no_line_feed (s s0 : string) :
  accepted_endpoint s -> s <> s0 ++ line_feed.
Proof.
  intros [-> | [-> | [H | H]]].
  - apply (no_line_feed_after Py.is_lower "" "cloud"); reflexivity || discriminate.
  - apply (no_line_feed_after Re.alnum_dash "" "GGShadowService");
      reflexivity || discriminate.
  - apply thing_arn_no_line_feed. exact H.
  - apply function_arn_no_line_feed. exact H.
Qed.

(** What [_is_valid_subscription_target_or_source] accepts: the sources
    and targets that are in order, and the ARNs among them followed by
    one line feed, which the [$] of the two patterns lets through. *)
Lemma is_valid_endpoint_sound (s : string) :
  _is_valid_subscription_target_or_source s = true
  <-> accepted_endpoint s
      \/ exists s0, s = s0 ++ line_feed
                    /\ (thing_arn_shape s0 \/ function_arn_shape s0).
Proof.
  pose proof (match_anchored_shape thing_arn thing_arn_shape
                thing_arn_sound s) as Ht.
  pose proof (match_anchored_shape function_arn function_arn_shape
                function_arn_sound s) as Hf.
  unfold up_to_line_feed in Ht, Hf.
  unfold _is_valid_subscription_target_or_source, accepted_endpoint.
  destruct (String.eqb s "cloud") eqn:E1.
  { apply String.eqb_eq in E1. cbn [orb]. split; [intros _|reflexivity].
    left. left. exact E1. }
  destruct (String.eqb s "GGShadowService") eqn:E2.
  { apply String.eqb_eq in E2. cbn [orb]. split; [intros _|reflexivity].
    left. right. left. exact E2. }
  cbn [orb]. apply String.eqb_neq in E1, E2.
  destruct (match_anchored thing_arn s) eqn:E3.
  { split; [intros _|reflexivity].
    destruct (proj1 Ht eq_refl) as [H | (s0 & E & H)].
    - left. right. right. left. exact H.
    - right. exists s0. split; [exact E|]. left. exact H. }
  destruct (match_anchored function_arn s) eqn:E4.
  { split; [intros _|reflexivity].
    destruct (proj1 Hf eq_refl) as [H | (s0 & E & H)].
    - left. right. right. right. exact H.
    - right. exists s0. split; [exact E|]. right. exact H. }
  split; [discriminate|].
  intros [[H | [H | [H | H]]] | (s0 & E & [H | H])].
  - contradiction.
  - contradiction.
  - apply Ht. left. exact H.
  - apply Hf. left. exact H.
  - apply Ht. right. exists s0. split; [exact E | exact H].
  - apply Hf. right. exists s0. split; [exact E | exact H].
Qed.

Lemma collect_subscription_errors_spec (subscriptions : list Subscription)
    (errors : list string) :
  collect_subscription_errors subscriptions errors
  = (errors ++ subscription_errors subscriptions)%list.
Proof.
  revert errors. induction subscriptions as [|sub rest IH]; intros errors.
  - simpl. rewrite app_nil_r. reflexivity.
  - cbn [collect_subscription_errors subscription_errors flat_map].
    rewrite IH. fold (subscription_errors rest).
    destruct (_is_valid_subscription_target_or_source (Source sub));
      destruct (_is_valid_subscription_target_or_source (Target sub));
      simpl; rewrite <- ?app_assoc; reflexivity.
Qed.

Lemma validate_subscriptions_run (subscriptions : list Subscription) :
  _validate_subscription_target_or_source subscriptions
  = match subscription_errors subscriptions with
    | [] => Ok tt
    | _ :: _ =>
        Raise (subscriptions_invalid (subscription_errors subscriptions))
    end.
Proof.
  unfold _validate_subscription_target_or_source.
  rewrite collect_subscription_errors_spec. reflexivity.
Qed.

Lemma subscription_error_listed (subscriptions : list Subscription)
    (sub : Subscription) :
  In sub subscriptions ->
  (_is_valid_subscription_target_or_source (Source sub) = false ->
   In (source_error sub) (subscription_errors subscriptions))
  /\ (_is_valid_subscription_target_or_source (Target sub) = false ->
      In (target_error sub) (subscription_errors subscriptions)).
Proof.
  intros Hin. unfold subscription_errors.
  split; intros H; apply in_flat_map; exists sub; (split; [exact Hin|]);
    rewrite H; apply in_or_app.
  - left. left. reflexivity.
  - right. left. reflexivity.
Qed.

(** ** Pure calls inside a computation *)

Lemma run_of_result_ok {S A B} (a : A) (k : A -> M exn S B) (w : World S) :
  bind (of_result (Ok a)) k w = k a w.
Proof. reflexivity. Qed.

Lemma run_of_result_raise {S A B} (e : exn) (k : A -> M exn S B)
    (w : World S) :
  bind (of_result (Raise e)) k w = (Raise e, w).
Proof. reflexivity. Qed.

#[local] Hint Rewrite @run_of_result_ok @run_of_result_raise : run.

Section Subscriptions.
Variable oracle : Oracle.

Lemma create_subscription_definition_version_invalid
    (w : World GreengrassBackend) (id : string)
    (subscriptions : list Subscription) (e : exn) :
  _validate_subscription_target_or_source subscriptions = Raise e ->
  create_subscription_definition_version oracle id subscriptions w
  = (Raise e, w).
Proof.
  intros H. unfold create_subscription_definition_version.
  rewrite H. autorewrite with run. reflexivity.
Qed.

Lemma create_subscription_definition_invalid
    (w : World GreengrassBackend) (name : option string)
    (initial_version : SubscriptionDefinitionInitialVersion)
    (subscriptions : list Subscription) (e : exn) :
  Subscriptions initial_version = Some subscriptions ->
  _validate_subscription_target_or_source subscriptions = Raise e ->
  create_subscription_definition oracle name initial_version w
  = (Raise e, w).
Proof.
  intros Hs H. unfold create_subscription_definition.
  rewrite Hs. autorewrite with run. rewrite H. autorewrite with run.
  reflexivity.
Qed.

(** C7, on the code: a source or target is accepted when it is "cloud",
    "GGShadowService", the ARN of a thing or the ARN of a function with
    its qualifier, and also when it is such an ARN followed by one line
    feed, which is none of the four: the patterns end in [$], which
    matches before a final line feed as well as at the end.  On the
    strings that do not end in a line feed the accepted ones are exactly
    the four kinds.  The subscription of the example passes; and when
    some source or target of the list is not accepted, the validation
    and the two calls that run it fail with one error, whose details are
    the errors of all the subscriptions and name the id of every
    subscription with a bad source or target. *)
Theorem subscription_validation (w : World GreengrassBackend)
    (id : string) (name : option string)
    (subscriptions : list Subscription) :
  (forall s, _is_valid_subscription_target_or_source s = true
             <-> accepted_endpoint s
                 \/ exists s0,
                      s = s0 ++ line_feed
                      /\ (thing_arn_shape s0 \/ function_arn_shape s0))
  /\ (forall s0,
        thing_arn_shape s0 \/ function_arn_shape s0 ->
        _is_valid_subscription_target_or_source (s0 ++ line_feed) = true
        /\ ~ accepted_endpoint (s0 ++ line_feed))
  /\ (forall s,
        (forall s0, s <> s0 ++ line_feed) ->
        (_is_valid_subscription_target_or_source s = true
         <-> accepted_endpoint s))
  /\ (forall i subject,
        _validate_subscription_target_or_source
          [{| Id := i; Source := "cloud"; Subject := subject;
              Target := "arn:aws:iot:us-east-1:123456789012:thing/foo" |}]
        = Ok tt)
  /\ (subscription_errors subscriptions = [] ->
      _validate_subscription_target_or_source subscriptions = Ok tt)
  /\ (subscription_errors subscriptions <> [] ->
      let failure := subscriptions_invalid (subscription_errors subscriptions) in
      _validate_subscription_target_or_source subscriptions = Raise failure
      /\ create_subscription_definition oracle name
           {| Subscriptions := Some subscriptions |} w
         = (Raise failure, w)
      /\ create_subscription_definition_version oracle id subscriptions w
         = (Raise failure, w))
  /\ (forall sub,
        In sub subscriptions ->
        _is_valid_subscription_target_or_source (Source sub) = false
        \/ _is_valid_subscription_target_or_source (Target sub) = false ->
        subscription_errors subscriptions <> []
        /\ exists message,
             subscriptions_invalid (subscription_errors subscriptions)
             = GreengrassClientError "400" message
             /\ mentions message ("ID is '" ++ Id sub ++ "'")).
Proof.
  split; [exact is_valid_endpoint_sound|].
  split.
  { intros s0 H. split.
    - apply is_valid_endpoint_sound. right. exists s0.
      split; [reflexivity | exact H].
    - intros Ha. exact (accepted_endpoint_no_line_feed _ s0 Ha eq_refl). }
  split.
  { intros s Hlf. rewrite is_valid_endpoint_sound.
    split; [|intros H; left; exact H].
    intros [H | (s0 & E & _)]; [exact H|]. exfalso. exact (Hlf s0 E). }
  split; [intros i subject; vm_compute; reflexivity|].
  split.
  { intros H. rewrite validate_subscriptions_run, H. reflexivity. }
  split.
  { intros H failure.
    assert (Hv : _validate_subscription_target_or_source subscriptions
                 = Raise failure).
    { rewrite validate_subscriptions_run.
      destruct (subscription_errors subscriptions) eqn:E; [congruence|].
      subst failure. reflexivity. }
    split; [exact Hv|]. split.
    - apply (create_subscription_definition_invalid w name _ subscriptions);
        [reflexivity | exact Hv].
    - apply create_subscription_definition_version_invalid. exact Hv. }
  intros sub Hin Hbad.
  destruct (subscription_error_listed subscriptions sub Hin) as [Hs Ht].
  assert (Herr : exists e, In e (subscription_errors subscriptions)
                           /\ mentions e ("ID is '" ++ Id sub ++ "'")).
  { destruct Hbad as [H | H].
    - exists (source_error sub). split; [apply Hs; exact H|].
      exists "Subscription source is invalid. ",
             (" and Source is '" ++ Source sub ++ "'").
      unfold source_error. rewrite !append_assoc. reflexivity.
    - exists (target_error sub). split; [apply Ht; exact H|].
      exists "Subscription target is invalid. ",
             (" and Target is '" ++ Target sub ++ "'").
      unfold target_error. rewrite !append_assoc. reflexivity. }
  destruct Herr as (e & He & Hm). split.
  - intros Hnil. rewrite Hnil in He. destruct He.
  - eexists. split; [reflexivity|].
    apply mentions_inside.
    destruct (mentions_join ", " _ _ He) as (a & b & ->).
    apply mentions_inside. exact Hm.
Qed.
End Subscriptions.


(** The subscription of the example passes, and so does the one whose
    target is the ARN of the example followed by a line feed, which is
    not the ARN of a thing; with a subscription whose target is
    "not-a-real-target" the creation fails, the details are the error of
    that target, and they name the id "sub-2". *)
Lemma subscription_validation_witness :
  _validate_subscription_target_or_source [good_subscription] = Ok tt
  /\ (_validate_subscription_target_or_source [trailing_subscription] = Ok tt
      /\ ~ accepted_endpoint (Target trailing_subscription))
  /\ subscription_errors [good_subscription; bad_subscription]
     = [target_error bad_subscription]
  /\ create_subscription_definition oracle0 (Some "subscriptions")
       {| Subscriptions := Some [good_subscription; bad_subscription] |}
       greengrass_backend
     = (Raise (subscriptions_invalid
                 (subscription_errors [good_subscription; bad_subscription])),
        greengrass_backend)
  /\ exists message,
       subscriptions_invalid
         (subscription_errors [good_subscription; bad_subscription])
       = GreengrassClientError "400" message
       /\ mentions message ("ID is '" ++ Id bad_subscription ++ "'").
Proof.
  destruct (subscription_validation oracle0 greengrass_backend
              "00000000-0000-4000-8000-000000000000" (Some "subscriptions")
              [good_subscription; bad_subscription])
    as (_ & Hlf & _ & Hgood & _ & Hfail & Hnames).
  split; [exact (Hgood "sub-1" (Some "topic"))|].
  split.
  { split; [vm_compute; reflexivity|].
    apply (Hlf (Target good_subscription)). left.
    exists "us-east-1", "123456789012", "foo".
    repeat split; (reflexivity || discriminate). }
  split; [vm_compute; reflexivity|].
  split.
  - apply Hfail. vm_compute. discriminate.
  - apply (Hnames bad_subscription).
    + right. left. reflexivity.
    + right. vm_compute. reflexivity.
Defined.


(** ** References of a group version *)

Lemma split_version_arn (prefix definition_id version_id : string) :
  has_char "/" definition_id = false ->
  has_char "/" version_id = false ->
  split "/" (prefix ++ "/" ++ definition_id ++ "/versions/" ++ version_id)
  = (split "/" prefix ++ [definition_id; "versions"; version_id])%list.
Proof.
  intros Hd Hv.
  change (prefix ++ "/" ++ definition_id ++ "/versions/" ++ version_id)
    with (prefix ++ String "/" (definition_id
            ++ String "/" ("versions" ++ String "/" version_id))).
  rewrite !split_app_sep.
  rewrite (split_no_sep _ _ Hd), (split_no_sep _ _ Hv).
  reflexivity.
Qed.

Lemma def_ver_arn_pieces (kind region account definition_id version_id tail
    : string) :
  def_ver_arn_of kind region account definition_id version_id ++ tail
  = ("arn:aws:greengrass:" ++ region ++ ":" ++ account
     ++ ":greengrass/definition/" ++ kind)
    ++ "/" ++ definition_id ++ "/versions/" ++ (version_id ++ tail).
Proof. unfold def_ver_arn_of. rewrite !append_assoc. reflexivity. Qed.

Lemma lower_digit_dash_no_slash (x : string) :
  over lower_digit_dash x -> has_char "/" x = false.
Proof. intros H. apply (over_has_char _ _ _ H). reflexivity. Qed.

Lemma tail_no_slash (tail : string) :
  tail = "" \/ tail = line_feed -> has_char "/" tail = false.
Proof. intros [-> | ->]; reflexivity. Qed.

(** The definition id and the version id that the code reads off an ARN
    of the right shape. *)
Lemma def_ver_arn_ids (kind region account definition_id version_id tail
    : string) :
  over lower_digit_dash definition_id ->
  over lower_digit_dash version_id ->
  tail = "" \/ tail = line_feed ->
  let a := def_ver_arn_of kind region account definition_id version_id
           ++ tail in
  getitem (split "/" a) (-3) = Ok definition_id
  /\ getitem (split "/" a) (-1) = Ok (version_id ++ tail).
Proof.
  intros Hd Hv Ht a. subst a. rewrite def_ver_arn_pieces.
  rewrite split_version_arn.
  - split; [apply getitem_third_last | apply getitem_last_of_three].
  - apply lower_digit_dash_no_slash. exact Hd.
  - rewrite has_char_app, (lower_digit_dash_no_slash _ Hv),
      (tail_no_slash _ Ht). reflexivity.
Qed.

Lemma def_ver_arn_match (kind a : string) :
  match_anchored (def_ver_arn kind) a = true
  <-> exists region account definition_id version_id tail : string,
        a = def_ver_arn_of kind region account definition_id version_id
            ++ tail
        /\ (tail = "" \/ tail = line_feed)
        /\ region <> "" /\ over alnum_dash region
        /\ String.length account = 12 /\ over is_digit account
        /\ String.length definition_id = 36
        /\ over lower_digit_dash definition_id
        /\ String.length version_id = 36
        /\ over lower_digit_dash version_id.
Proof.
  rewrite (match_anchored_shape _ _ (def_ver_arn_sound kind)).
  unfold up_to_line_feed, def_ver_arn_shape. split.
  - intros [(r & ac & d & v & -> & H) | (s0 & -> & r & ac & d & v & -> & H)].
    + exists r, ac, d, v, "". rewrite append_empty_r. auto.
    + exists r, ac, d, v, line_feed. auto.
  - intros (r & ac & d & v & tail & -> & [-> | ->] & H).
    + left. exists r, ac, d, v. rewrite append_empty_r. auto.
    + right. eexists. split; [reflexivity|]. exists r, ac, d, v. auto.
Qed.

Section References.
Context {V : Type}.
Variable arn_of : V -> string.
Variable versions : OrderedDict.t (OrderedDict.t V).
Variable kind : string.

(** The check of one reference never raises, and it says yes exactly for
    a reference that is null or resolves. *)
Lemma is_valid_def_ver_arn_sound (arn : option string) :
  exists ok : bool,
    _is_valid_def_ver_arn arn_of versions kind arn = Ok ok
    /\ (ok = true <-> reference_ok arn_of versions kind arn).
Proof.
  destruct arn as [a|]; cbn [_is_valid_def_ver_arn].
  2:{ exists true. split; [reflexivity|]. split; [left|]; reflexivity. }
  destruct (match_anchored (def_ver_arn kind) a) eqn:Hm; cbn [negb].
  2:{ exists false. split; [reflexivity|]. split; [discriminate|].
      intros [H | (a' & [= <-] & r & ac & d & v & tail & vers & ver & H)];
        [discriminate|].
      assert (Hm' : match_anchored (def_ver_arn kind) a = true).
      { apply def_ver_arn_match. exists r, ac, d, v, tail.
        repeat (split; [tauto|]). tauto. }
      congruence. }
  apply def_ver_arn_match in Hm.
  destruct Hm as (r & ac & d & v & tail & Ea & Ht & R1 & R2 & A1 & A2
                  & D1 & D2 & V1 & V2).
  destruct (def_ver_arn_ids kind r ac d v tail D2 V2 Ht) as [H3 H1].
  rewrite <- Ea in H3, H1. rewrite H3, H1. cbn [escape rbind].
  assert (Hback : forall ok : bool,
    (ok = true <-> exists vers ver,
       OrderedDict.get d versions = Some vers
       /\ OrderedDict.get (v ++ tail) vers = Some ver
       /\ arn_of ver = a) ->
    (ok = true <-> reference_ok arn_of versions kind (Some a))).
  { intros ok Hok. rewrite Hok. split.
    - intros (vers & ver & Hd & Hv & Harn). right. exists a.
      split; [reflexivity|]. exists r, ac, d, v, tail, vers, ver.
      repeat (split; [assumption|]). assumption.
    - intros [H | (a' & [= <-] & r' & ac' & d' & v' & tail' & vers & ver
                   & Ea' & Ht' & _ & _ & _ & _ & _ & D2' & _ & V2'
                   & Hd & Hv & Harn)]; [discriminate|].
      destruct (def_ver_arn_ids kind r' ac' d' v' tail' D2' V2' Ht')
        as [H3' H1'].
      rewrite <- Ea' in H3', H1'.
      assert (d' = d) by congruence.
      assert (v' ++ tail' = v ++ tail) by congruence.
      subst d'. exists vers, ver. repeat split; congruence. }
  destruct (OrderedDict.get d versions) as [vers|] eqn:Hd.
  2:{ exists false. split; [reflexivity|]. apply Hback.
      split; [discriminate|]. intros (? & ? & ? & _). discriminate. }
  cbn [rbind].
  destruct (OrderedDict.get (v ++ tail) vers) as [ver|] eqn:Hv.
  2:{ exists false. split; [reflexivity|]. apply Hback.
      split; [discriminate|].
      intros (vers' & ? & [= <-] & Hv' & _). congruence. }
  destruct (String.eqb (arn_of ver) a) eqn:Harn; cbn [negb].
  - exists true. split; [reflexivity|]. apply Hback.
    split; [|reflexivity]. intros _. exists vers, ver.
    apply String.eqb_eq in Harn. auto.
  - exists false. split; [reflexivity|]. apply Hback.
    split; [discriminate|].
    intros (vers' & ver' & [= <-] & Hv' & Harn').
    apply String.eqb_neq in Harn. congruence.
Qed.

(** A reference to a definition id that the store does not hold is
    refused. *)
Lemma is_valid_def_ver_arn_unknown_definition
    (region account definition_id version_id : string) :
  has_char "/" definition_id = false ->
  has_char "/" version_id = false ->
  OrderedDict.get definition_id versions = None ->
  _is_valid_def_ver_arn arn_of versions kind
    (Some (def_ver_arn_of kind region account definition_id version_id))
  = Ok false.
Proof.
  intros Hd Hv Hget. cbn [_is_valid_def_ver_arn].
  destruct (match_anchored _ _); cbn [negb]; [|reflexivity].
  pose proof (def_ver_arn_pieces kind region account definition_id
                version_id "") as E.
  rewrite !append_empty_r in E. rewrite E.
  rewrite (split_version_arn _ _ _ Hd Hv), getitem_third_last.
  cbn [escape rbind]. rewrite Hget. reflexivity.
Qed.
End References.


(** ** Versions under a definition *)

Lemma get_add_version_same {V : Type} (id ver_id : string) (ver : V)
    (versions : OrderedDict.t (OrderedDict.t V)) :
  exists vers,
    OrderedDict.get id (add_version id ver_id ver versions) = Some vers
    /\ OrderedDict.get ver_id vers = Some ver
    /\ forall other, other <> ver_id ->
         OrderedDict.get other vers
         = match OrderedDict.get id versions with
           | Some old => OrderedDict.get other old
           | None => None
           end.
Proof.
  unfold add_version. eexists. split; [apply OrderedDictFacts.get_set_same|].
  split; [apply OrderedDictFacts.get_set_same|].
  intros other Hne. rewrite OrderedDictFacts.get_set_other by congruence.
  destruct (OrderedDict.get id versions); reflexivity.
Qed.

Lemma get_add_version_other {V : Type} (id id' ver_id : string) (ver : V)
    (versions : OrderedDict.t (OrderedDict.t V)) :
  id <> id' ->
  OrderedDict.get id' (add_version id ver_id ver versions)
  = OrderedDict.get id' versions.
Proof. intros H. apply OrderedDictFacts.get_set_other. exact H. Qed.

Lemma get_repointed_same {V : Type} (id : string) (first second : V -> V)
    (v : V) (d : OrderedDict.t V) :
  OrderedDict.get id (repointed id first second v d)
  = Some (second (first v)).
Proof. apply OrderedDictFacts.get_set_same. Qed.

Lemma get_repointed_other {V : Type} (id id' : string)
    (first second : V -> V) (v : V) (d : OrderedDict.t V) :
  id <> id' ->
  OrderedDict.get id' (repointed id first second v d) = OrderedDict.get id' d.
Proof.
  intros H. unfold repointed.
  rewrite !OrderedDictFacts.get_set_other by exact H. reflexivity.
Qed.

(** ** Group versions *)

Lemma validate_group_run (self : GreengrassBackend)
    (core device function resource subscription : option string)
    (ok_cores ok_functions ok_resources ok_devices ok_subscriptions : bool) :
  _is_valid_def_ver_arn cv_arn (core_definition_versions self) "cores" core
  = Ok ok_cores ->
  _is_valid_def_ver_arn fv_arn (function_definition_versions self)
    "functions" function = Ok ok_functions ->
  _is_valid_def_ver_arn rv_arn (resource_definition_versions self)
    "resources" resource = Ok ok_resources ->
  _is_valid_def_ver_arn dv_arn (device_definition_versions self)
    "devices" device = Ok ok_devices ->
  _is_valid_def_ver_arn sv_arn (subscription_definition_versions self)
    "subscriptions" subscription = Ok ok_subscriptions ->
  _validate_group_version_definitions self core device function resource
    subscription
  = match reference_errors ok_cores ok_functions ok_resources ok_devices
            ok_subscriptions with
    | [] => Ok tt
    | _ :: _ =>
        Raise (group_invalid
                 (reference_errors ok_cores ok_functions ok_resources
                    ok_devices ok_subscriptions))
    end.
Proof.
  intros H1 H2 H3 H4 H5. unfold _validate_group_version_definitions.
  rewrite H1, H2, H3, H4, H5. cbn [rbind].
  destruct ok_cores, ok_functions, ok_resources, ok_devices,
    ok_subscriptions; reflexivity.
Qed.

Section Groups.
Variable oracle : Oracle.

Lemma create_group_version_invalid (self : GreengrassBackend) (n : nat)
    (group_id : string)
    (core device function resource subscription : option string) (e : exn) :
  OrderedDict.contains group_id (groups self) = true ->
  _validate_group_version_definitions self core device function resource
    subscription = Raise e ->
  create_group_version oracle group_id core device function resource
    subscription (mkWorld self n)
  = (Raise e, mkWorld self n).
Proof.
  intros Hg Hv. unfold create_group_version.
  autorewrite with run. cbn [store reads]. rewrite Hg. cbn [negb].
  rewrite Hv. autorewrite with run. reflexivity.
Qed.

Lemma create_group_version_valid (self : GreengrassBackend) (n : nat)
    (group_id : string) (g : FakeGroup)
    (core device function resource subscription : option string) :
  OrderedDict.get group_id (groups self) = Some g ->
  _validate_group_version_definitions self core device function resource
    subscription = Ok tt ->
  let gv := new_group_version oracle (region_name self) n group_id
              core device function resource subscription in
  create_group_version oracle group_id core device function resource
    subscription (mkWorld self n)
  = (Ok gv, mkWorld (with_group_version gv group_id g self) (S (S n))).
Proof.
  intros Hg Hv gv. unfold create_group_version.
  autorewrite with run. cbn [store reads].
  unfold OrderedDict.contains. rewrite Hg. cbn [negb].
  rewrite Hv. autorewrite with run.
  unfold FakeGroupVersion_init. autorewrite with run. cbn [store reads].
  unfold set_attr. autorewrite with run.
  cbn [store reads groups set_group_versions gv_group_id gv_version gv_arn].
  rewrite Hg. autorewrite with run.
  cbn [store reads groups set_groups].
  rewrite OrderedDictFacts.get_set_same. autorewrite with run.
  reflexivity.
Qed.
End Groups.


Lemma reference_errors_listed
    (ok_cores ok_functions ok_resources ok_devices ok_subscriptions : bool) :
  let errors := reference_errors ok_cores ok_functions ok_resources
                  ok_devices ok_subscriptions in
  (ok_cores = false ->
   In "Cores definition reference does not exist" errors)
  /\ (ok_functions = false ->
      In "Lambda definition reference does not exist" errors)
  /\ (ok_resources = false ->
      In "Resource definition reference does not exist" errors)
  /\ (ok_devices = false ->
      In "Devices definition reference does not exist" errors)
  /\ (ok_subscriptions = false ->
      In "Subscription definition reference does not exist" errors).
Proof.
  destruct ok_cores, ok_functions, ok_resources, ok_devices,
    ok_subscriptions; cbn; repeat split; intros H;
    try discriminate H; tauto.
Qed.

Lemma group_invalid_mentions (errors : list string) (m : string) :
  In m errors ->
  exists message,
    group_invalid errors = GreengrassClientError "400" message
    /\ mentions message m.
Proof.
  intros H. eexists. split; [reflexivity|].
  apply mentions_inside. apply mentions_join. exact H.
Qed.

Section GroupReferences.
Variable oracle : Oracle.

(** C6: on an existing group, each of the five references is checked on
    its own (null, or the shape of a version ARN of its kind, whose
    definition id and version id are in the store of the kind, and whose
    stored version records the same ARN); the verdicts of all five make
    the list of errors; with no error the call succeeds and stores the
    version, otherwise it fails with one error that lists them all and
    leaves the backend as it was.  Five null references give no error, and
    a core reference to a definition id that the store does not hold gives
    an error that mentions "Cores definition reference does not exist". *)
Theorem group_version_references (self : GreengrassBackend) (n : nat)
    (group_id : string) (g : FakeGroup)
    (core device function resource subscription : option string) :
  OrderedDict.get group_id (groups self) = Some g ->
  exists ok_cores ok_functions ok_resources ok_devices ok_subscriptions
         : bool,
    let errors := reference_errors ok_cores ok_functions ok_resources
                    ok_devices ok_subscriptions in
    let run := create_group_version oracle group_id core device function
                 resource subscription (mkWorld self n) in
    let gv := new_group_version oracle (region_name self) n group_id
                core device function resource subscription in
    (ok_cores = true
     <-> reference_ok cv_arn (core_definition_versions self) "cores" core)
    /\ (ok_functions = true
        <-> reference_ok fv_arn (function_definition_versions self)
              "functions" function)
    /\ (ok_resources = true
        <-> reference_ok rv_arn (resource_definition_versions self)
              "resources" resource)
    /\ (ok_devices = true
        <-> reference_ok dv_arn (device_definition_versions self)
              "devices" device)
    /\ (ok_subscriptions = true
        <-> reference_ok sv_arn (subscription_definition_versions self)
              "subscriptions" subscription)
    /\ (errors = [] ->
        run = (Ok gv, mkWorld (with_group_version gv group_id g self)
                        (S (S n))))
    /\ (errors <> [] ->
        run = (Raise (group_invalid errors), mkWorld self n))
    /\ (forall m, In m errors ->
          exists message,
            group_invalid errors = GreengrassClientError "400" message
            /\ mentions message m)
    /\ ((ok_cores = false ->
         In "Cores definition reference does not exist" errors)
        /\ (ok_functions = false ->
            In "Lambda definition reference does not exist" errors)
        /\ (ok_resources = false ->
            In "Resource definition reference does not exist" errors)
        /\ (ok_devices = false ->
            In "Devices definition reference does not exist" errors)
        /\ (ok_subscriptions = false ->
            In "Subscription definition reference does not exist" errors))
    /\ (core = None -> device = None -> function = None ->
        resource = None -> subscription = None -> errors = [])
    /\ (forall region account definition_id version_id,
          core = Some (def_ver_arn_of "cores" region account definition_id
                         version_id) ->
          has_char "/" definition_id = false ->
          has_char "/" version_id = false ->
          OrderedDict.get definition_id (core_definition_versions self)
          = None ->
          ok_cores = false).
Proof.
  intros Hg.
  destruct (is_valid_def_ver_arn_sound cv_arn (core_definition_versions self)
              "cores" core) as (ok_cores & E1 & S1).
  destruct (is_valid_def_ver_arn_sound fv_arn
              (function_definition_versions self) "functions" function)
    as (ok_functions & E2 & S2).
  destruct (is_valid_def_ver_arn_sound rv_arn
              (resource_definition_versions self) "resources" resource)
    as (ok_resources & E3 & S3).
  destruct (is_valid_def_ver_arn_sound dv_arn
              (device_definition_versions self) "devices" device)
    as (ok_devices & E4 & S4).
  destruct (is_valid_def_ver_arn_sound sv_arn
              (subscription_definition_versions self) "subscriptions"
              subscription) as (ok_subscriptions & E5 & S5).
  exists ok_cores, ok_functions, ok_resources, ok_devices, ok_subscriptions.
  intros errors run gv.
  pose proof (validate_group_run self core device function resource
                subscription _ _ _ _ _ E1 E2 E3 E4 E5) as Hv.
  fold errors in Hv.
  repeat (split; [assumption|]).
  split.
  { intros Hnil. rewrite Hnil in Hv.
    apply (create_group_version_valid oracle self n group_id g); assumption. }
  split.
  { intros Hne. destruct errors as [|e errors'] eqn:Ee; [congruence|].
    apply create_group_version_invalid; [|exact Hv].
    unfold OrderedDict.contains. rewrite Hg. reflexivity. }
  split; [intros m; apply group_invalid_mentions|].
  split; [apply reference_errors_listed|].
  split.
  { intros -> -> -> -> ->. cbn in E1, E2, E3, E4, E5.
    injection E1 as <-. injection E2 as <-. injection E3 as <-.
    injection E4 as <-. injection E5 as <-. reflexivity. }
  intros region acct did vid -> Hd Hvid Hget.
  rewrite (is_valid_def_ver_arn_unknown_definition cv_arn _ "cores"
             region acct did vid Hd Hvid Hget) in E1.
  congruence.
Qed.
End GroupReferences.


(** On the group "edge": five null references succeed; a core reference
    to a definition that was never created fails with an error that
    mentions the cores. *)
Lemma group_version_references_witness :
  fst (create_group_version oracle0 edge_group_id None None None None None
         group_world)
  = Ok (new_group_version oracle0 "eu-west-1" 5 edge_group_id
          None None None None None)
  /\ exists message,
       create_group_version oracle0 edge_group_id (Some missing_core_arn)
         None None None None group_world
       = (Raise (GreengrassClientError "400" message), group_world)
       /\ mentions message "Cores definition reference does not exist".
Proof.
  split.
  - destruct (group_version_references oracle0 (store group_world)
                (reads group_world) edge_group_id _
                None None None None None eq_refl)
      as (c & f & r & d & s & _ & _ & _ & _ & _ & Hok & _ & _ & _ & Hnil & _).
    exact (f_equal fst (Hok (Hnil eq_refl eq_refl eq_refl eq_refl eq_refl))).
  - destruct (group_version_references oracle0 (store group_world)
                (reads group_world) edge_group_id _
                (Some missing_core_arn) None None None None eq_refl)
      as (c & f & r & d & s & _ & _ & _ & _ & _ & _ & Hfail & Hmsg
          & (Hcores & _) & _ & Hmissing).
    assert (Hc : c = false)
      by (apply (Hmissing "eu-west-1" "123456789012" (uuid_of 50)
                   (uuid_of 51)); reflexivity).
    specialize (Hcores Hc).
    destruct (Hmsg _ Hcores) as (message & Emsg & Hmention).
    exists message. split; [|exact Hmention].
    rewrite <- Emsg. apply Hfail.
    intros Hnil. rewrite Hnil in Hcores. destruct Hcores.
Defined.


(** ** What the creating operations do when they succeed *)

Lemma get_update_at_same {V : Type} (k : string) (upd : V -> V) (v : V)
    (d : OrderedDict.t V) :
  OrderedDict.get k d = Some v ->
  OrderedDict.get k (update_at k upd d) = Some (upd v).
Proof.
  intros H. unfold update_at. rewrite H.
  apply OrderedDictFacts.get_set_same.
Qed.

Lemma get_update_at_other {V : Type} (k k' : string) (upd : V -> V)
    (d : OrderedDict.t V) :
  k <> k' -> OrderedDict.get k' (update_at k upd d) = OrderedDict.get k' d.
Proof.
  intros H. unfold update_at. destruct (OrderedDict.get k d); [|reflexivity].
  apply OrderedDictFacts.get_set_other. exact H.
Qed.

Section Creation.
Variable oracle : Oracle.

Lemma create_core_definition_version_run (self : GreengrassBackend) (n : nat)
    (id : string) (d : FakeCoreDefinition) (cores : json) :
  OrderedDict.get id (core_definitions self) = Some d ->
  let ver := new_core_version oracle (region_name self) n id
               [("Cores", cores)] in
  create_core_definition_version oracle id cores (mkWorld self n)
  = (Ok ver, mkWorld (with_core_version ver id d self) (S (S n))).
Proof.
  intros Hd ver. unfold create_core_definition_version.
  autorewrite with run. cbn [store reads].
  unfold FakeCoreDefinitionVersion_init. autorewrite with run.
  cbn [store reads]. unfold set_attr. autorewrite with run.
  cbn [store reads core_definitions set_core_definition_versions].
  rewrite Hd. autorewrite with run.
  cbn [store reads core_definitions set_core_definitions].
  rewrite OrderedDictFacts.get_set_same. autorewrite with run.
  reflexivity.
Qed.

Lemma create_core_definition_run (self : GreengrassBackend) (n : nat)
    (name : option string) (initial_version cores : json) :
  json_getitem initial_version "Cores" = Ok cores ->
  let d := new_core_definition oracle (region_name self) n name in
  let ver := new_core_version oracle (region_name self) (S (S n)) (cd_id d)
               [("Cores", cores)] in
  create_core_definition oracle name initial_version (mkWorld self n)
  = (Ok (cd_set_latest_version_arn (cv_arn ver)
           (cd_set_latest_version (cv_version ver) d)),
     mkWorld
       (with_core_version ver (cd_id d) d
          (set_core_definitions
             (OrderedDict.set (cd_id d) d (core_definitions self)) self))
       (S (S (S (S n))))).
Proof.
  intros Hc d ver. unfold create_core_definition.
  autorewrite with run. cbn [store reads].
  unfold FakeCoreDefinition_init. autorewrite with run. cbn [store reads].
  rewrite Hc. cbn [escape]. autorewrite with run.
  erewrite run_step.
  2:{ apply create_core_definition_version_run with (d := d).
      apply OrderedDictFacts.get_set_same. }
  unfold stored. autorewrite with run.
  cbn [store reads core_definitions with_core_version set_core_definitions].
  rewrite get_repointed_same. reflexivity.
Qed.

(** A payload without ["Cores"]: the definition stays behind without a
    version. *)
Lemma create_core_definition_without_cores (self : GreengrassBackend)
    (n : nat) (name : option string) (initial_version : json) (e : error) :
  json_getitem initial_version "Cores" = Raise e ->
  let d := new_core_definition oracle (region_name self) n name in
  create_core_definition oracle name initial_version (mkWorld self n)
  = (Raise (Builtin e),
     mkWorld (set_core_definitions
                (OrderedDict.set (cd_id d) d (core_definitions self)) self)
       (S (S n))).
Proof.
  intros Hc d. unfold create_core_definition.
  autorewrite with run. cbn [store reads].
  unfold FakeCoreDefinition_init. autorewrite with run. cbn [store reads].
  rewrite Hc. cbn [escape]. autorewrite with run. reflexivity.
Qed.

Lemma create_device_definition_version_run (self : GreengrassBackend)
    (n : nat) (id : string) (d : FakeDeviceDefinition) (devices : json) :
  OrderedDict.get id (device_definitions self) = Some d ->
  let ver := new_device_version oracle (region_name self) n id devices in
  create_device_definition_version oracle id devices (mkWorld self n)
  = (Ok ver, mkWorld (with_device_version ver id d self) (S (S n))).
Proof.
  intros Hd ver. unfold create_device_definition_version.
  autorewrite with run. cbn [store reads].
  unfold OrderedDict.contains. rewrite Hd. cbn [negb].
  unfold FakeDeviceDefinitionVersion_init. autorewrite with run.
  cbn [store reads]. unfold set_attr. autorewrite with run.
  cbn [store reads device_definitions set_device_definition_versions].
  rewrite Hd. autorewrite with run.
  cbn [store reads device_definitions set_device_definitions].
  rewrite OrderedDictFacts.get_set_same. autorewrite with run.
  reflexivity.
Qed.

Lemma create_device_definition_run (self : GreengrassBackend) (n : nat)
    (name : option string) (initial_version devices : json) :
  json_get initial_version "Devices" (JDict []) = Ok devices ->
  let d := new_device_definition oracle (region_name self) n name
             initial_version in
  let ver := new_device_version oracle (region_name self) (S (S (S n)))
               (dd_id d) devices in
  create_device_definition oracle name initial_version (mkWorld self n)
  = (Ok (dd_set_latest_version_arn (dv_arn ver)
           (dd_set_latest_version (dv_version ver) d)),
     mkWorld
       (with_device_version ver (dd_id d) d
          (set_device_definitions
             (OrderedDict.set (dd_id d) d (device_definitions self)) self))
       (S (S (S (S (S n)))))).
Proof.
  intros Hc d ver. unfold create_device_definition.
  autorewrite with run. cbn [store reads].
  unfold FakeDeviceDefinition_init. autorewrite with run.
  cbn [store reads dd_initial_version].
  rewrite Hc. cbn [escape]. autorewrite with run.
  erewrite run_step.
  2:{ apply create_device_definition_version_run with (d := d).
      apply OrderedDictFacts.get_set_same. }
  unfold stored. autorewrite with run.
  cbn [store reads device_definitions with_device_version
       set_device_definitions].
  rewrite get_repointed_same. reflexivity.
Qed.

Lemma create_function_definition_version_run (self : GreengrassBackend)
    (n : nat) (id : string) (d : FakeFunctionDefinition)
    (functions default_config : json) :
  OrderedDict.get id (function_definitions self) = Some d ->
  let ver := new_function_version oracle (region_name self) n id functions
               default_config in
  create_function_definition_version oracle id functions default_config
    (mkWorld self n)
  = (Ok ver, mkWorld (with_function_version ver id d self) (S (S n))).
Proof.
  intros Hd ver. unfold create_function_definition_version.
  autorewrite with run. cbn [store reads].
  unfold OrderedDict.contains. rewrite Hd. cbn [negb].
  unfold FakeFunctionDefinitionVersion_init. autorewrite with run.
  cbn [store reads]. unfold set_attr. autorewrite with run.
  cbn [store reads function_definitions set_function_definition_versions].
  rewrite Hd. autorewrite with run.
  cbn [store reads function_definitions set_function_definitions].
  rewrite OrderedDictFacts.get_set_same. autorewrite with run.
  reflexivity.
Qed.

Lemma create_function_definition_run (self : GreengrassBackend) (n : nat)
    (name : option string) (initial_version functions default_config : json) :
  json_get initial_version "Functions" (JDict []) = Ok functions ->
  json_get initial_version "DefaultConfig" (JDict []) = Ok default_config ->
  let d := new_function_definition oracle (region_name self) n name
             initial_version in
  let ver := new_function_version oracle (region_name self) (S (S (S n)))
               (fd_id d) functions default_config in
  create_function_definition oracle name initial_version (mkWorld self n)
  = (Ok (fd_set_latest_version_arn (fv_arn ver)
           (fd_set_latest_version (fv_version ver) d)),
     mkWorld
       (with_function_version ver (fd_id d) d
          (set_function_definitions
             (OrderedDict.set (fd_id d) d (function_definitions self)) self))
       (S (S (S (S (S n)))))).
Proof.
  intros Hf Hc d ver. unfold create_function_definition.
  autorewrite with run. cbn [store reads].
  unfold FakeFunctionDefinition_init. autorewrite with run.
  cbn [store reads fd_initial_version].
  rewrite Hf. cbn [escape]. autorewrite with run.
  rewrite Hc. cbn [escape]. autorewrite with run.
  erewrite run_step.
  2:{ apply create_function_definition_version_run with (d := d).
      apply OrderedDictFacts.get_set_same. }
  unfold stored. autorewrite with run.
  cbn [store reads function_definitions with_function_version
       set_function_definitions].
  rewrite get_repointed_same. reflexivity.
Qed.

Lemma create_resource_definition_version_run (self : GreengrassBackend)
    (n : nat) (id : string) (d : FakeResourceDefinition) (resources : json) :
  OrderedDict.get id (resource_definitions self) = Some d ->
  _validate_resources resources = Ok tt ->
  let ver := new_resource_version oracle (region_name self) n id resources in
  create_resource_definition_version oracle id resources (mkWorld self n)
  = (Ok ver, mkWorld (with_resource_version ver id d self) (S (S n))).
Proof.
  intros Hd Hv ver. unfold create_resource_definition_version.
  autorewrite with run. cbn [store reads].
  unfold OrderedDict.contains. rewrite Hd. cbn [negb].
  rewrite Hv. autorewrite with run.
  unfold FakeResourceDefinitionVersion_init. autorewrite with run.
  cbn [store reads]. unfold set_attr. autorewrite with run.
  cbn [store reads resource_definitions set_resource_definition_versions].
  rewrite Hd. autorewrite with run.
  cbn [store reads resource_definitions set_resource_definitions].
  rewrite OrderedDictFacts.get_set_same. autorewrite with run.
  reflexivity.
Qed.

Lemma create_resource_definition_run (self : GreengrassBackend) (n : nat)
    (name : option string) (initial_version checked resources : json) :
  json_get initial_version "Resources" (JList []) = Ok checked ->
  _validate_resources checked = Ok tt ->
  json_get initial_version "Resources" (JDict []) = Ok resources ->
  _validate_resources resources = Ok tt ->
  let d := new_resource_definition oracle (region_name self) n name
             initial_version in
  let ver := new_resource_version oracle (region_name self) (S (S (S n)))
               (rd_id d) resources in
  create_resource_definition oracle name initial_version (mkWorld self n)
  = (Ok (rd_set_latest_version_arn (rv_arn ver)
           (rd_set_latest_version (rv_version ver) d)),
     mkWorld
       (with_resource_version ver (rd_id d) d
          (set_resource_definitions
             (OrderedDict.set (rd_id d) d (resource_definitions self)) self))
       (S (S (S (S (S n)))))).
Proof.
  intros H1 V1 H2 V2 d ver. unfold create_resource_definition.
  rewrite H1. cbn [escape]. autorewrite with run.
  rewrite V1. autorewrite with run. cbn [store reads].
  unfold FakeResourceDefinition_init. autorewrite with run.
  cbn [store reads rd_initial_version].
  rewrite H2. cbn [escape]. autorewrite with run.
  erewrite run_step.
  2:{ apply create_resource_definition_version_run with (d := d).
      - apply OrderedDictFacts.get_set_same.
      - exact V2. }
  unfold stored. autorewrite with run.
  cbn [store reads resource_definitions with_resource_version
       set_resource_definitions].
  rewrite get_repointed_same. reflexivity.
Qed.

Lemma create_subscription_definition_version_run (self : GreengrassBackend)
    (n : nat) (id : string) (d : FakeSubscriptionDefinition)
    (subscriptions : list Subscription) :
  OrderedDict.get id (subscription_definitions self) = Some d ->
  _validate_subscription_target_or_source subscriptions = Ok tt ->
  let ver := new_subscription_version oracle (region_name self) n id
               subscriptions in
  create_subscription_definition_version oracle id subscriptions
    (mkWorld self n)
  = (Ok ver, mkWorld (with_subscription_version ver id self) (S (S n))).
Proof.
  intros Hd Hv ver. unfold create_subscription_definition_version.
  rewrite Hv. autorewrite with run. cbn [store reads].
  unfold OrderedDict.contains. rewrite Hd. cbn [negb].
  unfold FakeSubscriptionDefinitionVersion_init. autorewrite with run.
  reflexivity.
Qed.

Lemma create_subscription_definition_run (self : GreengrassBackend)
    (n : nat) (name : option string)
    (initial_version : SubscriptionDefinitionInitialVersion)
    (subscriptions : list Subscription) :
  Subscriptions initial_version = Some subscriptions ->
  _validate_subscription_target_or_source subscriptions = Ok tt ->
  let d := new_subscription_definition oracle (region_name self) n name
             initial_version in
  let ver := new_subscription_version oracle (region_name self)
               (S (S (S n))) (sd_id d) subscriptions in
  create_subscription_definition oracle name initial_version (mkWorld self n)
  = (Ok (sd_set_latest_version_arn (sv_arn ver)
           (sd_set_latest_version (sv_version ver) d)),
     mkWorld (with_first_subscription_version ver d self)
       (S (S (S (S (S n)))))).
Proof.
  intros Hs Hv d ver. unfold create_subscription_definition.
  rewrite Hs. autorewrite with run.
  rewrite Hv. autorewrite with run. cbn [store reads].
  unfold FakeSubscriptionDefinition_init. autorewrite with run.
  cbn [store reads sd_initial_version]. rewrite Hs.
  erewrite run_step.
  2:{ apply create_subscription_definition_version_run with (d := d).
      - apply OrderedDictFacts.get_set_same.
      - exact Hv. }
  autorewrite with run. unfold stored. autorewrite with run.
  cbn [store reads subscription_definitions with_subscription_version
       set_subscription_definitions set_subscription_definition_versions].
  rewrite (get_update_at_same _ _
             (sd_set_latest_version (sv_version ver) d)).
  - reflexivity.
  - apply get_update_at_same. apply OrderedDictFacts.get_set_same.
Qed.

Lemma validate_group_ignores_groups (self : GreengrassBackend)
    (gs : OrderedDict.t FakeGroup)
    (core device function resource subscription : option string) :
  _validate_group_version_definitions (set_groups gs self) core device
    function resource subscription
  = _validate_group_version_definitions self core device function resource
      subscription.
Proof. reflexivity. Qed.

Lemma create_group_invalid (self : GreengrassBackend) (n : nat)
    (name : option string) (references : GroupVersionInput) (e : exn) :
  _validate_group_version_definitions self
    (CoreDefinitionVersionArn references)
    (DeviceDefinitionVersionArn references)
    (FunctionDefinitionVersionArn references)
    (ResourceDefinitionVersionArn references)
    (SubscriptionDefinitionVersionArn references) = Raise e ->
  let g := new_group oracle (region_name self) n name in
  create_group oracle name (Some references) (mkWorld self n)
  = (Raise e,
     mkWorld (set_groups (OrderedDict.set (g_group_id g) g (groups self))
                self) (S (S (S n)))).
Proof.
  intros Hv g. unfold create_group.
  autorewrite with run. cbn [store reads].
  unfold FakeGroup_init. autorewrite with run. cbn [store reads].
  erewrite run_fail; [reflexivity|].
  apply create_group_version_invalid.
  - apply OrderedDictFacts.contains_set_same.
  - rewrite validate_group_ignores_groups. exact Hv.
Qed.

Lemma create_group_valid (self : GreengrassBackend) (n : nat)
    (name : option string) (initial_version : option GroupVersionInput) :
  let reference key :=
    match initial_version with Some d => key d | None => None end in
  _validate_group_version_definitions self
    (reference CoreDefinitionVersionArn)
    (reference DeviceDefinitionVersionArn)
    (reference FunctionDefinitionVersionArn)
    (reference ResourceDefinitionVersionArn)
    (reference SubscriptionDefinitionVersionArn) = Ok tt ->
  let g := new_group oracle (region_name self) n name in
  let gv := new_group_version oracle (region_name self) (S (S (S n)))
              (g_group_id g)
              (reference CoreDefinitionVersionArn)
              (reference DeviceDefinitionVersionArn)
              (reference FunctionDefinitionVersionArn)
              (reference ResourceDefinitionVersionArn)
              (reference SubscriptionDefinitionVersionArn) in
  create_group oracle name initial_version (mkWorld self n)
  = (Ok (g_set_latest_version (gv_version gv)
           (g_set_latest_version_arn (gv_arn gv) g)),
     mkWorld
       (with_group_version gv (g_group_id g) g
          (set_groups (OrderedDict.set (g_group_id g) g (groups self)) self))
       (S (S (S (S (S n)))))).
Proof.
  intros reference Hv g gv. unfold create_group.
  autorewrite with run. cbn [store reads].
  unfold FakeGroup_init. autorewrite with run. cbn [store reads].
  erewrite run_step.
  2:{ apply create_group_version_valid with (g := g).
      - apply OrderedDictFacts.get_set_same.
      - rewrite validate_group_ignores_groups. exact Hv. }
  unfold stored. autorewrite with run.
  cbn [store reads groups with_group_version set_groups].
  rewrite get_repointed_same. reflexivity.
Qed.
End Creation.


(** ** A definition and its first version *)

Section Atomicity.
Variable oracle : Oracle.

(** [create_subscription_definition] validates before it registers: when
    it fails, nothing has changed. *)
Lemma create_subscription_definition_atomic (w : World GreengrassBackend)
    (name : option string)
    (initial_version : SubscriptionDefinitionInitialVersion) (e : exn) :
  fst (create_subscription_definition oracle name initial_version w)
  = Raise e ->
  snd (create_subscription_definition oracle name initial_version w) = w.
Proof.
  destruct w as [self n].
  destruct (Subscriptions initial_version) as [subscriptions|] eqn:Hs.
  - destruct (_validate_subscription_target_or_source subscriptions)
      as [[]|e'] eqn:Hv.
    + rewrite (create_subscription_definition_run oracle self n name
                 initial_version subscriptions Hs Hv).
      discriminate.
    + rewrite (create_subscription_definition_invalid oracle _ name
                 initial_version subscriptions e' Hs Hv).
      reflexivity.
  - unfold create_subscription_definition. rewrite Hs.
    autorewrite with run. reflexivity.
Qed.

Lemma json_get_defaults (j : json) (k : string) (d1 d2 x : json) :
  json_get j k d1 = Ok x ->
  exists y, json_get j k d2 = Ok y /\ (y = x \/ (x = d1 /\ y = d2)).
Proof.
  destruct j; try discriminate. cbn [json_get].
  destruct (OrderedDict.get k d); intros [= <-]; eauto.
Qed.

(** [create_resource_definition] validates before it registers as well. *)
Lemma create_resource_definition_atomic (w : World GreengrassBackend)
    (name : option string) (initial_version : json) (e : exn) :
  fst (create_resource_definition oracle name initial_version w) = Raise e ->
  snd (create_resource_definition oracle name initial_version w) = w.
Proof.
  destruct w as [self n].
  destruct (json_get initial_version "Resources" (JList [])) as [checked|e']
    eqn:H1.
  - destruct (_validate_resources checked) as [[]|e''] eqn:V1.
    + destruct (json_get_defaults _ _ _ (JDict []) _ H1)
        as (resources & H2 & Hr).
      assert (V2 : _validate_resources resources = Ok tt).
      { destruct Hr as [-> | [_ ->]]; [exact V1 | reflexivity]. }
      rewrite (create_resource_definition_run oracle self n name
                 initial_version checked resources H1 V1 H2 V2).
      discriminate.
    + unfold create_resource_definition. rewrite H1. cbn [escape].
      autorewrite with run. rewrite V1. autorewrite with run. reflexivity.
  - unfold create_resource_definition. rewrite H1. cbn [escape].
    autorewrite with run. reflexivity.
Qed.

(** C2, on the code: [create_group] registers the group first and checks
    the references afterwards; when a reference is refused the call fails,
    the group stays registered with no latest version, and no version has
    been stored for it. *)
Theorem create_group_registers_before_validating (self : GreengrassBackend)
    (n : nat) (name : option string) (references : GroupVersionInput)
    (e : exn) :
  _validate_group_version_definitions self
    (CoreDefinitionVersionArn references)
    (DeviceDefinitionVersionArn references)
    (FunctionDefinitionVersionArn references)
    (ResourceDefinitionVersionArn references)
    (SubscriptionDefinitionVersionArn references) = Raise e ->
  let r := create_group oracle name (Some references) (mkWorld self n) in
  let id := uuid4 oracle n in
  fst r = Raise e
  /\ OrderedDict.get id (groups (store (snd r)))
     = Some (new_group oracle (region_name self) n name)
  /\ g_latest_version (new_group oracle (region_name self) n name) = ""
  /\ OrderedDict.get id (group_versions (store (snd r)))
     = OrderedDict.get id (group_versions self).
Proof.
  intros Hv r id. subst r.
  rewrite (create_group_invalid oracle self n name references e Hv).
  cbn [fst snd store groups group_versions set_groups].
  split; [reflexivity|]. split; [|split; reflexivity].
  apply OrderedDictFacts.get_set_same.
Qed.
End Atomicity.

Lemma create_group_registers_before_validating_witness :
  fst (create_group oracle0 (Some "edge") (Some dangling_references)
         greengrass_backend)
  = Raise (group_invalid ["Cores definition reference does not exist"])
  /\ OrderedDict.contains (uuid_of 0)
       (groups (store (snd (create_group oracle0 (Some "edge")
                              (Some dangling_references)
                              greengrass_backend))))
     = true
  /\ OrderedDict.get (uuid_of 0)
       (group_versions
          (store (snd (create_group oracle0 (Some "edge")
                         (Some dangling_references) greengrass_backend))))
     = None.
Proof.
  assert (Hv : _validate_group_version_definitions (store greengrass_backend)
                 (CoreDefinitionVersionArn dangling_references)
                 (DeviceDefinitionVersionArn dangling_references)
                 (FunctionDefinitionVersionArn dangling_references)
                 (ResourceDefinitionVersionArn dangling_references)
                 (SubscriptionDefinitionVersionArn dangling_references)
               = Raise (group_invalid
                          ["Cores definition reference does not exist"]))
    by (vm_compute; reflexivity).
  destruct (create_group_registers_before_validating oracle0
              (store greengrass_backend) 0 (Some "edge")
              dangling_references _ Hv) as (H1 & H2 & _ & H3).
  split; [exact H1|]. split.
  - unfold OrderedDict.contains.
    change (uuid_of 0) with (uuid4 oracle0 0).
    change greengrass_backend
      with (mkWorld (store greengrass_backend) 0).
    rewrite H2. reflexivity.
  - exact H3.
Defined.


(** ** The latest version of a definition *)

Section LatestVersion.
Variable oracle : Oracle.

(** Creating a core definition: the version under [latest_version] holds
    the submitted cores, and [latest_version_arn] is its ARN. *)
Lemma core_definition_round_trip (self : GreengrassBackend) (n : nat)
    (name : option string) (initial_version cores : json) :
  json_getitem initial_version "Cores" = Ok cores ->
  exists (d : FakeCoreDefinition) (ver : FakeCoreDefinitionVersion)
         (w' : World GreengrassBackend),
    create_core_definition oracle name initial_version (mkWorld self n)
    = (Ok d, w')
    /\ fst (get_core_definition (cd_id d) w') = Ok d
    /\ fst (get_core_definition_version (cd_id d) (cd_latest_version d) w')
       = Ok ver
    /\ cv_definition ver = [("Cores", cores)]
    /\ cd_latest_version_arn d = cv_arn ver.
Proof.
  intros Hc.
  pose proof (create_core_definition_run oracle self n name initial_version
                cores Hc) as Hrun.
  cbv zeta in Hrun. eexists _, _, _. split; [exact Hrun|].
  unfold get_core_definition, get_core_definition_version.
  autorewrite with run.
  cbn [store reads core_definitions core_definition_versions
       with_core_version set_core_definitions set_core_definition_versions].
  unfold OrderedDict.contains.
  rewrite get_repointed_same. cbn [negb fst].
  destruct (get_add_version_same (uuid4 oracle n) (uuid4 oracle (S (S n)))
              (new_core_version oracle (region_name self) (S (S n))
                 (uuid4 oracle n) [("Cores", cores)])
              (core_definition_versions self)) as (vers & Hvers & Hver & _).
  cbn [cd_id new_core_definition cv_version new_core_version
       cd_set_latest_version_arn cd_set_latest_version cd_latest_version
       cd_latest_version_arn cv_arn].
  cbn [cv_version new_core_version] in Hvers, Hver.
  rewrite Hvers, Hver. cbn [fst]. repeat split; reflexivity.
Qed.

(** A later [create_core_definition_version] repoints the definition to
    the new version and keeps the versions with other ids. *)
Lemma core_definition_version_repoints (self : GreengrassBackend) (n : nat)
    (id : string) (d : FakeCoreDefinition) (cores : json) :
  OrderedDict.get id (core_definitions self) = Some d ->
  exists (ver : FakeCoreDefinitionVersion) (d' : FakeCoreDefinition)
         (w' : World GreengrassBackend),
    create_core_definition_version oracle id cores (mkWorld self n)
    = (Ok ver, w')
    /\ cv_definition ver = [("Cores", cores)]
    /\ OrderedDict.get id (core_definitions (store w')) = Some d'
    /\ cd_latest_version d' = cv_version ver
    /\ cd_latest_version_arn d' = cv_arn ver
    /\ fst (get_core_definition_version id (cd_latest_version d') w') = Ok ver
    /\ (forall old vers v,
          old <> cv_version ver ->
          OrderedDict.get id (core_definition_versions self) = Some vers ->
          OrderedDict.get old vers = Some v ->
          fst (get_core_definition_version id old w') = Ok v).
Proof.
  intros Hd.
  pose proof (create_core_definition_version_run oracle self n id d cores Hd)
    as Hrun.
  cbv zeta in Hrun. eexists _, _, _. split; [exact Hrun|].
  split; [reflexivity|].
  cbn [store core_definitions with_core_version set_core_definitions].
  split; [apply get_repointed_same|].
  split; [reflexivity|]. split; [reflexivity|].
  destruct (get_add_version_same id (uuid4 oracle n)
              (new_core_version oracle (region_name self) n id
                 [("Cores", cores)])
              (core_definition_versions self)) as (vers & Hvers & Hver & Hold).
  assert (Hget : forall k,
    fst (get_core_definition_version id k
           (mkWorld (with_core_version
                       (new_core_version oracle (region_name self) n id
                          [("Cores", cores)]) id d self) (S (S n))))
    = match OrderedDict.get k vers with
      | Some v => Ok v
      | None =>
          Raise (VersionNotFoundException
                   ("Version " ++ k ++ " of Core List Definition " ++ id
                    ++ " does not exist."))
      end).
  { intros k. unfold get_core_definition_version.
    autorewrite with run.
    cbn [store reads core_definitions core_definition_versions
         with_core_version set_core_definitions
         set_core_definition_versions].
    unfold OrderedDict.contains. rewrite get_repointed_same. cbn [negb].
    cbn [cv_version new_core_version]. rewrite Hvers.
    destruct (OrderedDict.get k vers); reflexivity. }
  split.
  - rewrite Hget.
    cbn [cd_latest_version cd_set_latest_version_arn cd_set_latest_version
         cv_version new_core_version].
    rewrite Hver. reflexivity.
  - intros old vers0 v Hne Hv0 Hv. rewrite Hget.
    rewrite (Hold old Hne), Hv0, Hv. reflexivity.
Qed.

(** C8, on the code: a later [create_subscription_definition_version]
    succeeds and stores the new version, but the definition is left as it
    was: its [latest_version] and [latest_version_arn] are not touched. *)
Theorem create_subscription_definition_version_keeps_latest
    (self : GreengrassBackend) (n : nat) (id : string)
    (d : FakeSubscriptionDefinition) (subscriptions : list Subscription) :
  OrderedDict.get id (subscription_definitions self) = Some d ->
  _validate_subscription_target_or_source subscriptions = Ok tt ->
  let r := create_subscription_definition_version oracle id subscriptions
             (mkWorld self n) in
  let ver := new_subscription_version oracle (region_name self) n id
               subscriptions in
  fst r = Ok ver
  /\ sv_subscriptions ver = subscriptions
  /\ fst (get_subscription_definition_version id (sv_version ver) (snd r))
     = Ok ver
  /\ fst (get_subscription_definition id (snd r)) = Ok d.
Proof.
  intros Hd Hv r ver. subst r.
  rewrite (create_subscription_definition_version_run oracle self n id d
             subscriptions Hd Hv).
  fold ver. cbn [fst snd]. split; [reflexivity|]. split; [reflexivity|].
  unfold get_subscription_definition_version, get_subscription_definition.
  autorewrite with run.
  cbn [store reads subscription_definitions subscription_definition_versions
       with_subscription_version set_subscription_definition_versions].
  unfold OrderedDict.contains. rewrite Hd. cbn [negb].
  destruct (get_add_version_same id (sv_version ver) ver
              (subscription_definition_versions self))
    as (vers & Hvers & Hver & _).
  rewrite Hvers, Hver. split; reflexivity.
Qed.
End LatestVersion.

(** After a definition was created with one subscription, a second
    version is stored under a new id, and the definition still points to
    the first one. *)
Lemma create_subscription_definition_version_keeps_latest_witness :
  fst (create_subscription_definition_version oracle0 (uuid_of 0)
         [later_subscription] subscription_world)
  = Ok (new_subscription_version oracle0 "eu-west-1" 5 (uuid_of 0)
          [later_subscription])
  /\ sv_version (new_subscription_version oracle0 "eu-west-1" 5 (uuid_of 0)
                   [later_subscription]) = uuid_of 5
  /\ exists d,
       fst (get_subscription_definition (uuid_of 0)
              (snd (create_subscription_definition_version oracle0
                      (uuid_of 0) [later_subscription] subscription_world)))
       = Ok d
       /\ sd_latest_version d = uuid_of 3.
Proof.
  destruct (create_subscription_definition_version_keeps_latest oracle0
              (store subscription_world) (reads subscription_world)
              (uuid_of 0) _ [later_subscription] eq_refl eq_refl)
    as (H1 & _ & _ & H4).
  split; [exact H1|]. split; [reflexivity|].
  eexists. split; [exact H4 | reflexivity].
Defined.


(** ** ARNs *)

Section Arns.
Variable oracle : Oracle.

(** C9 (amended): the ARN of every definition, version and group of the
    edge service has the format
    [arn:aws:greengrass:<region>:<account-id>:<kind>/<identifier>], with
    [/versions/<version-id>] for a version, where the region is the region
    of the backend; the ARN of a crawler, a job or a registry of the data
    catalog has the same format with the region "us-east-1", whatever the
    region of the backend is. *)
Theorem arn_formats (self : GreengrassBackend) (glue : Glue.GlueBackend)
    (n : nat) (name : option string) (resource_name : string)
    (crawler : Glue.CrawlerArgs) (job : Glue.JobArgs) :
  let region := region_name self in
  let arn := arn_of_resource "greengrass" region (get_account_id oracle) in
  let version_arn := arn_of_version "greengrass" region (get_account_id oracle) in
  (forall initial_version cores,
     json_getitem initial_version "Cores" = Ok cores ->
     exists d w',
       create_core_definition oracle name initial_version (mkWorld self n)
       = (Ok d, w')
       /\ cd_arn d = arn "greengrass/definition/cores" (cd_id d))
  /\ (forall initial_version devices,
        json_get initial_version "Devices" (JDict []) = Ok devices ->
        exists d w',
          create_device_definition oracle name initial_version
            (mkWorld self n) = (Ok d, w')
          /\ dd_arn d = arn "greengrass/definition/devices" (dd_id d))
  /\ (forall initial_version functions default_config,
        json_get initial_version "Functions" (JDict []) = Ok functions ->
        json_get initial_version "DefaultConfig" (JDict [])
        = Ok default_config ->
        exists d w',
          create_function_definition oracle name initial_version
            (mkWorld self n) = (Ok d, w')
          /\ fd_arn d = arn "greengrass/definition/functions" (fd_id d))
  /\ (forall initial_version checked resources,
        json_get initial_version "Resources" (JList []) = Ok checked ->
        _validate_resources checked = Ok tt ->
        json_get initial_version "Resources" (JDict []) = Ok resources ->
        _validate_resources resources = Ok tt ->
        exists d w',
          create_resource_definition oracle name initial_version
            (mkWorld self n) = (Ok d, w')
          /\ rd_arn d = arn "greengrass/definition/resources" (rd_id d))
  /\ (forall initial_version subscriptions,
        Subscriptions initial_version = Some subscriptions ->
        _validate_subscription_target_or_source subscriptions = Ok tt ->
        exists d w',
          create_subscription_definition oracle name initial_version
            (mkWorld self n) = (Ok d, w')
          /\ sd_arn d = arn "greengrass/definition/subscriptions" (sd_id d))
  /\ (forall initial_version,
        _validate_group_version_definitions self
          (match initial_version with
           | Some d => CoreDefinitionVersionArn d | None => None end)
          (match initial_version with
           | Some d => DeviceDefinitionVersionArn d | None => None end)
          (match initial_version with
           | Some d => FunctionDefinitionVersionArn d | None => None end)
          (match initial_version with
           | Some d => ResourceDefinitionVersionArn d | None => None end)
          (match initial_version with
           | Some d => SubscriptionDefinitionVersionArn d | None => None end)
        = Ok tt ->
        exists g w',
          create_group oracle name initial_version (mkWorld self n)
          = (Ok g, w')
          /\ g_arn g = arn "greengrass/groups" (g_group_id g))
  /\ (forall id d cores,
        OrderedDict.get id (core_definitions self) = Some d ->
        exists v w',
          create_core_definition_version oracle id cores (mkWorld self n)
          = (Ok v, w')
          /\ cv_arn v
             = version_arn "greengrass/definition/cores" id (cv_version v))
  /\ (forall id d devices,
        OrderedDict.get id (device_definitions self) = Some d ->
        exists v w',
          create_device_definition_version oracle id devices
            (mkWorld self n) = (Ok v, w')
          /\ dv_arn v
             = version_arn "greengrass/definition/devices" id (dv_version v))
  /\ (forall id d functions default_config,
        OrderedDict.get id (function_definitions self) = Some d ->
        exists v w',
          create_function_definition_version oracle id functions
            default_config (mkWorld self n) = (Ok v, w')
          /\ fv_arn v
             = version_arn "greengrass/definition/functions" id
                 (fv_version v))
  /\ (forall id d resources,
        OrderedDict.get id (resource_definitions self) = Some d ->
        _validate_resources resources = Ok tt ->
        exists v w',
          create_resource_definition_version oracle id resources
            (mkWorld self n) = (Ok v, w')
          /\ rv_arn v
             = version_arn "greengrass/definition/resources" id
                 (rv_version v))
  /\ (forall id d subscriptions,
        OrderedDict.get id (subscription_definitions self) = Some d ->
        _validate_subscription_target_or_source subscriptions = Ok tt ->
        exists v w',
          create_subscription_definition_version oracle id subscriptions
            (mkWorld self n) = (Ok v, w')
          /\ sv_arn v
             = version_arn "greengrass/definition/subscriptions" id
                 (sv_version v))
  /\ (forall id g core device function resource subscription,
        OrderedDict.get id (groups self) = Some g ->
        _validate_group_version_definitions self core device function
          resource subscription = Ok tt ->
        exists v w',
          create_group_version oracle id core device function resource
            subscription (mkWorld self n) = (Ok v, w')
          /\ gv_arn v = version_arn "greengrass/groups" id (gv_version v))
  /\ (OrderedDict.contains resource_name (Glue.crawlers glue) = false ->
      exists c,
        fst (Glue.create_crawler oracle resource_name crawler
               (mkWorld glue n)) = Ok tt
        /\ OrderedDict.get resource_name
             (Glue.crawlers
                (store (snd (Glue.create_crawler oracle resource_name crawler
                               (mkWorld glue n)))))
           = Some c
        /\ Glue.c_arn c
           = arn_of_resource "glue" "us-east-1" (get_account_id oracle)
               "crawler" resource_name)
  /\ (exists j,
        fst (Glue.create_job oracle resource_name job (mkWorld glue n))
        = Ok resource_name
        /\ OrderedDict.get resource_name
             (Glue.jobs
                (store (snd (Glue.create_job oracle resource_name job
                               (mkWorld glue n)))))
           = Some j
        /\ Glue.j_arn j
           = arn_of_resource "glue" "us-east-1" (get_account_id oracle)
               "job" resource_name)
  /\ (forall description tags,
        registry_accepted (Glue.registries glue) resource_name description
          tags ->
        exists r,
          fst (Glue.create_registry oracle resource_name description tags
                 (mkWorld glue n)) = Ok r
          /\ OrderedDict.get resource_name
               (Glue.registries
                  (store (snd (Glue.create_registry oracle resource_name
                                 description tags (mkWorld glue n)))))
             = Some r
          /\ Glue.registry_arn r
             = arn_of_resource "glue" "us-east-1" (get_account_id oracle)
                 "registry" resource_name).
Proof.
  intros region arn version_arn.
  split; [|split; [|split; [|split; [|split; [|split; [|split; [|split;
    [|split; [|split; [|split; [|split; [|split; [|split]]]]]]]]]]]]].
  - intros iv cores H. eexists _, _. split;
      [apply (create_core_definition_run oracle self n name iv cores H)|].
    reflexivity.
  - intros iv devices H. eexists _, _. split;
      [apply (create_device_definition_run oracle self n name iv devices H)|].
    reflexivity.
  - intros iv functions config H1 H2. eexists _, _. split;
      [apply (create_function_definition_run oracle self n name iv functions
                config H1 H2)|].
    reflexivity.
  - intros iv checked resources H1 V1 H2 V2. eexists _, _. split;
      [apply (create_resource_definition_run oracle self n name iv checked
                resources H1 V1 H2 V2)|].
    reflexivity.
  - intros iv subscriptions H V. eexists _, _. split;
      [apply (create_subscription_definition_run oracle self n name iv
                subscriptions H V)|].
    reflexivity.
  - intros iv V. eexists _, _. split;
      [apply (create_group_valid oracle self n name iv V)|].
    reflexivity.
  - intros id d cores H. eexists _, _. split;
      [apply (create_core_definition_version_run oracle self n id d cores H)|].
    reflexivity.
  - intros id d devices H. eexists _, _. split;
      [apply (create_device_definition_version_run oracle self n id d
                devices H)|].
    reflexivity.
  - intros id d functions config H. eexists _, _. split;
      [apply (create_function_definition_version_run oracle self n id d
                functions config H)|].
    reflexivity.
  - intros id d resources H V. eexists _, _. split;
      [apply (create_resource_definition_version_run oracle self n id d
                resources H V)|].
    reflexivity.
  - intros id d subscriptions H V. eexists _, _. split;
      [apply (create_subscription_definition_version_run oracle self n id d
                subscriptions H V)|].
    reflexivity.
  - intros id g c d f r s H V. eexists _, _. split;
      [apply (create_group_version_valid oracle self n id g c d f r s H V)|].
    reflexivity.
  - intros Hfree.
    destruct (GlueFacts.crawler_arn oracle glue n resource_name crawler Hfree)
      as (c & Hc & Harn).
    exists c. split; [|split; [exact Hc | exact Harn]].
    rewrite (GlueFacts.create_crawler_run oracle glue n resource_name crawler
               Hfree). reflexivity.
  - destruct (GlueFacts.job_arn oracle glue n resource_name job)
      as (j & Hj & Harn).
    exists j. split; [|split; [exact Hj | exact Harn]].
    rewrite GlueFacts.create_job_run. reflexivity.
  - intros description tags Hacc.
    rewrite (RegistryFacts.create_registry_ok oracle glue n resource_name
               description tags Hacc).
    cbn [fst snd store Glue.registries Glue.set_registries].
    eexists. split; [reflexivity|]. split; [|reflexivity].
    destruct Hacc as (_ & _ & _ & Hfree & _).
    rewrite OrderedDictFacts.get_app.
    apply OrderedDictFacts.contains_false in Hfree. rewrite Hfree.
    cbn [OrderedDict.get]. rewrite String.eqb_refl. reflexivity.
Qed.
End Arns.

(** A group of the backend for "eu-west-1", and a crawler and a registry
    of the catalog backend, whose region is "global". *)
Lemma arn_formats_witness :
  (exists g w',
     create_group oracle0 (Some "edge") None greengrass_backend = (Ok g, w')
     /\ g_arn g
        = "arn:aws:greengrass:eu-west-1:123456789012:greengrass/groups/"
          ++ uuid_of 0)
  /\ (exists c,
        OrderedDict.get "nightly"
          (Glue.crawlers
             (store (snd (Glue.create_crawler oracle0 "nightly"
                            (crawler_args "role")
                            (mkWorld (Glue.glue_backend "123456789012") 0)))))
        = Some c
        /\ Glue.c_arn c
           = "arn:aws:glue:us-east-1:123456789012:crawler/nightly")
  /\ exists r,
       fst (Glue.create_registry oracle0 "nightly" None None
              (mkWorld (Glue.glue_backend "123456789012") 0)) = Ok r
       /\ Glue.registry_arn r
          = "arn:aws:glue:us-east-1:123456789012:registry/nightly".
Proof.
  destruct (arn_formats oracle0 (store greengrass_backend)
              (Glue.glue_backend "123456789012") 0 (Some "edge") "nightly"
              (crawler_args "role") (job_args "role"))
    as (_ & _ & _ & _ & _ & Hgroup & _ & _ & _ & _ & _ & _ & Hcrawler & _
        & Hregistry).
  split; [|split].
  - destruct (Hgroup None eq_refl) as (g & w' & Hrun & Harn).
    exists g, w'. split; [exact Hrun|].
    rewrite Harn. injection Hrun as <- _. reflexivity.
  - destruct (Hcrawler eq_refl) as (c & _ & Hc & Harn).
    exists c. split; [exact Hc | exact Harn].
  - destruct (Hregistry None None) as (r & Hr & _ & Harn).
    { split; [simpl; lia|]. split.
      { left. split; [discriminate | reflexivity]. }
      split; [simpl; lia|]. split; [reflexivity|].
      split; [intros s [=] | intros t [=]]. }
    exists r. split; [exact Hr | exact Harn].
Defined.

End GreengrassFacts.
